(** * UX research automation: feedback analysis and survey statistics

    A shallow embedding of [analysis_automation/feedback_analyzer.py]
    (class [FeedbackAnalyzer]) and of the rating statistics of
    [survey_automation/survey_data_processor.py] (class
    [SurveyDataProcessor]), with the properties of the specification
    stated and settled against them; then of the loading, cleaning and
    summary of the survey processor, of the HTML report of
    [report_automation/research_report_generator.py] and of
    [standardize_ratings] of [utilities/data_cleaning.py], with further
    properties of the code.

    Conventions.
    - Python dictionaries keep insertion order; they are association lists
      whose keys are pairwise distinct.
    - float64 arithmetic is idealised to exact rational arithmetic ([Q]);
      a missing value (NaN, None) is [None]; [round(x, k)] rounds to the
      nearest multiple of [10^-k], ties to even. A binary float differs
      from the rational it stands for by a relative error far below
      [Num.slack], which can move a value across a rounding tie: a
      property that names a rounded value states it up to that error
      ([Num.rounds_to]) and as the exact decimal only away from the ties
      ([Num.clear_of_ties]); [Binary64] has the binary arithmetic itself,
      for the inputs on which the two differ.
    - The tokenizer is the one of ASCII texts: below code point 128 the
      class [\w] is [[A-Za-z0-9_]] and [str.lower] maps [A-Z] to [a-z]. A
      property that depends on the tokens is stated for ASCII texts
      ([Text.is_ascii], [Feedback.ascii_corpus]).
    - A method is a function from the object to its return value and the
      updated object; an exception is a value [Raised e].
    - A library function whose result the code passes on (the polarity
      scorer, [pd.read_csv], [pd.to_datetime], the number that
      [pd.to_numeric] reads, [str] of a number, [str.title]) is a
      parameter of the model. *)

From Stdlib Require Import String Ascii List Sorted Bool Arith PeanoNat ZArith QArith Qround Qabs Lia Lqa.
From Stdlib Require SpecFloat.
Import ListNotations.

Set Implicit Arguments.
Close Scope Q_scope.
Close Scope Z_scope.
Open Scope nat_scope.

(** ** Python values shared by both classes *)

Inductive exn : Type :=
| ZeroDivisionError
| KeyError (key : string)
| TypeError
| AttributeError.

Inductive outcome (A : Type) : Type :=
| Returned (a : A)
| Raised (e : exn).

Arguments Returned {A} a.
Arguments Raised {A} e.

(** ** Ordered dictionaries and [collections.Counter] *)

Module Dict.

Section WithKey.
Context {K : Type} (eqb : K -> K -> bool).

Definition dict (V : Type) : Type := list (K * V).

(** [d.get(k, default)] *)
Fixpoint get {V} (d : dict V) (k : K) (default : V) : V :=
  match d with
  | [] => default
  | (k', v) :: d' => if eqb k k' then v else get d' k default
  end.

(** [k in d] *)
Fixpoint mem {V} (d : dict V) (k : K) : bool :=
  match d with
  | [] => false
  | (k', _) :: d' => eqb k k' || mem d' k
  end.

(** [d[k] = v]: an existing key keeps its position, a new one goes last. *)
Fixpoint set {V} (d : dict V) (k : K) (v : V) : dict V :=
  match d with
  | [] => [(k, v)]
  | (k', v') :: d' => if eqb k k' then (k', v) :: d' else (k', v') :: set d' k v
  end.

Definition keys {V} (d : dict V) : list K := map fst d.

(** [d[k]] where the key is present *)
Fixpoint find {V} (d : dict V) (k : K) : option V :=
  match d with
  | [] => None
  | (k', v) :: d' => if eqb k k' then Some v else find d' k
  end.

(** [l.count(k)] *)
Definition occurrences (k : K) (l : list K) : nat :=
  length (filter (eqb k) l).

(** [l.index(k)], and [len(l)] where [k] is not in [l] *)
Fixpoint index_of (k : K) (l : list K) : nat :=
  match l with
  | [] => 0
  | x :: l' => if eqb k x then 0 else S (index_of k l')
  end.

(** [Counter(iterable)]: each element does [self[elem] = self.get(elem, 0) + 1],
    so the keys stand in the order of their first occurrence. *)
Definition Counter (iterable : list K) : dict nat :=
  fold_left (fun self elem => set self elem (get self elem 0 + 1)) iterable [].

(** Stable insertion of an entry into a list sorted by descending count:
    the entry goes behind the entries with a count at least its own. *)
Fixpoint insert_desc (x : K * nat) (l : dict nat) : dict nat :=
  match l with
  | [] => [x]
  | y :: l' => if snd y <? snd x then x :: y :: l' else y :: insert_desc x l'
  end.

(** [sorted(d.items(), key=itemgetter(1), reverse=True)]: descending by
    value, entries with equal values keep their order in [d]. *)
Definition sorted_desc (d : dict nat) : dict nat :=
  fold_left (fun acc x => insert_desc x acc) d [].

(** [Counter.most_common(n)] is [heapq.nlargest(n, items, key=itemgetter(1))],
    which is [sorted(items, key=itemgetter(1), reverse=True)[:n]]. *)
Definition most_common (n : nat) (c : dict nat) : dict nat :=
  firstn n (sorted_desc c).

(** An entry is ranked before another: a greater count, or the same
    count and an earlier position [pos] of the key. *)
Definition before (pos : K -> nat) (a b : K * nat) : Prop :=
  snd b < snd a \/ (snd a = snd b /\ pos (fst a) < pos (fst b)).

End WithKey.

Arguments dict : clear implicits.

End Dict.

(** ** Text: [str.lower] and [re.findall(r'\b\w+\b', text)] *)

Module Text.

(** [\w] on a character below code point 128 *)
Definition is_word_char (c : ascii) : bool :=
  let n := nat_of_ascii c in
  ((48 <=? n) && (n <=? 57)) || ((65 <=? n) && (n <=? 90))
  || (n =? 95) || ((97 <=? n) && (n <=? 122)).

(** [str.lower] on a character below code point 128 *)
Definition lower_char (c : ascii) : ascii :=
  let n := nat_of_ascii c in
  if (65 <=? n) && (n <=? 90) then ascii_of_nat (n + 32) else c.

Fixpoint lower (s : string) : string :=
  match s with
  | EmptyString => EmptyString
  | String c s' => String (lower_char c) (lower s')
  end.

Definition flush (word : string) : list string :=
  match word with
  | EmptyString => []
  | _ => [word]
  end.

(** The matches of [\b\w+\b] are the maximal runs of word characters;
    [word] is the run being read. *)
Fixpoint findall_from (word : string) (text : string) : list string :=
  match text with
  | EmptyString => flush word
  | String c text' =>
      if is_word_char c
      then findall_from (word ++ String c EmptyString)%string text'
      else flush word ++ findall_from EmptyString text'
  end.

Definition findall_words (text : string) : list string :=
  findall_from EmptyString text.

(** [re.findall(r'\b\w+\b', str(feedback).lower())] *)
Definition tokenize (feedback : string) : list string :=
  findall_words (lower feedback).

(** [word in vocabulary] for a list of strings *)
Definition in_list (word : string) (vocabulary : list string) : bool :=
  existsb (String.eqb word) vocabulary.

(** Every character of [s] satisfies [p]. *)
Fixpoint all_chars (p : ascii -> bool) (s : string) : bool :=
  match s with
  | EmptyString => true
  | String c s' => p c && all_chars p s'
  end.

(** The text is ASCII: there Python's [\w] and [str.lower] are the ones
    of this module. *)
Definition is_ascii (s : string) : bool :=
  all_chars (fun c => nat_of_ascii c <? 128) s.

(** [sep.join(items)] *)
Fixpoint join (sep : string) (items : list string) : string :=
  match items with
  | [] => EmptyString
  | [item] => item
  | item :: items' => (item ++ sep ++ join sep items')%string
  end.

End Text.

(** ** Numbers *)

Module Num.

(** [round(x, ndigits)]: nearest multiple of [10^-ndigits], ties to even.
    On the binary float that the code holds for [x] the result is this one
    when [x] is [clear_of_ties], and one of the two neighbours otherwise
    ([rounds_to]). *)
Definition round (x : Q) (ndigits : nat) : Q :=
  let scale := (10 ^ Z.of_nat ndigits)%Z in
  let y := (x * inject_Z scale)%Q in
  let f := Qfloor y in
  let twice_rest := (2 * (y - inject_Z f))%Q in
  let n :=
    if Qeq_bool twice_rest 1
    then (if Z.even f then f else f + 1)%Z
    else (f + Qfloor twice_rest)%Z in
  Qred (inject_Z n / inject_Z scale).

(** [a / b * 100] for counts [a] and [b], [b] not zero, as a rational; the
    code holds the binary float next to it. *)
Definition percent (a b : nat) : Q :=
  (inject_Z (Z.of_nat a) / inject_Z (Z.of_nat b) * 100)%Q.

(** [round(sqrt(v), ndigits)] for [v >= 0]: the nearest [n / 10^ndigits] to
    the root, ties to even. With [m] the integer root of
    [floor(4 * v * 10^(2*ndigits))], [n] is [(m + 1) / 2], and the root is
    half-way between two candidates when [m] is odd and [m * m] is exactly
    [4 * v * 10^(2*ndigits)]. *)
Definition round_sqrt (v : Q) (ndigits : nat) : Q :=
  let scale := (10 ^ Z.of_nat ndigits)%Z in
  let w := (4 * v * inject_Z (scale * scale))%Q in
  let m := Z.sqrt (Qfloor w) in
  let n :=
    if Z.odd m && Qeq_bool (inject_Z (m * m)) w
    then (if Z.even ((m - 1) / 2) then (m - 1) / 2 else (m + 1) / 2)%Z
    else ((m + 1) / 2)%Z in
  Qred (inject_Z n / inject_Z scale).

(** The relative error allowed for a number that the code holds as a
    binary float *)
Definition slack : Q := 1 # 1000000000.

(** [r] is [x] rounded to [ndigits] decimals as binary floats give it: [r]
    is a multiple [t / 10^ndigits] that lies within half a unit of [x],
    either of the two at a tie, both distances read up to [slack]. *)
Definition rounds_to (r x : Q) (ndigits : nat) : Prop :=
  exists t : Z,
    (Qabs (r - inject_Z t / inject_Z (10 ^ Z.of_nat ndigits))
     <= slack * (Qabs x + 1))%Q /\
    (Qabs (inject_Z t / inject_Z (10 ^ Z.of_nat ndigits) - x)
     <= 1 / (2 * inject_Z (10 ^ Z.of_nat ndigits)) + slack * (Qabs x + 1))%Q.

(** [x] is clear of the ties of [round(x, ndigits)]: its distance to every
    value half-way between two multiples of [10^-ndigits] exceeds the
    error of the binary floats, so that [round] gives the same decimal on
    the float that the code computes as on [x] itself. *)
Definition clear_of_ties (x : Q) (ndigits : nat) : Prop :=
  let y := (x * inject_Z (10 ^ Z.of_nat ndigits))%Q in
  (slack * (Qabs y + 1) <= Qabs (y - inject_Z (Qfloor y) - (1 # 2)))%Q.

End Num.

(** ** Binary floats

    The float64 numbers of the code and the operations of [numpy] on them,
    for the finite values; used where a property turns on the error of the
    binary representation. *)

Module Binary64.

Definition float : Type := SpecFloat.spec_float.

Definition prec : Z := 53.
Definition emax : Z := 1024.

(** The float of an integer *)
Definition of_Z (z : Z) : float := SpecFloat.binary_normalize prec emax z 0 false.

Definition div (x y : float) : float := SpecFloat.SFdiv prec emax x y.

Definition mul (x y : float) : float := SpecFloat.SFmul prec emax x y.

(** The number that a finite float stands for *)
Definition to_Q (x : float) : Q :=
  match x with
  | SpecFloat.S754_finite s m e =>
      let v := if s then Z.neg m else Z.pos m in
      if (0 <=? e)%Z then inject_Z (v * 2 ^ e) else (inject_Z v / inject_Z (2 ^ (- e)))%Q
  | _ => 0%Q
  end.

(** [np.rint]: the nearest whole number, ties to even *)
Definition rint (x : float) : float :=
  match x with
  | SpecFloat.S754_finite _ _ _ => of_Z (Qfloor (Num.round (to_Q x) 0))
  | _ => x
  end.

(** [np.round(x, decimals)], which is
    [np.rint(x * 10**decimals) / 10**decimals] *)
Definition round (x : float) (decimals : nat) : float :=
  div (rint (mul x (of_Z (10 ^ Z.of_nat decimals)))) (of_Z (10 ^ Z.of_nat decimals)).

End Binary64.

(** [x > y] on numbers *)
Definition Qgtb (x y : Q) : bool :=
  match Qcompare x y with Gt => true | _ => false end.

(** [x <= y] on numbers *)
Definition Qleb (x y : Q) : bool := negb (Qgtb x y).

(** * The feedback analyzer ([feedback_analyzer.py]) *)

Module Feedback.

Import Dict Text.

Inductive Sentiment : Type := positive | negative | neutral.

Definition Sentiment_eqb (a b : Sentiment) : bool :=
  match a, b with
  | positive, positive | negative, negative | neutral, neutral => true
  | _, _ => false
  end.

(** [self.feedback_data]: the column ['feedback'] ([None] for a value
    that [pd.isna] holds of), and the two columns that [analyze_sentiment]
    adds. *)
Record DataFrame : Type := {
  feedback : list (option string);
  sentiment : option (list Sentiment);
  sentiment_score : option (list Q)
}.

Record SentimentAnalysis : Type := {
  distribution : dict Sentiment nat;
  percentages : dict Sentiment Q;
  average_sentiment : Q
}.

Record ThemeAnalysis : Type := {
  common_keywords : dict string nat;
  theme_categories : dict string nat;
  total_keywords_found : nat
}.

Record PriorityIssue : Type := {
  issue : string;
  frequency : nat;
  percentage : Q
}.

(** What [identify_priority_issues] returns besides [None]: the dictionary
    [{'message': ...}] or the ranked list. *)
Inductive PriorityResult : Type :=
| NoNegativeFeedback (message : string)
| PriorityList (issues : list PriorityIssue).

(** [self.analysis_results]: a dictionary with at most these three keys. *)
Record AnalysisResults : Type := {
  sentiment_analysis : option SentimentAnalysis;
  theme_analysis : option ThemeAnalysis;
  priority_issues : option PriorityResult
}.

Record FeedbackAnalyzer : Type := {
  feedback_data : option DataFrame;
  analysis_results : AnalysisResults
}.

(** The findings of [generate_insights_report], each an f-string of the
    source with the interpolated values as arguments:
    - ["Strong positive sentiment: {pos_pct}% of feedback is positive"],
    - ["High negative sentiment: {neg_pct}% of feedback is negative"],
    - ["Most discussed theme: {top_theme[0]} ({top_theme[1]} mentions)"],
    - ["Top user complaint: '{issue}' mentioned by {percentage}% of users"]. *)
Inductive Insight : Type :=
| StrongPositiveSentiment (pos_pct : Q)
| HighNegativeSentiment (neg_pct : Q)
| MostDiscussedTheme (theme : string) (mentions : nat)
| TopUserComplaint (issue : string) (percentage : Q).

Record Report : Type := {
  timestamp : string;
  total_feedback : nat;
  summary : option (dict Sentiment Q);
  key_insights : list Insight;
  recommendations : list string
}.

Module Vocab.

Open Scope string_scope.

Definition ux_keywords : list string := [
  "easy"; "difficult"; "confusing"; "intuitive"; "simple"; "complicated";
  "fast"; "slow"; "quick"; "loading"; "responsive"; "laggy";
  "design"; "interface"; "layout"; "navigation"; "menu"; "button";
  "search"; "find"; "discover"; "browse"; "filter"; "sort";
  "recommendation"; "suggest"; "personalize"; "relevant"; "accurate";
  "bug"; "error"; "crash"; "broken"; "issue"; "problem";
  "love"; "hate"; "like"; "dislike"; "amazing"; "terrible"; "great"; "awful"
].

Definition theme_categories : dict string (list string) := [
  ("usability", ["easy"; "difficult"; "confusing"; "intuitive"; "simple"; "complicated"]);
  ("performance", ["fast"; "slow"; "quick"; "loading"; "responsive"; "laggy"]);
  ("design", ["design"; "interface"; "layout"; "navigation"; "menu"; "button"]);
  ("functionality", ["search"; "find"; "discover"; "browse"; "filter"; "sort"]);
  ("personalization", ["recommendation"; "suggest"; "personalize"; "relevant"; "accurate"]);
  ("technical_issues", ["bug"; "error"; "crash"; "broken"; "issue"; "problem"]);
  ("sentiment", ["love"; "hate"; "like"; "dislike"; "amazing"; "terrible"; "great"; "awful"])
].

Definition problem_keywords : list string := [
  "slow"; "confusing"; "difficult"; "complicated"; "broken"; "error";
  "bug"; "crash"; "loading"; "laggy"; "terrible"; "awful"; "hate";
  "problem"; "issue"; "frustrating"; "annoying"
].

End Vocab.

(** [__init__] *)
Definition init : FeedbackAnalyzer :=
  {| feedback_data := None;
     analysis_results :=
       {| sentiment_analysis := None; theme_analysis := None; priority_issues := None |} |}.

(** [load_feedback] on a list: [pd.DataFrame({'feedback': feedback_list})] *)
Definition load_feedback (self : FeedbackAnalyzer) (feedback_list : list (option string))
  : bool * FeedbackAnalyzer :=
  (true,
   {| feedback_data :=
        Some {| feedback := feedback_list; sentiment := None; sentiment_score := None |};
      analysis_results := analysis_results self |}).

(** [pd.Series(values).value_counts()]: counts in descending order, equal
    counts in the order of first appearance. *)
Definition value_counts (values : list Sentiment) : dict Sentiment nat :=
  sorted_desc (Counter Sentiment_eqb values).

(** [sum(scores)] *)
Definition Qsum (scores : list Q) : Q := fold_left Qplus scores 0%Q.

Section Scoring.

(** [TextBlob(text).sentiment.polarity], the scoring function *)
Variable polarity : string -> Q.

(** The body of the loop of [analyze_sentiment] for one response. *)
Definition classify (feedback : option string) : Sentiment * Q :=
  match feedback with
  | None => (neutral, 0%Q)
  | Some text =>
      let polarity := polarity text in
      if Qgtb polarity (1 # 10) then (positive, polarity)
      else if Qgtb (- (1 # 10)) polarity then (negative, polarity)
      else (neutral, polarity)
  end.

Definition analyze_sentiment (self : FeedbackAnalyzer)
  : outcome (option SentimentAnalysis) * FeedbackAnalyzer :=
  match feedback_data self with
  | None => (Returned None, self)
  | Some df =>
      let annotated := map classify (feedback df) in
      let sentiments := map fst annotated in
      let sentiment_scores := map snd annotated in
      let self' :=
        {| feedback_data :=
             Some {| feedback := feedback df;
                     sentiment := Some sentiments;
                     sentiment_score := Some sentiment_scores |};
           analysis_results := analysis_results self |} in
      let sentiment_dist := value_counts sentiments in
      let sentiment_percentages :=
        map (fun kv => (fst kv, Num.round (Num.percent (snd kv) (length sentiments)) 1))
            sentiment_dist in
      match length sentiment_scores with
      | 0 => (Raised ZeroDivisionError, self')
      | S _ =>
          let result :=
            {| distribution := sentiment_dist;
               percentages := sentiment_percentages;
               average_sentiment :=
                 Num.round (Qsum sentiment_scores
                            / inject_Z (Z.of_nat (length sentiment_scores))) 3 |} in
          (Returned (Some result),
           {| feedback_data := feedback_data self';
              analysis_results :=
                {| sentiment_analysis := Some result;
                   theme_analysis := theme_analysis (analysis_results self);
                   priority_issues := priority_issues (analysis_results self) |} |})
      end
  end.

End Scoring.

(** The words of a response; a missing response is skipped. *)
Definition words_of (feedback : option string) : list string :=
  match feedback with
  | None => []
  | Some text => tokenize text
  end.

(** [all_keywords] of [extract_themes] *)
Definition all_keywords (feedback : list (option string)) : list string :=
  flat_map (fun fb => filter (fun word => in_list word Vocab.ux_keywords) (words_of fb))
           feedback.

(** [{k: v for k, v in keyword_counts.items() if v >= min_frequency}] *)
Definition common_themes_of (keyword_counts : dict string nat) (min_frequency : Z)
  : dict string nat :=
  filter (fun kv => (min_frequency <=? Z.of_nat (snd kv))%Z) keyword_counts.

(** The body of the loop over [theme_categories.items()] *)
Definition category_step (common_themes : dict string nat)
    (categorized_themes : dict string nat) (item : string * list string) : dict string nat :=
  let category_count :=
    list_sum (map (fun keyword => get String.eqb common_themes keyword 0) (snd item)) in
  if 0 <? category_count
  then set String.eqb categorized_themes (fst item) category_count
  else categorized_themes.

Definition categorize (common_themes : dict string nat) : dict string nat :=
  fold_left (category_step common_themes) Vocab.theme_categories [].

Definition extract_themes (self : FeedbackAnalyzer) (min_frequency : Z)
  : option ThemeAnalysis * FeedbackAnalyzer :=
  match feedback_data self with
  | None => (None, self)
  | Some df =>
      let all_keywords := all_keywords (feedback df) in
      let keyword_counts := Counter String.eqb all_keywords in
      let common_themes := common_themes_of keyword_counts min_frequency in
      let categorized_themes := categorize common_themes in
      let result :=
        {| common_keywords := common_themes;
           theme_categories := categorized_themes;
           total_keywords_found := length all_keywords |} in
      (Some result,
       {| feedback_data := feedback_data self;
          analysis_results :=
            {| sentiment_analysis := sentiment_analysis (analysis_results self);
               theme_analysis := Some result;
               priority_issues := priority_issues (analysis_results self) |} |})
  end.

(** [self.feedback_data[self.feedback_data['sentiment'] == 'negative']['feedback']] *)
Definition negative_rows (df_feedback : list (option string)) (sentiments : list Sentiment)
  : list (option string) :=
  map fst (filter (fun row => Sentiment_eqb (snd row) negative)
                  (combine df_feedback sentiments)).

(** [[kw for kw in negative_keywords if kw in problem_keywords]] *)
Definition problem_mentions (negative_keywords : list string) : list string :=
  filter (fun kw => in_list kw Vocab.problem_keywords) negative_keywords.

(** [Counter([kw for kw in negative_keywords if kw in problem_keywords])] *)
Definition negative_issues_of (negative_feedback : list (option string)) : dict string nat :=
  let negative_keywords := flat_map words_of negative_feedback in
  Counter String.eqb (problem_mentions negative_keywords).

Definition identify_priority_issues (self : FeedbackAnalyzer)
  : outcome (option PriorityResult) * FeedbackAnalyzer :=
  match sentiment_analysis (analysis_results self) with
  | None => (Returned None, self)
  | Some _ =>
      match feedback_data self with
      | None => (Raised TypeError, self)
      | Some df =>
          match sentiment df with
          | None => (Raised (KeyError "sentiment"), self)
          | Some sentiments =>
              let negative_feedback := negative_rows (feedback df) sentiments in
              if length negative_feedback =? 0
              then (Returned (Some (NoNegativeFeedback "No negative feedback found")), self)
              else
                let negative_issues := negative_issues_of negative_feedback in
                let priority_issues :=
                  map (fun item =>
                         {| issue := fst item;
                            frequency := snd item;
                            percentage :=
                              Num.round (Num.percent (snd item) (length (feedback df))) 1 |})
                      (most_common 5 negative_issues) in
                (Returned (Some (PriorityList priority_issues)),
                 {| feedback_data := feedback_data self;
                    analysis_results :=
                      {| sentiment_analysis := sentiment_analysis (analysis_results self);
                         theme_analysis := theme_analysis (analysis_results self);
                         priority_issues := Some (PriorityList priority_issues) |} |})
          end
      end
  end.

(** [max(themes.items(), key=lambda x: x[1]) if themes else None]: the first
    entry of greatest value. *)
Definition top_theme_of (themes : dict string nat) : option (string * nat) :=
  fold_left
    (fun best item =>
       match best with
       | None => Some item
       | Some b => if snd b <? snd item then Some item else Some b
       end)
    themes None.

(** The findings drawn from ['sentiment_analysis'] *)
Definition sentiment_insights (sentiment : SentimentAnalysis) : list Insight :=
  let pos_pct := get Sentiment_eqb (percentages sentiment) positive 0%Q in
  let neg_pct := get Sentiment_eqb (percentages sentiment) negative 0%Q in
  if Qgtb pos_pct 60 then [StrongPositiveSentiment pos_pct]
  else if Qgtb neg_pct 30 then [HighNegativeSentiment neg_pct]
  else [].

(** The finding drawn from ['theme_analysis'] *)
Definition theme_insights (themes : ThemeAnalysis) : list Insight :=
  match top_theme_of (theme_categories themes) with
  | Some top_theme => [MostDiscussedTheme (fst top_theme) (snd top_theme)]
  | None => []
  end.

(** [issues and not isinstance(issues, dict)], then [issues[0]] *)
Definition top_issue_of (issues : PriorityResult) : option PriorityIssue :=
  match issues with
  | NoNegativeFeedback _ => None
  | PriorityList [] => None
  | PriorityList (top_issue :: _) => Some top_issue
  end.

Definition recommendation_for (issue_type : string) : list string :=
  if in_list issue_type ["slow"; "loading"; "laggy"]%string
  then ["Investigate performance optimization opportunities"%string]
  else if in_list issue_type ["confusing"; "difficult"; "complicated"]%string
  then ["Consider UX/UI simplification and user testing"%string]
  else if in_list issue_type ["broken"; "error"; "bug"; "crash"]%string
  then ["Prioritize bug fixes and technical stability improvements"%string]
  else [].

Definition is_empty (results : AnalysisResults) : bool :=
  match sentiment_analysis results, theme_analysis results, priority_issues results with
  | None, None, None => true
  | _, _, _ => false
  end.

Definition from_option {A B} (f : A -> list B) (o : option A) : list B :=
  match o with
  | Some a => f a
  | None => []
  end.

(** [generate_insights_report]; [now] is
    [datetime.now().strftime('%Y-%m-%d %H:%M:%S')]. *)
Definition generate_insights_report (now : string) (self : FeedbackAnalyzer)
  : outcome (option Report) :=
  let results := analysis_results self in
  if is_empty results then Returned None
  else
    match feedback_data self with
    | None => Raised TypeError
    | Some df =>
        let top_issue :=
          match priority_issues results with
          | Some issues => top_issue_of issues
          | None => None
          end in
        Returned (Some
          {| timestamp := now;
             total_feedback := length (feedback df);
             summary := option_map percentages (sentiment_analysis results);
             key_insights :=
               from_option sentiment_insights (sentiment_analysis results)
               ++ from_option theme_insights (theme_analysis results)
               ++ from_option
                    (fun top_issue =>
                       [TopUserComplaint (issue top_issue) (percentage top_issue)])
                    top_issue;
             recommendations :=
               from_option (fun top_issue => recommendation_for (issue top_issue)) top_issue |})
    end.

(** ** Notions used to state the properties *)

(** The words of the whole corpus *)
Definition corpus_words (feedback : list (option string)) : list string :=
  flat_map words_of feedback.

(** The count of a keyword that reaches the threshold, and zero otherwise *)
Definition kept_count (feedback : list (option string)) (min_frequency : Z) (kw : string)
  : nat :=
  let raw := occurrences String.eqb kw (corpus_words feedback) in
  if (min_frequency <=? Z.of_nat raw)%Z then raw else 0.

(** "slow" twice and "fast" once *)
Definition themes_corpus : list (option string) := [Some "slow slow fast"%string].

(** A scoring function for examples: a text that starts with "good" scores
    1/2, one that starts with "bad" scores -1/2, any other scores 0. *)
Definition prefix_polarity (text : string) : Q :=
  if String.prefix "good" text then 1 # 2
  else if String.prefix "bad" text then - (1 # 2)
  else 0%Q.

(** Thirteen positive and seven negative responses *)
Definition split_corpus : list (option string) :=
  repeat (Some "good"%string) 13 ++ repeat (Some "bad"%string) 7.

(** The analyzer after [load_feedback] and [analyze_sentiment] *)
Definition analyzed (polarity : string -> Q) (feedback_list : list (option string))
  : FeedbackAnalyzer :=
  snd (analyze_sentiment polarity (snd (load_feedback init feedback_list))).

(** [negative_keywords]: the words of the responses whose sentiment is
    negative, in the order of the texts *)
Definition negative_keywords_of (df_feedback : list (option string))
    (sentiments : list Sentiment) : list string :=
  flat_map words_of (negative_rows df_feedback sentiments).

(** The problem words among [words] with their counts, in descending order
    of count *)
Definition ranking (words : list string) : dict string nat :=
  sorted_desc (Counter String.eqb (problem_mentions words)).

(** The position of the first mention of a problem word *)
Definition first_mention (words : list string) (kw : string) : nat :=
  index_of String.eqb kw (problem_mentions words).

(** Issues of equal frequency stand in the order of the problem vocabulary. *)
Definition ties_by_vocabulary (issues : list PriorityIssue) : Prop :=
  forall i j p q,
    i < j -> nth_error issues i = Some p -> nth_error issues j = Some q ->
    frequency p = frequency q ->
    index_of String.eqb (issue p) Vocab.problem_keywords
    < index_of String.eqb (issue q) Vocab.problem_keywords.

(** One negative response that says "slow" three times *)
Definition echo_corpus : list (option string) :=
  [Some "bad: slow, slow and slow"%string].

(** Twenty responses, three of them negative, one of which has "slow" *)
Definition slow_corpus : list (option string) :=
  [Some "bad, it is slow"%string; Some "bad"%string; Some "bad layout"%string]
  ++ repeat (Some "good"%string) 10 ++ repeat None 7.

(** The sum of [g] over the counts of a dictionary *)
Definition count_total {K : Type} (g : nat -> Q) (d : dict K nat) : Q :=
  Qsum (map (fun kv => g (snd kv)) d).

(** The sum of the reported category percentages *)
Definition percentage_total (result : SentimentAnalysis) : Q :=
  Qsum (map snd (percentages result)).

(** [(sentiment_dist / len(sentiments) * 100).round(1)] for one count, in
    the binary floats of the code *)
Definition binary64_percentage (count total : nat) : Binary64.float :=
  Binary64.round
    (Binary64.mul
       (Binary64.div (Binary64.of_Z (Z.of_nat count)) (Binary64.of_Z (Z.of_nat total)))
       (Binary64.of_Z 100))
    1.

(** The sum of the numbers that the percentages of [total] responses stand
    for as binary floats *)
Definition binary64_percentage_total (result : SentimentAnalysis) (total : nat) : Q :=
  Qsum (map (fun kv => Binary64.to_Q (binary64_percentage (snd kv) total))
            (distribution result)).

(** Every text of the responses is ASCII. *)
Definition ascii_corpus (df_feedback : list (option string)) : bool :=
  forallb (fun fb => match fb with Some text => Text.is_ascii text | None => true end)
          df_feedback.


(** The sentiment and the score that the analysis has written in row [i] *)
Definition annotation_at (self : FeedbackAnalyzer) (i : nat) : option (Sentiment * Q) :=
  match feedback_data self with
  | Some df =>
      match sentiment df, sentiment_score df with
      | Some sentiments, Some scores =>
          match nth_error sentiments i, nth_error scores i with
          | Some s, Some q => Some (s, q)
          | _, _ => None
          end
      | _, _ => None
      end
  | None => None
  end.

End Feedback.

(** * The survey data processor ([survey_data_processor.py]) *)

Module Survey.

Import Dict.

(** A cell of the table: a number, a string, or missing (NaN). *)
Inductive cell : Type :=
| Num (x : Q)
| Str (s : string)
| NaN.

Definition Series : Type := list cell.

(** The columns of the table by name, all of the same length. *)
Definition DataFrame : Type := dict string Series.

(** [a == b] on cells: a missing value equals nothing. *)
Definition cell_eqb (a b : cell) : bool :=
  match a, b with
  | Num x, Num y => Qeq_bool x y
  | Str s, Str t => String.eqb s t
  | _, _ => false
  end.

(** The identity of values for [Series.unique()] and as dictionary keys:
    the missing value is one value. *)
Definition same_cell (a b : cell) : bool :=
  match a, b with
  | NaN, NaN => true
  | _, _ => cell_eqb a b
  end.

(** [Series.unique()]: the distinct values in the order of appearance. *)
Definition unique (s : Series) : list cell :=
  fold_left (fun seen c => if existsb (same_cell c) seen then seen else seen ++ [c]) s [].

(** The values of a column read as numbers: a reduction ([mean], [max],
    ...) or a comparison with a number raises [TypeError] on a string. *)
Fixpoint floats (s : Series) : outcome (list (option Q)) :=
  match s with
  | [] => Returned []
  | Str _ :: _ => Raised TypeError
  | c :: s' =>
      match floats s' with
      | Returned vals => Returned (match c with Num x => Some x | _ => None end :: vals)
      | Raised e => Raised e
      end
  end.

(** The non-missing values *)
Definition present (vals : list (option Q)) : list Q :=
  flat_map (fun v => match v with Some x => [x] | None => [] end) vals.

Definition Qsum (xs : list Q) : Q := fold_left Qplus xs 0%Q.

Definition Qlen (xs : list Q) : Q := inject_Z (Z.of_nat (length xs)).

(** [Series.mean()]: NaN when nothing is present. *)
Definition mean (vals : list (option Q)) : option Q :=
  match present vals with
  | [] => None
  | xs => Some (Qsum xs / Qlen xs)%Q
  end.

(** [Series.count()] *)
Definition count (vals : list (option Q)) : nat := length (present vals).

(** [Series.max()]: NaN when nothing is present. *)
Definition max (vals : list (option Q)) : option Q :=
  match present vals with
  | [] => None
  | x :: xs => Some (fold_left (fun m y => if Qgtb y m then y else m) xs x)
  end.

Fixpoint insert_asc (x : Q) (l : list Q) : list Q :=
  match l with
  | [] => [x]
  | y :: l' => if Qgtb y x then x :: y :: l' else y :: insert_asc x l'
  end.

Definition sorted_asc (xs : list Q) : list Q :=
  fold_left (fun acc x => insert_asc x acc) xs [].

(** [Series.median()] *)
Definition median (vals : list (option Q)) : option Q :=
  let xs := sorted_asc (present vals) in
  let n := length xs in
  match n with
  | 0 => None
  | _ =>
      if Nat.even n
      then Some (Qred ((nth (n / 2 - 1) xs 0 + nth (n / 2) xs 0) / 2))%Q
      else Some (nth (n / 2) xs 0%Q)
  end.

(** The sample variance (one degree of freedom removed) *)
Definition variance (xs : list Q) : Q :=
  let m := (Qsum xs / Qlen xs)%Q in
  (Qsum (map (fun x => (x - m) * (x - m)) xs) / (Qlen xs - 1))%Q.

(** [round(Series.std(), ndigits)]: NaN for fewer than two values. *)
Definition std_rounded (vals : list (option Q)) (ndigits : nat) : option Q :=
  let xs := present vals in
  if length xs <? 2 then None else Some (Num.round_sqrt (variance xs) ndigits).

(** [max() <= bound], false for NaN *)
Definition max_le (vals : list (option Q)) (bound : Q) : bool :=
  match max vals with
  | Some m => Qleb m bound
  | None => false
  end.

(** [(col >= bound).sum()] and [(col <= bound).sum()]; a comparison with
    NaN is false. *)
Definition count_ge (vals : list (option Q)) (bound : Q) : nat :=
  length (filter (fun v => match v with Some x => Qleb bound x | None => false end) vals).

Definition count_le (vals : list (option Q)) (bound : Q) : nat :=
  length (filter (fun v => match v with Some x => Qleb x bound | None => false end) vals).

(** An entry [metrics[col]]; for the two keys that are present only under
    a condition, [None] is the absent key. *)
Record Metrics : Type := {
  m_mean : option Q;
  m_median : option Q;
  m_count : nat;
  m_std : option Q;
  m_satisfaction_rate : option Q;
  m_nps_score : option Q
}.

(** An entry [segment_metrics[rating_col]]; here [None] for
    ['satisfaction_rate'] is the value [None]. *)
Record SegmentMetrics : Type := {
  s_mean : option Q;
  s_count : nat;
  s_satisfaction_rate : option Q
}.

Record Insights : Type := {
  satisfaction_metrics : option (dict string Metrics);
  segment_analysis : option (dict cell (dict string SegmentMetrics))
}.

Record SurveyDataProcessor : Type := {
  file_path : string;
  data : option DataFrame;
  processed_data : option DataFrame;
  insights : Insights
}.

(** [sub in s] *)
Fixpoint contains (s sub : string) : bool :=
  String.prefix sub s
  || match s with
     | EmptyString => false
     | String _ s' => contains s' sub
     end.

(** [[col for col in df.columns if 'rating' in col.lower()]] *)
Definition rating_columns (df : DataFrame) : list string :=
  filter (fun col => contains (Text.lower col) "rating") (keys df).

(** [round(x, ndigits)] of a value that may be NaN *)
Definition round_opt (x : option Q) (ndigits : nat) : option Q :=
  option_map (fun v => Num.round v ndigits) x.

(** The statistics of one rating column: the body of the loop of
    [calculate_satisfaction_metrics]. *)
Definition column_metrics (vals : list (option Q)) : Metrics :=
  {| m_mean := round_opt (mean vals) 2;
     m_median := median vals;
     m_count := count vals;
     m_std := std_rounded vals 2;
     m_satisfaction_rate :=
       if max_le vals 5
       then Some (Num.round (Num.percent (count_ge vals 4) (length vals)) 1)
       else None;
     m_nps_score :=
       if max_le vals 10
       then Some (Num.round
                    ((inject_Z (Z.of_nat (count_ge vals 9)) - inject_Z (Z.of_nat (count_le vals 6)))
                     / inject_Z (Z.of_nat (length vals)) * 100)%Q 1)
       else None |}.

(** The statistics of one rating column within a segment: the body of the
    inner loop of [analyze_by_segments]; [rows] is [len(segment_data)]. *)
Definition segment_column_metrics (vals : list (option Q)) (rows : nat) : SegmentMetrics :=
  {| s_mean := round_opt (mean vals) 2;
     s_count := count vals;
     s_satisfaction_rate :=
       if max_le vals 5
       then Some (Num.round (Num.percent (count_ge vals 4) rows) 1)
       else None |}.

(** A loop that fills a dictionary and stops at the first exception. *)
Fixpoint fill {A V} (entry : A -> outcome (string * V)) (items : list A) (acc : dict string V)
  : outcome (dict string V) :=
  match items with
  | [] => Returned acc
  | item :: items' =>
      match entry item with
      | Returned kv => fill entry items' (set String.eqb acc (fst kv) (snd kv))
      | Raised e => Raised e
      end
  end.

(** [df[col]] *)
Definition column (df : DataFrame) (col : string) : Series := get String.eqb df col [].

Definition set_insights (self : SurveyDataProcessor) (i : Insights) : SurveyDataProcessor :=
  {| file_path := file_path self;
     data := data self;
     processed_data := processed_data self;
     insights := i |}.

Definition calculate_satisfaction_metrics (self : SurveyDataProcessor)
  : outcome (option (dict string Metrics)) * SurveyDataProcessor :=
  match processed_data self with
  | None => (Returned None, self)
  | Some df =>
      match fill (fun col =>
                    match floats (column df col) with
                    | Returned vals => Returned (col, column_metrics vals)
                    | Raised e => Raised e
                    end)
                 (rating_columns df) [] with
      | Returned metrics =>
          (Returned (Some metrics),
           set_insights self
             {| satisfaction_metrics := Some metrics;
                segment_analysis := segment_analysis (insights self) |})
      | Raised e => (Raised e, self)
      end
  end.

(** [series[mask]]: the rows where the mask holds. *)
Definition select {A} (mask : list bool) (values : list A) : list A :=
  map snd (filter fst (combine mask values)).

(** [df[df[segment_column] == segment]] *)
Definition segment_rows (df : DataFrame) (segment_column : string) (segment : cell) : DataFrame :=
  let mask := map (fun c => cell_eqb c segment) (column df segment_column) in
  map (fun col => (fst col, select mask (snd col))) df.

(** The loop over the segments; it stops at the first exception. *)
Fixpoint fill_segments (df : DataFrame) (segment_column : string) (segments : list cell)
    (acc : dict cell (dict string SegmentMetrics))
  : outcome (dict cell (dict string SegmentMetrics)) :=
  match segments with
  | [] => Returned acc
  | segment :: segments' =>
      let segment_data := segment_rows df segment_column segment in
      let rows := length (column segment_data segment_column) in
      match fill (fun rating_col =>
                    match floats (column segment_data rating_col) with
                    | Returned vals => Returned (rating_col, segment_column_metrics vals rows)
                    | Raised e => Raised e
                    end)
                 (rating_columns df) [] with
      | Returned segment_metrics =>
          fill_segments df segment_column segments' (set same_cell acc segment segment_metrics)
      | Raised e => Raised e
      end
  end.

Definition analyze_by_segments (self : SurveyDataProcessor) (segment_column : string)
  : outcome (option (dict cell (dict string SegmentMetrics))) * SurveyDataProcessor :=
  match processed_data self with
  | None => (Raised AttributeError, self)
  | Some df =>
      if negb (mem String.eqb df segment_column) then (Returned None, self)
      else
        match fill_segments df segment_column (unique (column df segment_column)) [] with
        | Returned segment_analysis =>
            (Returned (Some segment_analysis),
             set_insights self
               {| satisfaction_metrics := satisfaction_metrics (insights self);
                  segment_analysis := Some segment_analysis |})
        | Raised e => (Raised e, self)
        end
  end.

(** [len(df)]: the common length of the columns (a table read from a file
    has at least one column). *)
Definition rows (df : DataFrame) : nat :=
  match df with
  | [] => 0
  | col :: _ => length (snd col)
  end.

(** [pd.isna(c)] *)
Definition is_missing (c : cell) : bool :=
  match c with
  | NaN => true
  | _ => false
  end.

Section Cleaning.

(** [pd.read_csv(path)]: the table, or nothing where it raises *)
Variable read_csv : string -> option DataFrame.

(** The exceptions of [pd.to_datetime], and [pd.to_datetime(series)] *)
Variable DateError : Type.
Variable to_datetime : Series -> DateError + Series.

(** The number that [pd.to_numeric] reads in a text, if it reads one *)
Variable to_number : string -> option Q.

(** [load_data]: any exception of the reader gives [False]. *)
Definition load_data (self : SurveyDataProcessor) : bool * SurveyDataProcessor :=
  match read_csv (file_path self) with
  | Some df =>
      (true,
       {| file_path := file_path self;
          data := Some df;
          processed_data := processed_data self;
          insights := insights self |})
  | None => (false, self)
  end.

(** For each of [n] rows, whether some column has a value in it *)
Fixpoint row_mask (columns : list Series) (n : nat) : list bool :=
  match columns with
  | [] => repeat false n
  | s :: columns' =>
      map (fun p => negb (is_missing (fst p)) || snd p) (combine s (row_mask columns' n))
  end.

(** [df.dropna(how='all')]: the rows in which every cell is missing go. *)
Definition dropna_all (df : DataFrame) : DataFrame :=
  let mask := row_mask (map snd df) (rows df) in
  map (fun col => (fst col, select mask (snd col))) df.

(** [pd.to_numeric(series, errors='coerce')] on one cell *)
Definition coerce (c : cell) : cell :=
  match c with
  | Str s =>
      match to_number s with
      | Some x => Num x
      | None => NaN
      end
  | _ => c
  end.

(** The loop [self.data[col] = pd.to_numeric(self.data[col], errors='coerce')] *)
Definition coerce_ratings (df : DataFrame) : DataFrame :=
  fold_left (fun d col => set String.eqb d col (map coerce (column d col)))
            (rating_columns df) df.

Definition set_data (self : SurveyDataProcessor) (df : DataFrame) : SurveyDataProcessor :=
  {| file_path := file_path self;
     data := Some df;
     processed_data := processed_data self;
     insights := insights self |}.

(** [if 'survey_date' in df.columns: df['survey_date'] = pd.to_datetime(df['survey_date'])] *)
Definition convert_dates (df : DataFrame) : DateError + DataFrame :=
  if mem String.eqb df "survey_date"%string
  then match to_datetime (column df "survey_date"%string) with
       | inr dates => inr (set String.eqb df "survey_date"%string dates)
       | inl e => inl e
       end
  else inr df.

(** [clean_data]; an exception of [pd.to_datetime] leaves the rows
    dropped in [self.data] and [self.processed_data] as it was. *)
Definition clean_data (self : SurveyDataProcessor)
  : (DateError + bool) * SurveyDataProcessor :=
  match data self with
  | None => (inr false, self)
  | Some df =>
      let dropped := dropna_all df in
      match convert_dates dropped with
      | inl e => (inl e, set_data self dropped)
      | inr dated =>
          let cleaned := coerce_ratings dated in
          (inr true,
           {| file_path := file_path self;
              data := Some cleaned;
              processed_data := Some cleaned;
              insights := insights self |})
      end
  end.

End Cleaning.

(** The grade that a finding of [generate_executive_summary] ends with:
    ["(Excellent)"], ["(Good)"] or ["(Needs Improvement)"]. *)
Inductive Grade : Type := Excellent | Good | NeedsImprovement.

(** A finding ["{feature}: {rate}% satisfaction ({grade})"], the f-string of
    the source with the interpolated values as fields. *)
Record Finding : Type := {
  finding_feature : string;
  finding_rate : Q;
  finding_grade : Grade
}.

Record Summary : Type := {
  timestamp : string;
  total_responses : nat;
  key_findings : list Finding;
  recommendations : list string
}.

(** [if rate >= 80: ... elif rate >= 60: ... else: ...] *)
Definition grade_of (rate : Q) : Grade :=
  if Qleb 80 rate then Excellent
  else if Qleb 60 rate then Good
  else NeedsImprovement.

(** The body of the first loop over [metrics.items()] for one feature *)
Definition finding_of (feature : string) (data : Metrics) : list Finding :=
  match m_satisfaction_rate data with
  | Some rate =>
      [{| finding_feature := feature;
          finding_rate := rate;
          finding_grade := grade_of rate |}]
  | None => []
  end.

(** The second loop: the features whose satisfaction rate is below 70 *)
Definition low_satisfaction_features (metrics : dict string Metrics) : list string :=
  flat_map
    (fun item =>
       match m_satisfaction_rate (snd item) with
       | Some rate => if Qgtb 70 rate then [fst item] else []
       | None => []
       end)
    metrics.

(** [generate_executive_summary]; [now] is
    [datetime.now().strftime('%Y-%m-%d %H:%M:%S')]. *)
Definition generate_executive_summary (now : string) (self : SurveyDataProcessor)
  : outcome (option Summary) :=
  match satisfaction_metrics (insights self), segment_analysis (insights self) with
  | None, None => Returned None
  | stored, _ =>
      match processed_data self with
      | None => Raised TypeError
      | Some df =>
          let metrics := match stored with Some metrics => metrics | None => [] end in
          let low := low_satisfaction_features metrics in
          Returned (Some
            {| timestamp := now;
               total_responses := rows df;
               key_findings := flat_map (fun item => finding_of (fst item) (snd item)) metrics;
               recommendations :=
                 match low with
                 | [] => []
                 | _ =>
                     [("Priority improvement needed for: " ++ Text.join ", " low)%string]
                 end |})
      end
  end.

(** ** Notions used to state the properties *)

(** The entry of one segment: the inner loop of [analyze_by_segments] *)
Definition segment_metrics_for (df : DataFrame) (segment_column : string) (segment : cell)
  : outcome (dict string SegmentMetrics) :=
  let segment_data := segment_rows df segment_column segment in
  let rows := length (column segment_data segment_column) in
  fill (fun rating_col =>
          match floats (column segment_data rating_col) with
          | Returned vals => Returned (rating_col, segment_column_metrics vals rows)
          | Raised e => Raised e
          end)
       (rating_columns df) [].

(** The sum over the segments of the counts of one rating column *)
Definition segment_count_total (analysis : dict cell (dict string SegmentMetrics))
    (col : string) : nat :=
  list_sum (map (fun entry =>
                   match find String.eqb (snd entry) col with
                   | Some s => s_count s
                   | None => 0
                   end)
                analysis).

(** The percentage of the non-missing values that are at least 4 *)
Definition satisfaction_rate_of_present (vals : list (option Q)) : Q :=
  Num.round (Num.percent (count_ge vals 4) (count vals)) 1.

(** The processor once [clean_data] has stored the table *)
Definition cleaned (df : DataFrame) : SurveyDataProcessor :=
  {| file_path := "survey.csv";
     data := Some df;
     processed_data := Some df;
     insights := {| satisfaction_metrics := None; segment_analysis := None |} |}.

(** A rating column on a 5-point scale with a missing answer *)
Definition gap_table : DataFrame :=
  [("rating"%string, [Num 5; NaN])].

(** One segment in every row, a rating column with the maximum 5 and one
    with the maximum 7 *)
Definition one_segment_table : DataFrame :=
  [("user_type"%string, [Str "premium"; Str "premium"; Str "premium"; Str "premium"]);
   ("Overall_Rating"%string, [Num 5; NaN; Num 3; Num 4]);
   ("nps_rating"%string, [Num 7; Num 6; Num 3; Num 2])].

(** Segments [a], [b] and a row without a segment *)
Definition mixed_segment_table : DataFrame :=
  [("user_type"%string, [Str "a"; Str "b"; NaN; Str "a"]);
   ("Overall_Rating"%string, [Num 5; NaN; Num 3; Num 4])].

(** A table as it is read from a file: the ratings are text, the second
    row is empty *)
Definition raw_table : DataFrame :=
  [("user_type"%string, [Str "new"; NaN; Str "new"]);
   ("Overall_Rating"%string, [Str "5"; NaN; Str "n/a"])].

(** A reader of the one-digit ratings 1 to 5 *)
Definition rating_of_text (s : string) : option Q :=
  if String.eqb s "1" then Some 1%Q
  else if String.eqb s "2" then Some 2%Q
  else if String.eqb s "3" then Some 3%Q
  else if String.eqb s "4" then Some 4%Q
  else if String.eqb s "5" then Some 5%Q
  else None.

(** A processor as [__init__] leaves it *)
Definition init (path : string) : SurveyDataProcessor :=
  {| file_path := path;
     data := None;
     processed_data := None;
     insights := {| satisfaction_metrics := None; segment_analysis := None |} |}.

End Survey.

(** * The report generator *)

(** [str.format] with keyword arguments only, as
    [html_template.format(timestamp=..., ...)] calls it. The text is read
    byte by byte, so the decimal digits of a field name are the ASCII ones.
    What a field that was found is replaced by (attribute and index access,
    the conversion, the fields nested in its format specification and
    [__format__]) is left to a function [render]. *)
Module Format.

Import Dict.

Section WithValues.

(** The values of the keyword arguments, and the exceptions of [render] *)
Variable V : Type.
Variable E : Type.

Inductive error : Type :=
| ValueError (message : string)
| IndexError (index : Z)
| KeyError (key : string)
| RenderError (e : E).

(** [render kwargs value accessors conversion format_spec nested]: the text
    for a field whose first name is bound to [value]. *)
Variable render : dict string V -> V -> string -> option ascii -> string -> bool -> error + string.

(** Where the reader stands: in the literal text, after a brace of it, or
    inside a replacement field. [pending] counts the braces that are open
    inside the format specification. *)
Inductive state : Type :=
| Literal
| Open
| Close
| Name (field_name : string)
| Bracket (field_name : string)
| Conversion (field_name : string)
| AfterConversion (field_name : string) (conversion : ascii)
| Spec (field_name : string) (conversion : option ascii) (format_spec : string)
       (pending : nat) (nested : bool).

Inductive transition : Type :=
| Next (st : state) (literal : string)
| Field (field_name : string) (conversion : option ascii) (format_spec : string)
        (nested : bool)
| Malformed (message : string).

Definition snoc (s : string) (c : ascii) : string := (s ++ String c EmptyString)%string.

(** A character of a field name *)
Definition in_name (field_name : string) (c : ascii) : transition :=
  if Ascii.eqb c "{" then Malformed "unexpected '{' in field name"
  else if Ascii.eqb c "[" then Next (Bracket (snoc field_name c)) ""
  else if Ascii.eqb c "}" then Field field_name None "" false
  else if Ascii.eqb c ":" then Next (Spec field_name None "" 0 false) ""
  else if Ascii.eqb c "!" then Next (Conversion field_name) ""
  else Next (Name (snoc field_name c)) "".

Definition step (st : state) (c : ascii) : transition :=
  match st with
  | Literal =>
      if Ascii.eqb c "{" then Next Open ""
      else if Ascii.eqb c "}" then Next Close ""
      else Next Literal (String c EmptyString)
  | Open => if Ascii.eqb c "{" then Next Literal "{" else in_name "" c
  | Close =>
      if Ascii.eqb c "}" then Next Literal "}"
      else Malformed "Single '}' encountered in format string"
  | Name field_name => in_name field_name c
  | Bracket field_name =>
      if Ascii.eqb c "]" then Next (Name (snoc field_name c)) ""
      else Next (Bracket (snoc field_name c)) ""
  | Conversion field_name => Next (AfterConversion field_name c) ""
  | AfterConversion field_name conversion =>
      if Ascii.eqb c "}" then Field field_name (Some conversion) "" false
      else if Ascii.eqb c ":" then Next (Spec field_name (Some conversion) "" 0 false) ""
      else Malformed "expected ':' after conversion specifier"
  | Spec field_name conversion format_spec pending nested =>
      if Ascii.eqb c "{"
      then Next (Spec field_name conversion (snoc format_spec c) (S pending) true) ""
      else if Ascii.eqb c "}"
      then match pending with
           | 0 => Field field_name conversion format_spec nested
           | S pending' =>
               Next (Spec field_name conversion (snoc format_spec c) pending' nested) ""
           end
      else Next (Spec field_name conversion (snoc format_spec c) pending nested) ""
  end.

(** The end of the format string *)
Definition at_end (st : state) (out : string) : error + string :=
  match st with
  | Literal => inr out
  | Open => inl (ValueError "Single '{' encountered in format string")
  | Close => inl (ValueError "Single '}' encountered in format string")
  | Name _ | Bracket _ => inl (ValueError "expected '}' before end of string")
  | Conversion _ =>
      inl (ValueError "end of string while looking for conversion specifier")
  | AfterConversion _ _ | Spec _ _ _ _ _ =>
      inl (ValueError "unmatched '{' in format spec")
  end.

(** The part of a field name before its first ['.'] or ['['], and the rest *)
Fixpoint first_name (field_name : string) : string :=
  match field_name with
  | EmptyString => EmptyString
  | String c s =>
      if Ascii.eqb c "." || Ascii.eqb c "[" then EmptyString else String c (first_name s)
  end.

Fixpoint accessors (field_name : string) : string :=
  match field_name with
  | EmptyString => EmptyString
  | String c s => if Ascii.eqb c "." || Ascii.eqb c "[" then field_name else accessors s
  end.

Inductive integer : Type :=
| NotInteger
| TooManyDigits
| Index (n : Z).

Definition PY_SSIZE_T_MAX : Z := 2 ^ 63 - 1.

Definition digit (c : ascii) : option Z :=
  let n := nat_of_ascii c in
  if (48 <=? n) && (n <=? 57) then Some (Z.of_nat (n - 48)) else None.

(** [get_integer]: the number a name spells, read digit by digit; the
    empty name gives 0. *)
Fixpoint get_integer (accumulator : Z) (name : string) : integer :=
  match name with
  | EmptyString => Index accumulator
  | String c s =>
      match digit c with
      | None => NotInteger
      | Some digitval =>
          if Z.gtb accumulator ((PY_SSIZE_T_MAX - digitval) / 10) then TooManyDigits
          else get_integer (accumulator * 10 + digitval) s
      end
  end.

(** The text for a field. No positional argument is given, so a field
    without a name or with a number for its first name finds nothing. *)
Definition field (kwargs : dict string V) (field_name : string) (conversion : option ascii)
    (format_spec : string) (nested : bool) : error + string :=
  match get_integer 0 (first_name field_name) with
  | TooManyDigits => inl (ValueError "Too many decimal digits in format string")
  | Index n => inl (IndexError n)
  | NotInteger =>
      match find String.eqb kwargs (first_name field_name) with
      | None => inl (KeyError (first_name field_name))
      | Some value => render kwargs value (accessors field_name) conversion format_spec nested
      end
  end.

Fixpoint run (kwargs : dict string V) (st : state) (out : string) (template : string)
  : error + string :=
  match template with
  | EmptyString => at_end st out
  | String c rest =>
      match step st c with
      | Next st' literal => run kwargs st' (out ++ literal) rest
      | Field field_name conversion format_spec nested =>
          match field kwargs field_name conversion format_spec nested with
          | inr text => run kwargs Literal (out ++ text) rest
          | inl e => inl e
          end
      | Malformed message => inl (ValueError message)
      end
  end.

(** [template.format] with the keyword arguments [kwargs] *)
Definition format (template : string) (kwargs : dict string V) : error + string :=
  run kwargs Literal "" template.

End WithValues.

Arguments ValueError {E} message.
Arguments IndexError {E} index.
Arguments KeyError {E} key.
Arguments RenderError {E} e.

End Format.

Module ReportGenerator.

Import Dict.

(** The double quote *)
Definition dq : string := String (ascii_of_nat 34) EmptyString.

(** The values given to the template: texts and numbers *)
Inductive value : Type :=
| Text (s : string)
| Number (x : Q).

(** The analysis results: a dictionary with the keys that
    [create_html_report] reads; [None] is the absent key. A feature's
    metrics are numbers by name. *)
Record ReportData : Type := {
  total_responses : option Q;
  satisfaction_metrics : option (dict string (dict string Q));
  key_findings : option (list string);
  recommendations : option (list string)
}.

Record ResearchReportGenerator : Type := {
  data_source : string;
  report_data : ReportData;
  template_path : string
}.

Definition init (data_source : string) : ResearchReportGenerator :=
  {| data_source := data_source;
     report_data :=
       {| total_responses := None;
          satisfaction_metrics := None;
          key_findings := None;
          recommendations := None |};
     template_path := "report_automation/report_template.html" |}.

Definition load_analysis_results (self : ResearchReportGenerator) (analysis_results : ReportData)
  : bool * ResearchReportGenerator :=
  (true,
   {| data_source := data_source self;
      report_data := analysis_results;
      template_path := template_path self |}).

Definition html_template : string :=
  ("
<!DOCTYPE html>
<html lang=" ++ dq ++ "en" ++ dq ++ ">
<head>
    <meta charset=" ++ dq ++ "UTF-8" ++ dq ++ ">
    <meta name=" ++ dq ++ "viewport" ++ dq ++ " content=" ++ dq ++ "width=device-width, initial-scale=1.0" ++ dq ++ ">
    <title>UX Research Report - Automated Generation</title>
    <style>
        body { font-family: 'Segoe UI', Tahoma, Geneva, Verdana, sans-serif; margin: 40px; line-height: 1.6; color: #333; }
        .header { background: linear-gradient(135deg, #667eea 0%, #764ba2 100%); color: white; padding: 30px; border-radius: 10px; margin-bottom: 30px; }
        .header h1 { margin: 0; font-size: 28px; }
        .header p { margin: 10px 0 0 0; opacity: 0.9; }
        .section { background: white; padding: 25px; margin-bottom: 20px; border-radius: 8px; box-shadow: 0 2px 10px rgba(0,0,0,0.1); }
        .section h2 { color: #2c3e50; border-bottom: 3px solid #3498db; padding-bottom: 10px; }
        .metric-box { background: #f8f9fa; padding: 20px; border-left: 4px solid #3498db; margin: 15px 0; border-radius: 5px; }
        .metric-value { font-size: 24px; font-weight: bold; color: #2c3e50; }
        .metric-label { color: #7f8c8d; font-size: 14px; }
        .recommendation { background: #e8f5e8; padding: 15px; border-left: 4px solid #27ae60; margin: 10px 0; border-radius: 5px; }
        .warning { background: #fef9e7; padding: 15px; border-left: 4px solid #f39c12; margin: 10px 0; border-radius: 5px; }
        .critical { background: #fdeaea; padding: 15px; border-left: 4px solid #e74c3c; margin: 10px 0; border-radius: 5px; }
    </style>
</head>
<body>
    <div class=" ++ dq ++ "header" ++ dq ++ ">
        <h1>UX Research Report</h1>
        <p>Automated Analysis Generated on {timestamp}</p>
        <p>Total Survey Responses Analyzed: {total_responses}</p>
    </div>
    
    <div class=" ++ dq ++ "section" ++ dq ++ ">
        <h2>📊 Executive Summary</h2>
        <p>This report presents automated analysis of user feedback data, highlighting key satisfaction metrics and actionable insights for product improvement.</p>
        
        <div class=" ++ dq ++ "metric-box" ++ dq ++ ">
            <div class=" ++ dq ++ "metric-value" ++ dq ++ ">{avg_satisfaction}%</div>
            <div class=" ++ dq ++ "metric-label" ++ dq ++ ">Average User Satisfaction</div>
        </div>
        
        <div class=" ++ dq ++ "metric-box" ++ dq ++ ">
            <div class=" ++ dq ++ "metric-value" ++ dq ++ ">{total_responses}</div>
            <div class=" ++ dq ++ "metric-label" ++ dq ++ ">Survey Responses Analyzed</div>
        </div>
    </div>
    
    <div class=" ++ dq ++ "section" ++ dq ++ ">
        <h2>🎯 Key Findings</h2>
        {findings_html}
    </div>
    
    <div class=" ++ dq ++ "section" ++ dq ++ ">
        <h2>💡 Recommendations</h2>
        {recommendations_html}
    </div>
    
    <div class=" ++ dq ++ "section" ++ dq ++ ">
        <h2>📈 Detailed Metrics</h2>
        {detailed_metrics_html}
    </div>
    
    <div class=" ++ dq ++ "section" ++ dq ++ ">
        <h2>🔧 Methodology</h2>
        <p><strong>Data Source:</strong> Survey responses collected through automated processing pipeline</p>
        <p><strong>Analysis Method:</strong> Automated statistical analysis with Python data processing</p>
        <p><strong>Satisfaction Calculation:</strong> Percentage of responses rated 4-5 on 5-point scale</p>
        <p><strong>Report Generation:</strong> Automated using Python research workflow tools</p>
    </div>
    
    <div class=" ++ dq ++ "section" ++ dq ++ " style=" ++ dq ++ "background: #f8f9fa; text-align: center; color: #7f8c8d;" ++ dq ++ ">
        <p>This report was generated automatically using UX Research Automation tools</p>
        <p>Time saved: ~2 hours of manual report creation → 30 seconds automated generation</p>
    </div>
</body>
</html>
")%string.

(** [s.replace(old, new)] for a non-empty [old]; [skip] characters of a
    replaced occurrence are still to pass. *)
Fixpoint replace_from (old new : string) (skip : nat) (s : string) : string :=
  match s with
  | EmptyString => EmptyString
  | String c s' =>
      match skip with
      | S skip' => replace_from old new skip' s'
      | 0 =>
          if String.prefix old s
          then (new ++ replace_from old new (String.length old - 1) s')%string
          else String c (replace_from old new 0 s')
      end
  end.

Definition replace (s old new : string) : string := replace_from old new 0 s.

Section Rendering.

(** [str(x)] of a number, [s.title()], and the exceptions and the text of
    a replacement field of [str.format] *)
Variable str : Q -> string.
Variable title : string -> string.
Variable E : Type.
Variable render :
  dict string value -> value -> string -> option ascii -> string -> bool
  -> Format.error E + string.

(** [metrics.get(key, 0)] *)
Definition metric (metrics : dict string Q) (key : string) : Q :=
  get String.eqb metrics key 0%Q.

Definition satisfaction_rates_of (metrics : dict string (dict string Q)) : list Q :=
  flat_map
    (fun item =>
       if mem String.eqb (snd item) "satisfaction_rate"%string
       then [metric (snd item) "satisfaction_rate"]
       else [])
    metrics.

Definition avg_satisfaction_of (data : ReportData) : Q :=
  match satisfaction_metrics data with
  | Some metrics =>
      match satisfaction_rates_of metrics with
      | [] => 0%Q
      | rates =>
          Num.round (fold_left Qplus rates 0%Q / inject_Z (Z.of_nat (length rates)))%Q 1
      end
  | None => 0%Q
  end.

Definition finding_html (finding : string) : string :=
  if Survey.contains finding "✅"
  then ("<div class=" ++ dq ++ "recommendation" ++ dq ++ ">" ++ finding ++ "</div>")%string
  else if Survey.contains finding "⚠️"
  then ("<div class=" ++ dq ++ "warning" ++ dq ++ ">" ++ finding ++ "</div>")%string
  else if Survey.contains finding "❌"
  then ("<div class=" ++ dq ++ "critical" ++ dq ++ ">" ++ finding ++ "</div>")%string
  else ("<p>" ++ finding ++ "</p>")%string.

Definition findings_html_of (data : ReportData) : string :=
  match key_findings data with
  | Some findings => fold_left (fun html finding => (html ++ finding_html finding)%string) findings ""%string
  | None => ""%string
  end.

Definition recommendations_html_of (data : ReportData) : string :=
  match recommendations data with
  | Some recs =>
      fold_left
        (fun html rec =>
           (html ++ "<div class=" ++ dq ++ "recommendation" ++ dq ++ ">💡 " ++ rec ++ "</div>")%string)
        recs ""%string
  | None => ""%string
  end.

Definition metric_html (feature : string) (metrics : dict string Q) : string :=
  let feature_name := title (replace feature "_rating" "") in
  let satisfaction_rate := metric metrics "satisfaction_rate" in
  let mean_score := metric metrics "mean" in
  let response_count := metric metrics "count" in
  ("
                <div class=" ++ dq ++ "metric-box" ++ dq ++ ">
                    <h4>" ++ feature_name ++ "</h4>
                    <p><strong>Satisfaction Rate:</strong> " ++ str satisfaction_rate ++ "%</p>
                    <p><strong>Average Score:</strong> " ++ str mean_score ++ "/5</p>
                    <p><strong>Responses:</strong> " ++ str response_count ++ "</p>
                </div>
                ")%string.

Definition detailed_metrics_html_of (data : ReportData) : string :=
  match satisfaction_metrics data with
  | Some metrics =>
      fold_left (fun html item => (html ++ metric_html (fst item) (snd item))%string)
                metrics ""%string
  | None => ""%string
  end.

(** The keyword arguments of [html_template.format] *)
Definition template_arguments (now : string) (data : ReportData) : dict string value :=
  [("timestamp", Text now);
   ("total_responses",
    Number match total_responses data with Some n => n | None => 0%Q end);
   ("avg_satisfaction", Number (avg_satisfaction_of data));
   ("findings_html", Text (findings_html_of data));
   ("recommendations_html", Text (recommendations_html_of data));
   ("detailed_metrics_html", Text (detailed_metrics_html_of data))]%string.

(** [create_html_report]; [now] is
    [datetime.now().strftime('%B %d, %Y at %I:%M %p')], and [files] the
    contents of the files by path. *)
Definition create_html_report (now : string) (self : ResearchReportGenerator)
    (output_path : string) (files : dict string string)
  : (Format.error E + string) * dict string string :=
  match Format.format render html_template (template_arguments now (report_data self)) with
  | inr html_content => (inr output_path, set String.eqb files output_path html_content)
  | inl e => (inl e, files)
  end.

End Rendering.

End ReportGenerator.

(** * The cleaning utilities ([data_cleaning.py]) *)

Module DataCleaning.

Import Dict.

(** A float: a rational, an infinity or NaN. Signed zeros and overflow are
    left out. *)
Inductive number : Type :=
| Finite (x : Q)
| Infinite (positive : bool)
| Missing.

(** A cell of the table: a float or a text *)
Inductive cell : Type :=
| Float (n : number)
| Str (s : string).

(** A column; one that holds floats only is a float column, as a file
    read by [pd.read_csv] gives it. *)
Definition Series : Type := list cell.

Definition DataFrame : Type := dict string Series.

(** [df[col]] *)
Definition column (df : DataFrame) (col : string) : Series := get String.eqb df col [].

(** The values of a column as floats: [max()] over texts mixed with
    floats, and the division of a text, raise [TypeError]. *)
Fixpoint numbers (s : Series) : outcome (list number) :=
  match s with
  | [] => Returned []
  | Str _ :: _ => Raised TypeError
  | Float n :: s' =>
      match numbers s' with
      | Returned vals => Returned (n :: vals)
      | Raised e => Raised e
      end
  end.

(** [a > b] on floats, false when one is NaN *)
Definition gt (a b : number) : bool :=
  match a, b with
  | Missing, _ | _, Missing => false
  | Infinite p, Infinite q => p && negb q
  | Infinite p, Finite _ => p
  | Finite _, Infinite q => negb q
  | Finite x, Finite y => Qgtb x y
  end.

(** [Series.max()]: the greatest float that is not NaN, NaN when there is
    none. *)
Definition max (vals : list number) : number :=
  fold_left
    (fun m v =>
       match v, m with
       | Missing, _ => m
       | _, Missing => v
       | _, _ => if gt v m then v else m
       end)
    vals Missing.

(** [a / b] on floats *)
Definition div (a b : number) : number :=
  match a, b with
  | Missing, _ | _, Missing => Missing
  | Infinite _, Infinite _ => Missing
  | Finite _, Infinite _ => Finite 0
  | Infinite p, Finite y => Infinite (if Qgtb 0 y then negb p else p)
  | Finite x, Finite y =>
      if Qeq_bool y 0
      then (if Qgtb x 0 then Infinite true
            else if Qgtb 0 x then Infinite false
            else Missing)
      else Finite (x / y)
  end.

(** [a * t] for a float [a] and a number [t], as a rational; the code
    holds the binary float next to it. *)
Definition mul (a : number) (t : Q) : number :=
  match a with
  | Missing => Missing
  | Finite x => Finite (x * t)
  | Infinite p =>
      if Qeq_bool t 0 then Missing else Infinite (if Qgtb 0 t then negb p else p)
  end.

(** [Series.round()] on one float: to the nearest whole number, ties to
    even. *)
Definition round (a : number) : number :=
  match a with
  | Finite x => Finite (Num.round x 0)
  | _ => a
  end.

(** [current_max != target_scale] *)
Definition differs (current_max : number) (target_scale : Q) : bool :=
  match current_max with
  | Finite m => negb (Qeq_bool m target_scale)
  | _ => true
  end.

(** [standardize_ratings]. The table given is itself changed: the table
    returned is its new state. *)
Definition standardize_ratings (df : DataFrame) (rating_col : string) (target_scale : Q)
  : outcome DataFrame :=
  if negb (mem String.eqb df rating_col) then Returned df
  else
    match numbers (column df rating_col) with
    | Raised e => Raised e
    | Returned vals =>
        let current_max := max vals in
        if differs current_max target_scale
        then Returned
               (set String.eqb df (rating_col ++ "_standardized")%string
                    (map (fun v => Float (round (mul (div v current_max) target_scale))) vals))
        else Returned df
    end.

(** The floats that are not NaN *)
Definition is_number (v : number) : bool :=
  match v with
  | Missing => false
  | _ => true
  end.

(** A column without infinities *)
Definition finite (vals : list number) : Prop :=
  forall v, In v vals -> v = Missing \/ exists x, v = Finite x.

(** Ratings from 1 to 10, of which 8 is the highest given *)
Definition ten_point_table : DataFrame :=
  [("user"%string, [Str "a"; Str "b"; Str "c"; Str "d"]);
   ("rating"%string, [Float (Finite 1); Float (Finite 8); Float Missing; Float (Finite 4)])].

(** A column whose highest rating is 0 *)
Definition zero_table : DataFrame :=
  [("rating"%string, [Float (Finite 0); Float (Finite (-1)); Float Missing])].

End DataCleaning.

Unset Implicit Arguments.

(** * Facts about dictionaries, counters and sorting *)

Module DictFacts.

Import Dict.

Section WithKey.
Context {K : Type} (eqb : K -> K -> bool).
Hypothesis eqb_eq : forall a b, eqb a b = true <-> a = b.

Lemma eqb_refl a : eqb a a = true.
Proof. now apply eqb_eq. Qed.

Lemma eqb_neq a b : a <> b -> eqb a b = false.
Proof.
  intros H. destruct (eqb a b) eqn:E; [|reflexivity].
  apply eqb_eq in E. contradiction.
Qed.

Lemma eqb_cases a b : (a = b /\ eqb a b = true) \/ (a <> b /\ eqb a b = false).
Proof.
  destruct (eqb a b) eqn:E.
  - left. split; [now apply eqb_eq | reflexivity].
  - right. split; [|reflexivity]. intros H. apply eqb_eq in H. congruence.
Qed.

Lemma get_set_same {V} (d : dict K V) k v default :
  get eqb (set eqb d k v) k default = v.
Proof.
  induction d as [|[k' v'] d IH]; simpl.
  - now rewrite eqb_refl.
  - destruct (eqb k k') eqn:E; simpl; rewrite E; auto.
Qed.

Lemma get_set_other {V} (d : dict K V) k k' v default :
  k <> k' -> get eqb (set eqb d k v) k' default = get eqb d k' default.
Proof.
  intros Hne. induction d as [|[k0 v0] d IH]; simpl.
  - rewrite (eqb_neq _ _ (not_eq_sym Hne)). reflexivity.
  - destruct (eqb_cases k k0) as [[<- E]|[Hk E]]; rewrite E; simpl.
    + now rewrite (eqb_neq _ _ (not_eq_sym Hne)).
    + now rewrite IH.
Qed.

Lemma find_set_same {V} (d : dict K V) k v :
  find eqb (set eqb d k v) k = Some v.
Proof.
  induction d as [|[k' v'] d IH]; simpl.
  - now rewrite eqb_refl.
  - destruct (eqb k k') eqn:E; simpl; rewrite E; auto.
Qed.

Lemma find_set_other {V} (d : dict K V) k k' v :
  k <> k' -> find eqb (set eqb d k v) k' = find eqb d k'.
Proof.
  intros Hne. induction d as [|[k0 v0] d IH]; simpl.
  - rewrite (eqb_neq _ _ (not_eq_sym Hne)). reflexivity.
  - destruct (eqb_cases k k0) as [[<- E]|[Hk E]]; rewrite E; simpl.
    + now rewrite (eqb_neq _ _ (not_eq_sym Hne)).
    + now rewrite IH.
Qed.

Lemma keys_set {V} (d : dict K V) k v :
  keys (set eqb d k v) = if mem eqb d k then keys d else keys d ++ [k].
Proof.
  unfold keys. induction d as [|[k' v'] d IH]; simpl; [reflexivity|].
  destruct (eqb_cases k k') as [[-> E]|[Hk E]]; rewrite E; simpl.
  - reflexivity.
  - rewrite IH. now destruct (mem eqb d k).
Qed.

Lemma mem_keys {V} (d : dict K V) k : mem eqb d k = true <-> In k (keys d).
Proof.
  unfold keys. induction d as [|[k' v'] d IH]; simpl.
  - split; [discriminate | tauto].
  - rewrite orb_true_iff, IH, eqb_eq. intuition.
Qed.

Lemma get_not_mem {V} (d : dict K V) k default :
  mem eqb d k = false -> get eqb d k default = default.
Proof.
  induction d as [|[k' v'] d IH]; simpl; [reflexivity|].
  intros H. apply orb_false_iff in H as [E H]. rewrite E. auto.
Qed.

Lemma get_In {V} (d : dict K V) k default :
  mem eqb d k = true -> In (k, get eqb d k default) d.
Proof.
  induction d as [|[k' v'] d IH]; simpl; [discriminate|].
  destruct (eqb_cases k k') as [[-> E]|[Hk E]]; rewrite E; simpl; auto.
Qed.

Lemma In_get {V} (d : dict K V) k v default :
  NoDup (keys d) -> In (k, v) d -> get eqb d k default = v.
Proof.
  unfold keys. induction d as [|[k' v'] d IH]; simpl; [tauto|].
  intros Hnd [H|H].
  - inversion H; subst. now rewrite eqb_refl.
  - inversion Hnd as [|? ? Hnot Hnd']; subst.
    destruct (eqb_cases k k') as [[-> E]|[Hk E]]; rewrite E.
    + exfalso. apply Hnot. change k' with (fst (k', v)). now apply in_map.
    + auto.
Qed.

(** *** Occurrences and first positions *)

Lemma occurrences_app k l1 l2 :
  occurrences eqb k (l1 ++ l2) = occurrences eqb k l1 + occurrences eqb k l2.
Proof. unfold occurrences. now rewrite filter_app, length_app. Qed.

Lemma occurrences_pos k l : 0 < occurrences eqb k l <-> In k l.
Proof.
  unfold occurrences. induction l as [|x l IH]; simpl.
  - split; [lia | tauto].
  - destruct (eqb_cases k x) as [[-> E]|[Hk E]]; rewrite E; simpl.
    + split; [auto | lia].
    + rewrite IH. split; [auto | intros [H|H]; [congruence | auto]].
Qed.

Lemma occurrences_filter (f : K -> bool) k l :
  f k = true -> occurrences eqb k (filter f l) = occurrences eqb k l.
Proof.
  intros Hf. unfold occurrences. induction l as [|x l IH]; simpl; [reflexivity|].
  destruct (f x) eqn:Fx; simpl.
  - destruct (eqb k x); simpl; auto.
  - destruct (eqb_cases k x) as [[-> E]|[Hk E]]; rewrite E; [congruence | auto].
Qed.

Lemma index_of_lt k l : index_of eqb k l < length l <-> In k l.
Proof.
  induction l as [|x l IH]; simpl.
  - split; [lia | tauto].
  - destruct (eqb_cases k x) as [[-> E]|[Hk E]]; rewrite E.
    + split; [auto | lia].
    + rewrite <- Nat.succ_lt_mono, IH.
      split; [auto | intros [H|H]; [congruence | auto]].
Qed.

Lemma index_of_app_in k l1 l2 :
  In k l1 -> index_of eqb k (l1 ++ l2) = index_of eqb k l1.
Proof.
  induction l1 as [|x l1 IH]; simpl; [tauto|].
  intros H. destruct (eqb_cases k x) as [[-> E]|[Hk E]]; rewrite E; [reflexivity|].
  f_equal. apply IH. destruct H; [congruence | assumption].
Qed.

Lemma index_of_app_out k l1 l2 :
  ~ In k l1 -> index_of eqb k (l1 ++ l2) = length l1 + index_of eqb k l2.
Proof.
  induction l1 as [|x l1 IH]; simpl; [reflexivity|].
  intros H. rewrite eqb_neq by (intros ->; apply H; now left).
  f_equal. apply IH. tauto.
Qed.

(** Filtering keeps the order of first positions. *)
Lemma index_of_filter (f : K -> bool) k k' l :
  f k = true -> f k' = true -> In k l ->
  index_of eqb k (filter f l) < index_of eqb k' (filter f l) <->
  index_of eqb k l < index_of eqb k' l.
Proof.
  intros Hk Hk'. induction l as [|x l IH]; simpl; [tauto|].
  intros Hin.
  destruct (eqb_cases k x) as [[<- E]|[Hkx E]].
  - rewrite Hk. simpl. rewrite E.
    destruct (eqb k' k); lia.
  - assert (Hl : In k l) by (destruct Hin; [congruence | assumption]).
    specialize (IH Hl). rewrite E.
    destruct (eqb_cases k' x) as [[<- E']|[Hk'x E']].
    + rewrite Hk'. simpl. rewrite E, E'. lia.
    + rewrite E'. destruct (f x); simpl; [rewrite E, E'|]; lia.
Qed.

(** *** [Counter] *)

Lemma Counter_snoc l x :
  Counter eqb (l ++ [x]) = set eqb (Counter eqb l) x (get eqb (Counter eqb l) x 0 + 1).
Proof. unfold Counter. now rewrite fold_left_app. Qed.

Lemma get_Counter l k : get eqb (Counter eqb l) k 0 = occurrences eqb k l.
Proof.
  induction l as [|x l IH] using rev_ind; [reflexivity|].
  rewrite Counter_snoc, occurrences_app. unfold occurrences at 2. simpl.
  destruct (eqb_cases k x) as [[-> E]|[Hk E]]; rewrite E; simpl.
  - rewrite get_set_same, IH. reflexivity.
  - rewrite get_set_other by congruence. rewrite IH. lia.
Qed.

Lemma keys_Counter_snoc l x :
  keys (Counter eqb (l ++ [x])) =
  if mem eqb (Counter eqb l) x then keys (Counter eqb l) else keys (Counter eqb l) ++ [x].
Proof. rewrite Counter_snoc. apply keys_set. Qed.

Lemma keys_Counter_In l k : In k (keys (Counter eqb l)) <-> In k l.
Proof.
  revert k. induction l as [|x l IH] using rev_ind; intros k; [simpl; tauto|].
  rewrite keys_Counter_snoc, in_app_iff. simpl.
  destruct (mem eqb (Counter eqb l) x) eqn:M.
  - apply mem_keys in M. rewrite IH in *.
    split; [auto | intros [H|[<-|[]]]; auto].
  - rewrite in_app_iff, IH. simpl. tauto.
Qed.

Lemma mem_Counter l k : mem eqb (Counter eqb l) k = true <-> In k l.
Proof. rewrite mem_keys. apply keys_Counter_In. Qed.

Lemma NoDup_keys_Counter l : NoDup (keys (Counter eqb l)).
Proof.
  induction l as [|x l IH] using rev_ind; [constructor|].
  rewrite keys_Counter_snoc.
  destruct (mem eqb (Counter eqb l) x) eqn:M; [assumption|].
  apply NoDup_app; [assumption | repeat constructor; simpl; tauto |].
  intros a Ha [<-|[]]. apply mem_keys in Ha. congruence.
Qed.

Lemma In_Counter l k n :
  In (k, n) (Counter eqb l) <-> In k l /\ n = occurrences eqb k l.
Proof.
  split.
  - intros H. split.
    + apply keys_Counter_In. change k with (fst (k, n)). now apply in_map.
    + rewrite <- get_Counter. symmetry. apply In_get; [apply NoDup_keys_Counter | exact H].
  - intros [H ->]. rewrite <- get_Counter. apply get_In. now apply mem_Counter.
Qed.

(** The keys of a counter stand in the order of their first positions. *)
Lemma Counter_order l :
  StronglySorted (fun a b => index_of eqb a l < index_of eqb b l) (keys (Counter eqb l)).
Proof.
  induction l as [|x l IH] using rev_ind; [constructor|].
  assert (Hmono : StronglySorted
            (fun a b => index_of eqb a (l ++ [x]) < index_of eqb b (l ++ [x]))
            (keys (Counter eqb l))).
  { assert (Hsub : forall a, In a (keys (Counter eqb l)) -> In a l)
      by (intros a; apply keys_Counter_In).
    revert IH Hsub. generalize (keys (Counter eqb l)).
    induction l0 as [|a l0 IHl]; intros Hs Hsub; [constructor|].
    inversion Hs as [|? ? Hs' Hall]; subst. constructor.
    - apply IHl; [assumption | intros; apply Hsub; now right].
    - rewrite Forall_forall in *. intros b Hb.
      rewrite !index_of_app_in by (apply Hsub; simpl; auto).
      now apply Hall. }
  rewrite keys_Counter_snoc.
  destruct (mem eqb (Counter eqb l) x) eqn:M; [assumption|].
  assert (Hx : ~ In x l).
  { intros H. apply mem_Counter in H. congruence. }
  revert Hmono.
  assert (Hsub : forall a, In a (keys (Counter eqb l)) -> In a l)
    by (intros a; apply keys_Counter_In).
  revert Hsub. generalize (keys (Counter eqb l)).
  induction l0 as [|a l0 IHl]; intros Hsub Hs; simpl.
  - repeat constructor.
  - inversion Hs as [|? ? Hs' Hall]; subst. constructor.
    + apply IHl; [intros; apply Hsub; now right | assumption].
    + apply Forall_app. split; [assumption|].
      constructor; [|constructor].
      rewrite index_of_app_in by (apply Hsub; now left).
      rewrite index_of_app_out by assumption. simpl. rewrite eqb_refl.
      assert (index_of eqb a l < length l) by (apply index_of_lt, Hsub; now left).
      lia.
Qed.

End WithKey.

End DictFacts.

(** * Facts about the descending stable sort *)

Module SortFacts.

Import Dict.

Section Membership.
Context {K : Type}.

Lemma insert_desc_In (x y : K * nat) l :
  In y (insert_desc x l) <-> y = x \/ In y l.
Proof.
  induction l as [|z l IH]; simpl.
  - intuition.
  - destruct (snd z <? snd x); simpl; [intuition|]. rewrite IH. intuition.
Qed.

Lemma insert_desc_length (x : K * nat) l : length (insert_desc x l) = S (length l).
Proof.
  induction l as [|z l IH]; simpl; [reflexivity|].
  destruct (snd z <? snd x); simpl; auto.
Qed.

Lemma fold_insert_In (d acc : dict K nat) y :
  In y (fold_left (fun acc x => insert_desc x acc) d acc) <-> In y d \/ In y acc.
Proof.
  revert acc. induction d as [|x d IH]; intros acc; simpl.
  - tauto.
  - rewrite IH, insert_desc_In. intuition.
Qed.

Lemma sorted_desc_In (d : dict K nat) y : In y (sorted_desc d) <-> In y d.
Proof. unfold sorted_desc. rewrite fold_insert_In. simpl. tauto. Qed.

Lemma fold_insert_length (d acc : dict K nat) :
  length (fold_left (fun acc x => insert_desc x acc) d acc) = length d + length acc.
Proof.
  revert acc. induction d as [|x d IH]; intros acc; simpl; [reflexivity|].
  rewrite IH, insert_desc_length. lia.
Qed.

Lemma sorted_desc_length (d : dict K nat) : length (sorted_desc d) = length d.
Proof. unfold sorted_desc. rewrite fold_insert_length. simpl. lia. Qed.

End Membership.

Section Ranking.
Context {K : Type} (pos : K -> nat).

Lemma insert_desc_ranked x l :
  StronglySorted (before pos) l ->
  (forall a, In a l -> pos (fst a) < pos (fst x)) ->
  StronglySorted (before pos) (insert_desc x l).
Proof.
  induction l as [|y l IH]; simpl; intros Hs Hpos.
  - repeat constructor.
  - inversion Hs as [|? ? Hs' Hall]; subst. rewrite Forall_forall in Hall.
    destruct (Nat.ltb_spec (snd y) (snd x)) as [Hlt|Hge].
    + constructor; [assumption|]. constructor; [now left|].
      apply Forall_forall. intros z Hz. left.
      destruct (Hall z Hz) as [H|[H _]]; lia.
    + constructor.
      * apply IH; [assumption | intros; apply Hpos; now right].
      * apply Forall_forall. intros z Hz. apply insert_desc_In in Hz as [->|Hz].
        -- assert (pos (fst y) < pos (fst x)) by (apply Hpos; now left).
           unfold before. lia.
        -- now apply Hall.
Qed.

Lemma fold_insert_ranked (d acc : dict K nat) :
  StronglySorted (before pos) acc ->
  StronglySorted (fun a b => pos (fst a) < pos (fst b)) d ->
  (forall a b, In a acc -> In b d -> pos (fst a) < pos (fst b)) ->
  StronglySorted (before pos) (fold_left (fun acc x => insert_desc x acc) d acc).
Proof.
  revert acc. induction d as [|x d IH]; intros acc Hacc Hd Hlt; simpl; [assumption|].
  inversion Hd as [|? ? Hd' Hall]; subst. rewrite Forall_forall in Hall.
  apply IH; [|assumption|].
  - apply insert_desc_ranked; [assumption|]. intros a Ha. apply Hlt; simpl; auto.
  - intros a b Ha Hb. apply insert_desc_In in Ha as [->|Ha].
    + now apply Hall.
    + apply Hlt; simpl; auto.
Qed.

(** Sorting a dictionary whose keys stand in the order of [pos] ranks
    the entries by count and then by [pos]. *)
Lemma sorted_desc_ranked (d : dict K nat) :
  StronglySorted (fun a b => pos a < pos b) (keys d) ->
  StronglySorted (before pos) (sorted_desc d).
Proof.
  intros Hd. apply fold_insert_ranked; [constructor | | simpl; tauto].
  unfold keys in Hd. induction d as [|x d IH]; [constructor|].
  simpl in Hd. inversion Hd as [|? ? Hd' Hall]; subst.
  constructor; [auto|]. rewrite Forall_forall in *.
  intros b Hb. apply Hall. now apply in_map.
Qed.

End Ranking.

Section Lists.
Context {A : Type} (R : A -> A -> Prop).

Lemma StronglySorted_app_inv (l1 l2 : list A) :
  StronglySorted R (l1 ++ l2) ->
  StronglySorted R l1 /\ StronglySorted R l2 /\
  (forall a b, In a l1 -> In b l2 -> R a b).
Proof.
  induction l1 as [|x l1 IH]; simpl; intros Hs.
  - repeat split; [constructor | assumption | tauto].
  - inversion Hs as [|? ? Hs' Hall]; subst.
    destruct (IH Hs') as (H1 & H2 & H3). rewrite Forall_forall in Hall.
    repeat split; [|assumption|].
    + constructor; [assumption|]. apply Forall_forall. intros b Hb.
      apply Hall, in_or_app. now left.
    + intros a b [<-|Ha] Hb; [apply Hall, in_or_app; now right | now apply H3].
Qed.

Lemma StronglySorted_nth_error (l : list A) i j a b :
  StronglySorted R l -> i < j ->
  nth_error l i = Some a -> nth_error l j = Some b -> R a b.
Proof.
  intros Hs. revert i j. induction Hs as [|x l Hs IH Hall]; intros i j Hij Hi Hj.
  - destruct i; discriminate.
  - destruct j as [|j]; [lia|]. simpl in Hj.
    destruct i as [|i]; simpl in Hi.
    + inversion Hi; subst. rewrite Forall_forall in Hall.
      eapply Hall, nth_error_In, Hj.
    + apply (IH i j); [lia | assumption | assumption].
Qed.

End Lists.

End SortFacts.

(** * Properties of the feedback analyzer *)

Module FeedbackFacts.

Import Dict Text Feedback DictFacts SortFacts.


(** ** Theme extraction *)

Lemma get_common_themes (d : dict string nat) (min_frequency : Z) kw :
  NoDup (keys d) ->
  get String.eqb (common_themes_of d min_frequency) kw 0 =
  if Z.leb min_frequency (Z.of_nat (get String.eqb d kw 0))
  then get String.eqb d kw 0 else 0.
Proof.
  unfold common_themes_of, keys.
  induction d as [|[k v] d IH]; simpl; intros Hnd.
  - now destruct (min_frequency <=? _)%Z.
  - inversion Hnd as [|? ? Hnot Hnd']; subst. specialize (IH Hnd').
    destruct (eqb_cases String.eqb String.eqb_eq kw k) as [[-> E]|[Hk E]].
    + rewrite E. destruct (min_frequency <=? Z.of_nat v)%Z; simpl.
      * now rewrite E.
      * apply get_not_mem. destruct (mem String.eqb _ k) eqn:M; [|reflexivity].
        exfalso. apply Hnot. apply (mem_keys String.eqb String.eqb_eq) in M.
        unfold keys in M. apply in_map_iff in M as (x & Hx & Hin).
        apply filter_In in Hin as [Hin _]. rewrite <- Hx. now apply in_map.
    + rewrite E. destruct (min_frequency <=? Z.of_nat v)%Z; simpl; [rewrite E|]; exact IH.
Qed.

Lemma mem_set (d : dict string nat) k k' v :
  mem String.eqb (set String.eqb d k v) k' = mem String.eqb d k' || String.eqb k' k.
Proof.
  induction d as [|[k0 v0] d IH]; simpl.
  - now rewrite orb_false_r.
  - destruct (eqb_cases String.eqb String.eqb_eq k k0) as [[<- E]|[Hk E]]; rewrite E; simpl.
    + destruct (String.eqb k' k); simpl; [reflexivity | now rewrite orb_false_r].
    + rewrite IH. now rewrite orb_assoc.
Qed.

Lemma fold_category_step common items acc cat :
  NoDup (map fst items) ->
  let total kws := list_sum (map (fun keyword => get String.eqb common keyword 0) kws) in
  get String.eqb (fold_left (category_step common) items acc) cat 0 =
    match find String.eqb items cat with
    | Some kws => if 0 <? total kws then total kws else get String.eqb acc cat 0
    | None => get String.eqb acc cat 0
    end /\
  mem String.eqb (fold_left (category_step common) items acc) cat =
    match find String.eqb items cat with
    | Some kws => (0 <? total kws) || mem String.eqb acc cat
    | None => mem String.eqb acc cat
    end.
Proof.
  intros Hnd total. revert acc.
  induction items as [|[c0 k0] items IH]; intros acc; simpl; [tauto|].
  inversion Hnd as [|? ? Hnot Hnd']; subst.
  destruct (IH Hnd' (category_step common acc (c0, k0))) as [IHg IHm].
  rewrite IHg, IHm. clear IHg IHm IH.
  unfold category_step at 1 2 3 4. simpl. fold (total k0).
  destruct (eqb_cases String.eqb String.eqb_eq cat c0) as [[-> E]|[Hk E]]; rewrite E.
  - assert (Hf : find String.eqb items c0 = None).
    { clear -Hnot. induction items as [|[c k] items IH]; simpl; [reflexivity|].
      destruct (eqb_cases String.eqb String.eqb_eq c0 c) as [[-> E]|[Hk E]]; rewrite E.
      - exfalso. apply Hnot. now left.
      - apply IH. intros H. apply Hnot. now right. }
    rewrite Hf. destruct (0 <? total k0).
    + rewrite (get_set_same String.eqb String.eqb_eq), mem_set, String.eqb_refl.
      now rewrite orb_true_r.
    + tauto.
  - destruct (0 <? total k0).
    + rewrite (get_set_other String.eqb String.eqb_eq) by congruence.
      rewrite mem_set, E, orb_false_r. tauto.
    + tauto.
Qed.

Lemma find_In (items : dict string (list string)) cat kws :
  NoDup (map fst items) -> In (cat, kws) items -> find String.eqb items cat = Some kws.
Proof.
  induction items as [|[c k] items IH]; simpl; [tauto|].
  intros Hnd [H|H].
  - inversion H; subst. now rewrite String.eqb_refl.
  - inversion Hnd as [|? ? Hnot Hnd']; subst.
    destruct (eqb_cases String.eqb String.eqb_eq cat c) as [[-> E]|[Hk E]]; rewrite E.
    + exfalso. apply Hnot. change c with (fst (c, kws)). now apply in_map.
    + auto.
Qed.

Lemma NoDup_theme_categories : NoDup (map fst Vocab.theme_categories).
Proof.
  simpl. repeat (constructor; [simpl; intuition discriminate|]). constructor.
Qed.

Lemma categorize_total common cat kws :
  In (cat, kws) Vocab.theme_categories ->
  let total := list_sum (map (fun keyword => get String.eqb common keyword 0) kws) in
  get String.eqb (categorize common) cat 0 = total /\
  (mem String.eqb (categorize common) cat = true <-> 0 < total).
Proof.
  intros Hin total.
  destruct (fold_category_step common Vocab.theme_categories [] cat NoDup_theme_categories)
    as [Hg Hm].
  rewrite (find_In _ _ _ NoDup_theme_categories Hin) in Hg, Hm.
  change (fold_left (category_step common) Vocab.theme_categories []) with (categorize common)
    in Hg, Hm.
  fold total in Hg, Hm. rewrite Hg, Hm. simpl. rewrite orb_false_r.
  destruct (Nat.ltb_spec 0 total); split; try lia; try tauto; try discriminate.
Qed.

(** A vocabulary keyword occurs among [all_keywords] as often as among
    all the words of the corpus. *)
Lemma occurrences_all_keywords feedback kw :
  in_list kw Vocab.ux_keywords = true ->
  occurrences String.eqb kw (all_keywords feedback) =
  occurrences String.eqb kw (flat_map words_of feedback).
Proof.
  intros Hkw. unfold all_keywords.
  induction feedback as [|fb feedback IH]; [reflexivity|].
  cbn [flat_map]. rewrite !occurrences_app, IH.
  now rewrite (occurrences_filter String.eqb String.eqb_eq
                 (fun word => in_list word Vocab.ux_keywords)).
Qed.

Lemma in_list_In word vocabulary : in_list word vocabulary = true <-> In word vocabulary.
Proof.
  unfold in_list. rewrite existsb_exists. split.
  - intros (x & Hx & E). apply String.eqb_eq in E. now subst.
  - intros H. exists word. split; [assumption | apply String.eqb_refl].
Qed.

Lemma theme_keywords_in_vocabulary cat kws kw :
  In (cat, kws) Vocab.theme_categories -> In kw kws -> In kw Vocab.ux_keywords.
Proof.
  intros Hc Hk. apply in_list_In.
  assert (H : forallb (fun item => forallb (fun kw => in_list kw Vocab.ux_keywords) (snd item))
                      Vocab.theme_categories = true) by reflexivity.
  rewrite forallb_forall in H. specialize (H _ Hc). simpl in H.
  rewrite forallb_forall in H. now apply H.
Qed.

(** C1, counterexample: with "slow" twice and "fast" once, the threshold 1
    gives the category total 3 and the threshold 2 gives the total 2, so
    [theme_categories] is not the same for every pair of thresholds and the
    total under threshold 2 is not the sum of the raw counts. *)
Lemma extract_themes_categories_vary_with_threshold :
  let self := snd (load_feedback init themes_corpus) in
  option_map theme_categories (fst (extract_themes self 1))
    = Some [("performance"%string, 3)] /\
  option_map theme_categories (fst (extract_themes self 2))
    = Some [("performance"%string, 2)] /\
  occurrences String.eqb "slow"%string (corpus_words themes_corpus)
  + occurrences String.eqb "fast"%string (corpus_words themes_corpus) = 3.
Proof. vm_compute. repeat split. Qed.

(** C1, amended: for every corpus of ASCII texts and every threshold,
    [common_keywords] holds
    each vocabulary keyword whose corpus count reaches the threshold, with
    that count; each category total of [theme_categories] is the sum of the
    counts of the category's keywords that reach the threshold (the
    [common_keywords] counts), a category being present exactly when this
    sum is positive; for a threshold of at most 1 the total is the sum of
    the raw counts; [total_keywords_found] does not depend on the
    threshold. *)
Theorem extract_themes_category_totals :
  forall (self : FeedbackAnalyzer) (df : DataFrame) (min_frequency : Z),
    feedback_data self = Some df ->
    ascii_corpus (feedback df) = true ->
    exists result,
      fst (extract_themes self min_frequency) = Some result /\
      (forall kw, In kw Vocab.ux_keywords ->
         get String.eqb (common_keywords result) kw 0
         = kept_count (feedback df) min_frequency kw) /\
      (forall cat kws, In (cat, kws) Vocab.theme_categories ->
         get String.eqb (theme_categories result) cat 0
         = list_sum (map (kept_count (feedback df) min_frequency) kws) /\
         (mem String.eqb (theme_categories result) cat = true <->
          0 < list_sum (map (kept_count (feedback df) min_frequency) kws)) /\
         ((min_frequency <= 1)%Z ->
          get String.eqb (theme_categories result) cat 0
          = list_sum (map (fun kw => occurrences String.eqb kw (corpus_words (feedback df)))
                          kws))) /\
      total_keywords_found result = length (all_keywords (feedback df)).
Proof.
  intros self df m Hdf _. unfold extract_themes. rewrite Hdf.
  eexists. split; [reflexivity|].
  cbn [common_keywords theme_categories total_keywords_found].
  assert (Hkw : forall kw, In kw Vocab.ux_keywords ->
            get String.eqb
              (common_themes_of (Counter String.eqb (all_keywords (feedback df))) m) kw 0
            = kept_count (feedback df) m kw).
  { intros kw Hin. rewrite get_common_themes by apply (NoDup_keys_Counter String.eqb String.eqb_eq).
    rewrite (get_Counter String.eqb String.eqb_eq).
    rewrite occurrences_all_keywords by now apply in_list_In.
    reflexivity. }
  split; [exact Hkw|]. split; [|reflexivity].
  intros cat kws Hin.
  destruct (categorize_total
              (common_themes_of (Counter String.eqb (all_keywords (feedback df))) m)
              cat kws Hin) as [Hg Hm].
  assert (Hsum : list_sum
            (map (fun keyword =>
                    get String.eqb
                      (common_themes_of (Counter String.eqb (all_keywords (feedback df))) m)
                      keyword 0) kws)
          = list_sum (map (kept_count (feedback df) m) kws)).
  { f_equal. apply map_ext_in. intros kw Hk. apply Hkw.
    eapply theme_keywords_in_vocabulary; eassumption. }
  rewrite Hsum in Hg, Hm. repeat split; try assumption; try apply Hm.
  intros Hle. rewrite Hg. f_equal. apply map_ext. intros kw.
  unfold kept_count.
  destruct (Z.leb_spec m (Z.of_nat (occurrences String.eqb kw (corpus_words (feedback df)))));
    lia.
Qed.

(** The totals of the example corpus under the threshold 2 *)
Lemma extract_themes_category_totals_witness :
  exists result,
    fst (extract_themes (snd (load_feedback init themes_corpus)) 2) = Some result /\
    get String.eqb (theme_categories result) "performance"%string 0 = 2.
Proof.
  destruct (extract_themes_category_totals
              (snd (load_feedback init themes_corpus))
              {| feedback := themes_corpus; sentiment := None; sentiment_score := None |}
              2 eq_refl eq_refl) as (result & Hres & _ & Hcat & _).
  exists result. split; [exact Hres|].
  destruct (Hcat "performance"%string
              ["fast"; "slow"; "quick"; "loading"; "responsive"; "laggy"]%string) as [Hg _].
  - simpl. tauto.
  - rewrite Hg. reflexivity.
Defined.

(** ** Sentiment analysis *)

Lemma Qgtb_lt x y : Qgtb x y = true <-> (y < x)%Q.
Proof.
  unfold Qgtb. rewrite (Qgt_alt x y).
  destruct (x ?= y)%Q; split; congruence.
Qed.

Lemma Qgtb_le x y : Qgtb x y = false <-> (x <= y)%Q.
Proof.
  unfold Qgtb. rewrite (Qle_alt x y).
  destruct (x ?= y)%Q; split; congruence.
Qed.

Lemma feedback_data_analyzed polarity self df :
  feedback_data self = Some df ->
  feedback_data (snd (analyze_sentiment polarity self)) =
  Some {| feedback := feedback df;
          sentiment := Some (map fst (map (classify polarity) (feedback df)));
          sentiment_score := Some (map snd (map (classify polarity) (feedback df))) |}.
Proof.
  intros Hdf. unfold analyze_sentiment. rewrite Hdf.
  destruct (length (map snd (map (classify polarity) (feedback df)))); reflexivity.
Qed.

(** C9: a response whose text is absent is annotated neutral with the
    score 0 whatever the scoring function is, so the annotations under any
    two scoring functions are the same: the function is not consulted. *)
Theorem absent_text_is_neutral_for_every_scorer :
  forall (polarity1 polarity2 : string -> Q) (self : FeedbackAnalyzer) (df : DataFrame)
         (i : nat),
    feedback_data self = Some df ->
    nth_error (feedback df) i = Some None ->
    classify polarity1 None = (neutral, 0%Q) /\
    annotation_at (snd (analyze_sentiment polarity1 self)) i = Some (neutral, 0%Q) /\
    annotation_at (snd (analyze_sentiment polarity2 self)) i
    = annotation_at (snd (analyze_sentiment polarity1 self)) i.
Proof.
  intros p1 p2 self df i Hdf Hi.
  assert (H : forall p, annotation_at (snd (analyze_sentiment p self)) i
                        = Some (neutral, 0%Q)).
  { intros p. unfold annotation_at.
    rewrite (feedback_data_analyzed p self df Hdf). cbn [sentiment sentiment_score].
    rewrite !map_map.
    rewrite (map_nth_error (fun x => fst (classify p x)) i (feedback df) Hi).
    rewrite (map_nth_error (fun x => snd (classify p x)) i (feedback df) Hi).
    reflexivity. }
  split; [reflexivity|]. split; [apply H|]. now rewrite !H.
Qed.

Lemma absent_text_is_neutral_for_every_scorer_witness :
  annotation_at (analyzed prefix_polarity [Some "good"%string; None]) 1
  = Some (neutral, 0%Q) /\
  annotation_at (analyzed (fun _ => 1%Q) [Some "good"%string; None]) 1
  = annotation_at (analyzed prefix_polarity [Some "good"%string; None]) 1.
Proof.
  exact (proj2 (absent_text_is_neutral_for_every_scorer
                  prefix_polarity (fun _ => 1%Q)
                  (snd (load_feedback init [Some "good"%string; None]))
                  {| feedback := [Some "good"%string; None];
                     sentiment := None; sentiment_score := None |}
                  1 eq_refl eq_refl)).
Defined.

(** C10: on a loaded list, [analyze_sentiment] returns a result exactly
    when the list is not empty; on the empty list the mean of the scores
    divides by the number of responses, zero, and [ZeroDivisionError] is
    raised. *)
Theorem analyze_sentiment_needs_a_response :
  forall (polarity : string -> Q) (self : FeedbackAnalyzer) (df : DataFrame),
    feedback_data self = Some df ->
    (feedback df = [] ->
     fst (analyze_sentiment polarity self) = Raised ZeroDivisionError) /\
    (feedback df <> [] ->
     exists result, fst (analyze_sentiment polarity self) = Returned (Some result)) /\
    (forall result,
       fst (analyze_sentiment polarity self) = Returned result ->
       result <> None /\ feedback df <> []).
Proof.
  intros polarity self df Hdf. unfold analyze_sentiment. rewrite Hdf.
  rewrite !length_map.
  destruct (feedback df) as [|fb rest]; cbn [length fst].
  - split; [reflexivity|]. split; [congruence | discriminate].
  - split; [discriminate|]. split.
    + intros _. eexists. reflexivity.
    + intros result H. inversion H. split; discriminate.
Qed.

Lemma analyze_sentiment_needs_a_response_witness :
  fst (analyze_sentiment prefix_polarity (snd (load_feedback init [])))
  = Raised ZeroDivisionError.
Proof.
  exact (proj1 (analyze_sentiment_needs_a_response
                  prefix_polarity (snd (load_feedback init []))
                  {| feedback := []; sentiment := None; sentiment_score := None |}
                  eq_refl) eq_refl).
Defined.

(** ** The insights report *)

Lemma In_from_option {A B} (f : A -> list B) (o : option A) (b : B) :
  In b (from_option f o) <-> exists a, o = Some a /\ In b (f a).
Proof.
  destruct o as [a|]; simpl.
  - split; [intros H; exists a; auto | intros (a' & E & H); now inversion E; subst].
  - split; [tauto | intros (a' & E & _); discriminate].
Qed.

Lemma theme_insights_shape themes i :
  In i (theme_insights themes) -> exists t n, i = MostDiscussedTheme t n.
Proof.
  unfold theme_insights. destruct (top_theme_of _) as [top|]; simpl; [|tauto].
  intros [<-|[]]. eauto.
Qed.

Lemma is_empty_false results :
  sentiment_analysis results <> None \/ theme_analysis results <> None
  \/ priority_issues results <> None ->
  is_empty results = false.
Proof.
  unfold is_empty.
  destruct (sentiment_analysis results), (theme_analysis results), (priority_issues results);
    intuition congruence.
Qed.

(** C3, counterexample: thirteen positive and seven negative responses give
    65% positive and 35% negative, both rules' conditions hold, and the
    report has the strong-positive finding but no high-negative finding. *)
Lemma insights_negative_rule_skipped_after_positive :
  exists sa r,
    sentiment_analysis (analysis_results (analyzed prefix_polarity split_corpus)) = Some sa /\
    (60 < get Sentiment_eqb (percentages sa) positive 0)%Q /\
    (30 < get Sentiment_eqb (percentages sa) negative 0)%Q /\
    generate_insights_report "2024-01-01 00:00:00" (analyzed prefix_polarity split_corpus)
    = Returned (Some r) /\
    key_insights r = [StrongPositiveSentiment 65] /\
    ~ In (HighNegativeSentiment (get Sentiment_eqb (percentages sa) negative 0%Q))
         (key_insights r).
Proof.
  eexists. eexists. split; [vm_compute; reflexivity|].
  split; [vm_compute; reflexivity|]. split; [vm_compute; reflexivity|].
  split; [vm_compute; reflexivity|]. split; [reflexivity|].
  simpl. intros [H|[]]. discriminate.
Qed.

(** C3, amended: the two sentiment rules exclude each other, the positive
    one first: the strong-positive finding is in the key insights exactly
    when the positive percentage exceeds 60, and the high-negative finding
    exactly when the negative percentage exceeds 30 and the positive
    percentage does not exceed 60. *)
Theorem insights_sentiment_rules_are_exclusive :
  forall (now : string) (self : FeedbackAnalyzer) (df : DataFrame) (sa : SentimentAnalysis),
    feedback_data self = Some df ->
    sentiment_analysis (analysis_results self) = Some sa ->
    let pos_pct := get Sentiment_eqb (percentages sa) positive 0%Q in
    let neg_pct := get Sentiment_eqb (percentages sa) negative 0%Q in
    exists r,
      generate_insights_report now self = Returned (Some r) /\
      (forall q, In (StrongPositiveSentiment q) (key_insights r) <->
                 q = pos_pct /\ (60 < pos_pct)%Q) /\
      (forall q, In (HighNegativeSentiment q) (key_insights r) <->
                 q = neg_pct /\ (30 < neg_pct)%Q /\ (pos_pct <= 60)%Q).
Proof.
  intros now self df sa Hdf Hsa pos_pct neg_pct.
  unfold generate_insights_report.
  rewrite is_empty_false by (left; congruence). rewrite Hdf, Hsa.
  eexists. split; [reflexivity|]. cbn [key_insights from_option].
  assert (Hrest : forall i,
            In i (from_option theme_insights (theme_analysis (analysis_results self))
                  ++ from_option
                       (fun top_issue =>
                          [TopUserComplaint (issue top_issue) (percentage top_issue)])
                       match priority_issues (analysis_results self) with
                       | Some issues => top_issue_of issues
                       | None => None
                       end) ->
            (exists t n, i = MostDiscussedTheme t n) \/ (exists t p, i = TopUserComplaint t p)).
  { intros i Hi. apply in_app_iff in Hi as [Hi|Hi].
    - left. apply In_from_option in Hi as (a & _ & Hi). eapply theme_insights_shape, Hi.
    - right. apply In_from_option in Hi as (a & _ & [<-|[]]). eauto. }
  unfold sentiment_insights. fold pos_pct neg_pct.
  destruct (Qgtb pos_pct 60) eqn:Hpos; [|destruct (Qgtb neg_pct 30) eqn:Hneg].
  - apply Qgtb_lt in Hpos. split; intros q; rewrite in_app_iff; simpl; split.
    + intros [[H|[]]|H]; [inversion H; auto|].
      destruct (Hrest _ H) as [(t & n & E)|(t & n & E)]; discriminate.
    + intros [-> _]. auto.
    + intros [[H|[]]|H]; [discriminate|].
      destruct (Hrest _ H) as [(t & n & E)|(t & n & E)]; discriminate.
    + intros (_ & _ & Hle). exfalso. apply (Qlt_not_le _ _ Hpos Hle).
  - apply Qgtb_le in Hpos. apply Qgtb_lt in Hneg.
    split; intros q; rewrite in_app_iff; simpl; split.
    + intros [[H|[]]|H]; [discriminate|].
      destruct (Hrest _ H) as [(t & n & E)|(t & n & E)]; discriminate.
    + intros [_ Hlt]. exfalso. apply (Qlt_not_le _ _ Hlt Hpos).
    + intros [[H|[]]|H]; [inversion H; auto|].
      destruct (Hrest _ H) as [(t & n & E)|(t & n & E)]; discriminate.
    + intros (-> & _). auto.
  - apply Qgtb_le in Hpos. apply Qgtb_le in Hneg.
    split; intros q; rewrite in_app_iff; simpl; split.
    + intros [[]|H].
      destruct (Hrest _ H) as [(t & n & E)|(t & n & E)]; discriminate.
    + intros [_ Hlt]. exfalso. apply (Qlt_not_le _ _ Hlt Hpos).
    + intros [[]|H].
      destruct (Hrest _ H) as [(t & n & E)|(t & n & E)]; discriminate.
    + intros (_ & Hlt & _). exfalso. apply (Qlt_not_le _ _ Hlt Hneg).
Qed.

Lemma insights_sentiment_rules_are_exclusive_witness :
  exists r,
    generate_insights_report "2024-01-01 00:00:00" (analyzed prefix_polarity split_corpus)
    = Returned (Some r) /\
    In (StrongPositiveSentiment 65) (key_insights r) /\
    ~ In (HighNegativeSentiment 35) (key_insights r).
Proof.
  destruct (insights_sentiment_rules_are_exclusive
              "2024-01-01 00:00:00" (analyzed prefix_polarity split_corpus)
              {| feedback := split_corpus;
                 sentiment := Some (map fst (map (classify prefix_polarity) split_corpus));
                 sentiment_score :=
                   Some (map snd (map (classify prefix_polarity) split_corpus)) |}
              {| distribution := [(positive, 13); (negative, 7)];
                 percentages := [(positive, 65%Q); (negative, 35%Q)];
                 average_sentiment := (3 # 20)%Q |}
              eq_refl eq_refl)
    as (r & Hr & Hpos & Hneg).
  exists r. split; [exact Hr|]. split.
  - apply Hpos. split; reflexivity.
  - intros H. apply Hneg in H as (_ & _ & Hle). apply Hle. reflexivity.
Defined.

(** ** Rounding *)

Lemma round_comp x y ndigits : (x == y)%Q -> Num.round x ndigits = Num.round y ndigits.
Proof.
  intros H. unfold Num.round.
  set (s := inject_Z (10 ^ Z.of_nat ndigits)).
  assert (Hy : (x * s == y * s)%Q) by now rewrite H.
  assert (Hf : Qfloor (x * s) = Qfloor (y * s)) by now apply Qfloor_comp.
  rewrite Hf.
  assert (Ht : (2 * (x * s - inject_Z (Qfloor (y * s)))
                == 2 * (y * s - inject_Z (Qfloor (y * s))))%Q) by now rewrite Hy.
  assert (Hb : Qeq_bool (2 * (x * s - inject_Z (Qfloor (y * s)))) 1
               = Qeq_bool (2 * (y * s - inject_Z (Qfloor (y * s)))) 1).
  { destruct (Qeq_bool (2 * (y * s - inject_Z (Qfloor (y * s)))) 1) eqn:E.
    - apply Qeq_bool_iff. rewrite Ht. now apply Qeq_bool_iff.
    - destruct (Qeq_bool (2 * (x * s - inject_Z (Qfloor (y * s)))) 1) eqn:E';
        [|reflexivity].
      apply Qeq_bool_iff in E'. rewrite Ht in E'. apply Qeq_bool_iff in E'. congruence. }
  rewrite Hb. now rewrite (Qfloor_comp _ _ Ht).
Qed.

(** A value rounded to one decimal is a number of tenths, at most half
    a tenth away from the value. *)
Lemma round1_spec x :
  exists z : Z,
    (Num.round x 1 == inject_Z z / 10)%Q /\
    (-1 <= 2 * inject_Z z - 20 * x)%Q /\ (2 * inject_Z z - 20 * x <= 1)%Q.
Proof.
  unfold Num.round. change (10 ^ Z.of_nat 1)%Z with 10%Z.
  set (y := (x * inject_Z 10)%Q).
  assert (Hy : (y == 10 * x)%Q) by (unfold y; change (inject_Z 10) with 10%Q; ring).
  set (f := Qfloor y).
  assert (Hf1 : (inject_Z f <= y)%Q) by apply Qfloor_le.
  assert (Hf2 : (y < inject_Z f + 1)%Q).
  { pose proof (Qlt_floor y) as H. fold f in H. rewrite inject_Z_plus in H. exact H. }
  set (t := (2 * (y - inject_Z f))%Q).
  change (inject_Z 10) with 10%Q.
  destruct (Qeq_bool t 1) eqn:E.
  - apply Qeq_bool_iff in E. unfold t in E.
    destruct (Z.even f).
    + exists f. rewrite Qred_correct. split; [reflexivity|]. split; lra.
    + exists (f + 1)%Z. rewrite Qred_correct. split; [reflexivity|].
      rewrite inject_Z_plus. change (inject_Z 1) with 1%Q. split; lra.
  - clear E. set (e := Qfloor t).
    assert (He1 : (inject_Z e <= t)%Q) by apply Qfloor_le.
    assert (He2 : (t < inject_Z e + 1)%Q).
    { pose proof (Qlt_floor t) as H. fold e in H. rewrite inject_Z_plus in H. exact H. }
    assert (Ht : (0 <= t)%Q /\ (t < 2)%Q) by (unfold t; split; lra).
    assert (Hz : (0 <= e < 2)%Z).
    { split.
      - assert (H : (0 < e + 1)%Z); [|lia].
        rewrite Zlt_Qlt, inject_Z_plus.
        change (inject_Z 1) with 1%Q. change (inject_Z 0) with 0%Q. lra.
      - rewrite Zlt_Qlt. change (inject_Z 2) with 2%Q. lra. }
    exists (f + e)%Z. rewrite Qred_correct. split; [reflexivity|].
    rewrite inject_Z_plus. unfold t in *.
    assert (He : e = 0%Z \/ e = 1%Z) by lia.
    destruct He as [He|He]; rewrite He in *;
      [change (inject_Z 0) with 0%Q in * | change (inject_Z 1) with 1%Q in *];
      split; lra.
Qed.

(** The exact rounding is one of the roundings that binary floats give. *)
Lemma round_rounds_to x : Num.rounds_to (Num.round x 1) x 1.
Proof.
  destruct (round1_spec x) as (z & E & L & U). exists z.
  change (inject_Z (10 ^ Z.of_nat 1)) with 10%Q.
  assert (Hs : (0 <= Num.slack * (Qabs x + 1))%Q).
  { apply Qmult_le_0_compat; [discriminate|]. pose proof (Qabs_nonneg x). lra. }
  change (1 / (2 * 10))%Q with (1 # 20)%Q.
  unfold Qdiv in *. change (/ 10)%Q with (1 # 10)%Q in *.
  split; apply Qabs_Qle_condition; split; try rewrite E; lra.
Qed.

(** ** The sum of the category percentages *)

Lemma Qsum_from l a : (fold_left Qplus l a == a + Qsum l)%Q.
Proof.
  unfold Qsum. revert a. induction l as [|x l IH]; intros a; simpl.
  - ring.
  - rewrite IH, (IH (0 + x)%Q). ring.
Qed.

Lemma Qsum_cons x l : (Qsum (x :: l) == x + Qsum l)%Q.
Proof. unfold Qsum at 1. simpl. rewrite Qsum_from. ring. Qed.

Lemma Sentiment_eqb_eq a b : Sentiment_eqb a b = true <-> a = b.
Proof. destruct a, b; simpl; split; congruence. Qed.

Section Totals.
Variable g : nat -> Q.
Hypothesis g_zero : (g 0 == 0)%Q.

Lemma total_insert_desc {K} (x : K * nat) l :
  (count_total g (insert_desc x l) == g (snd x) + count_total g l)%Q.
Proof.
  unfold count_total. induction l as [|y l IH]; simpl.
  - now rewrite Qsum_cons.
  - destruct (snd y <? snd x); simpl.
    + now rewrite (Qsum_cons (g (snd x))).
    + rewrite !Qsum_cons, IH. ring.
Qed.

Lemma total_sorted_desc {K} (d : dict K nat) : (count_total g (sorted_desc d) == count_total g d)%Q.
Proof.
  unfold sorted_desc.
  assert (H : forall acc : dict K nat,
            (count_total g (fold_left (fun acc x => insert_desc x acc) d acc)
             == count_total g d + count_total g acc)%Q).
  { induction d as [|x d IH]; intros acc; simpl.
    - change (count_total g (@nil (K * nat))) with 0%Q. ring.
    - rewrite IH, total_insert_desc. unfold count_total. simpl. rewrite Qsum_cons. ring. }
  rewrite H. change (count_total g (@nil (K * nat))) with 0%Q. ring.
Qed.

Lemma total_set (d : dict Sentiment nat) x v :
  (count_total g (set Sentiment_eqb d x v)
   == count_total g d - g (get Sentiment_eqb d x 0%nat) + g v)%Q.
Proof.
  unfold count_total. induction d as [|[k n] d IH]; simpl.
  - rewrite Qsum_cons, g_zero. change (Qsum []) with 0%Q. ring.
  - destruct (Sentiment_eqb x k); simpl; rewrite !Qsum_cons; [|rewrite IH]; simpl; ring.
Qed.

Lemma total_Counter (l : list Sentiment) :
  (count_total g (Counter Sentiment_eqb l)
   == g (occurrences Sentiment_eqb positive l)
      + g (occurrences Sentiment_eqb negative l)
      + g (occurrences Sentiment_eqb neutral l))%Q.
Proof.
  induction l as [|x l IH] using rev_ind.
  - change (count_total g (Counter Sentiment_eqb [])) with 0%Q.
    change (occurrences Sentiment_eqb positive []) with 0.
    change (occurrences Sentiment_eqb negative []) with 0.
    change (occurrences Sentiment_eqb neutral []) with 0.
    rewrite g_zero. ring.
  - rewrite Counter_snoc, total_set, IH.
    rewrite (get_Counter Sentiment_eqb Sentiment_eqb_eq).
    rewrite !occurrences_app. unfold occurrences.
    destruct x; simpl; rewrite ?Nat.add_0_r; ring.
Qed.

End Totals.

Lemma occurrences_total (l : list Sentiment) :
  occurrences Sentiment_eqb positive l + occurrences Sentiment_eqb negative l
  + occurrences Sentiment_eqb neutral l = length l.
Proof.
  unfold occurrences. induction l as [|x l IH]; simpl; [reflexivity|].
  destruct x; simpl; lia.
Qed.

Lemma percent_total a b c n :
  0 < n -> a + b + c = n ->
  (Num.percent a n + Num.percent b n + Num.percent c n == 100)%Q.
Proof.
  intros Hn Hsum. unfold Num.percent.
  assert (HN : ~ (inject_Z (Z.of_nat n) == 0)%Q).
  { change 0%Q with (inject_Z 0). rewrite inject_Z_injective. lia. }
  assert (H : (inject_Z (Z.of_nat a) + inject_Z (Z.of_nat b) + inject_Z (Z.of_nat c)
               == inject_Z (Z.of_nat n))%Q).
  { rewrite <- !inject_Z_plus, inject_Z_injective. lia. }
  assert (E : (inject_Z (Z.of_nat a) / inject_Z (Z.of_nat n) * 100
               + inject_Z (Z.of_nat b) / inject_Z (Z.of_nat n) * 100
               + inject_Z (Z.of_nat c) / inject_Z (Z.of_nat n) * 100
               == (inject_Z (Z.of_nat a) + inject_Z (Z.of_nat b) + inject_Z (Z.of_nat c))
                  / inject_Z (Z.of_nat n) * 100)%Q) by (field; exact HN).
  rewrite E, H. field. exact HN.
Qed.

(** Three values that sum to 100, each rounded to one decimal, sum to 100
    within a tenth: the rounding errors add up to at most 0.15 and the sum
    of the rounded values is a number of tenths. *)
Lemma rounded_parts_of_100 x1 x2 x3 :
  (x1 + x2 + x3 == 100)%Q ->
  (Qabs (Num.round x1 1 + Num.round x2 1 + Num.round x3 1 - 100) <= 1 # 10)%Q.
Proof.
  intros Hsum.
  destruct (round1_spec x1) as (z1 & E1 & L1 & U1).
  destruct (round1_spec x2) as (z2 & E2 & L2 & U2).
  destruct (round1_spec x3) as (z3 & E3 & L3 & U3).
  rewrite E1, E2, E3.
  assert (Hz : (999 <= z1 + z2 + z3 <= 1001)%Z).
  { assert (Hq : (1997 <= 2 * inject_Z (z1 + z2 + z3))%Q /\
                 (2 * inject_Z (z1 + z2 + z3) <= 2003)%Q).
    { rewrite !inject_Z_plus. split; lra. }
    destruct Hq as [Hq1 Hq2].
    change 2%Q with (inject_Z 2) in Hq1, Hq2. rewrite <- inject_Z_mult in Hq1, Hq2.
    change 1997%Q with (inject_Z 1997) in Hq1. change 2003%Q with (inject_Z 2003) in Hq2.
    rewrite <- Zle_Qle in Hq1, Hq2. lia. }
  destruct Hz as [Hz1 Hz2]. rewrite Zle_Qle in Hz1, Hz2.
  rewrite !inject_Z_plus in Hz1, Hz2.
  change (inject_Z 999) with 999%Q in Hz1. change (inject_Z 1001) with 1001%Q in Hz2.
  apply Qabs_Qle_condition. unfold Qdiv. change (/ 10)%Q with (1 # 10)%Q.
  split; lra.
Qed.

(** ** Priority issues *)






Section Ranked.
Variable words : list string.

Lemma ranking_sorted : StronglySorted (before (first_mention words)) (ranking words).
Proof.
  apply sorted_desc_ranked. apply (Counter_order String.eqb String.eqb_eq).
Qed.

Lemma ranking_In kw n :
  In (kw, n) (ranking words) <->
  in_list kw Vocab.problem_keywords = true /\ In kw words /\
  n = occurrences String.eqb kw words.
Proof.
  unfold ranking. rewrite sorted_desc_In, (In_Counter String.eqb String.eqb_eq).
  unfold problem_mentions. rewrite filter_In. split.
  - intros [[Hw Hp] ->]. repeat split; try assumption.
    now apply (occurrences_filter String.eqb String.eqb_eq).
  - intros (Hp & Hw & ->). repeat split; try assumption.
    symmetry. now apply (occurrences_filter String.eqb String.eqb_eq).
Qed.

Lemma most_common_split n :
  ranking words
  = most_common n (Counter String.eqb (problem_mentions words)) ++ skipn n (ranking words).
Proof. unfold most_common. fold (ranking words). symmetry. apply firstn_skipn. Qed.

Lemma most_common_In n a :
  In a (most_common n (Counter String.eqb (problem_mentions words))) -> In a (ranking words).
Proof. intros H. rewrite (most_common_split n). apply in_or_app. now left. Qed.

Lemma most_common_content n kw c :
  In (kw, c) (most_common n (Counter String.eqb (problem_mentions words))) ->
  In kw Vocab.problem_keywords /\ c = occurrences String.eqb kw words /\ 0 < c.
Proof.
  intros H. apply most_common_In, ranking_In in H as (Hp & Hw & ->).
  repeat split.
  - now apply in_list_In.
  - now apply (occurrences_pos String.eqb String.eqb_eq).
Qed.

Lemma most_common_order n i j a b :
  i < j ->
  nth_error (most_common n (Counter String.eqb (problem_mentions words))) i = Some a ->
  nth_error (most_common n (Counter String.eqb (problem_mentions words))) j = Some b ->
  snd b <= snd a /\
  (snd a = snd b ->
   index_of String.eqb (fst a) words < index_of String.eqb (fst b) words).
Proof.
  intros Hij Hi Hj.
  pose proof ranking_sorted as Hs. rewrite (most_common_split n) in Hs.
  apply StronglySorted_app_inv in Hs as (Hs & _ & _).
  pose proof (StronglySorted_nth_error _ _ i j a b Hs Hij Hi Hj) as Hab.
  assert (Ha : In a (ranking words)) by (eapply most_common_In, nth_error_In, Hi).
  destruct a as [ka ca], b as [kb cb]. apply ranking_In in Ha as (Hpa & Hwa & _).
  assert (Hb : In (kb, cb) (ranking words)) by (eapply most_common_In, nth_error_In, Hj).
  apply ranking_In in Hb as (Hpb & _ & _).
  unfold before, first_mention, problem_mentions in Hab. cbn [fst snd] in *. split; [lia|].
  intros E. destruct Hab as [Hab|[_ Hab]]; [lia|].
  now apply (index_of_filter String.eqb String.eqb_eq
             (fun kw => in_list kw Vocab.problem_keywords) ka kb words Hpa Hpb Hwa).
Qed.

Lemma most_common_complete n kw :
  In kw Vocab.problem_keywords -> In kw words ->
  (forall a, In a (most_common n (Counter String.eqb (problem_mentions words))) -> fst a <> kw) ->
  length (most_common n (Counter String.eqb (problem_mentions words))) = n /\
  (forall a, In a (most_common n (Counter String.eqb (problem_mentions words))) ->
             occurrences String.eqb kw words <= snd a).
Proof.
  intros Hp Hw Hout.
  assert (Hin : In (kw, occurrences String.eqb kw words) (ranking words)).
  { apply ranking_In. repeat split; [now apply in_list_In | assumption]. }
  pose proof ranking_sorted as Hs.
  rewrite (most_common_split n) in Hin, Hs.
  apply in_app_iff in Hin as [Hin|Hin]; [exfalso; now apply (Hout _ Hin)|].
  apply StronglySorted_app_inv in Hs as (_ & _ & Hs). split.
  - unfold most_common. fold (ranking words). rewrite length_firstn.
    assert (Hlen : 0 < length (skipn n (ranking words))) by (destruct (skipn n (ranking words)); simpl in *; [tauto | lia]).
    rewrite length_skipn in Hlen. lia.
  - intros a Ha. specialize (Hs _ _ Ha Hin). unfold before in Hs. cbn [fst snd] in Hs. lia.
Qed.

End Ranked.

Lemma priority_list_returned self df sa sentiments :
  sentiment_analysis (analysis_results self) = Some sa ->
  feedback_data self = Some df ->
  sentiment df = Some sentiments ->
  negative_rows (feedback df) sentiments <> [] ->
  fst (identify_priority_issues self) =
  Returned (Some (PriorityList
    (map (fun item =>
            {| issue := fst item;
               frequency := snd item;
               percentage := Num.round (Num.percent (snd item) (length (feedback df))) 1 |})
         (most_common 5
            (Counter String.eqb
               (problem_mentions (negative_keywords_of (feedback df) sentiments))))))).
Proof.
  intros Hsa Hdf Hs Hneg. unfold identify_priority_issues, negative_keywords_of.
  rewrite Hsa, Hdf, Hs.
  destruct (negative_rows (feedback df) sentiments) eqn:E; [congruence|].
  reflexivity.
Qed.

(** C4, counterexample: one negative response that mentions "crash" and
    then "slow", once each. The two issues are tied and "crash" is ranked
    first, though "slow" stands before "crash" in the problem vocabulary;
    with the two words exchanged in the text the ranking is exchanged
    too. *)
Lemma priority_ties_follow_the_text_not_the_vocabulary :
  exists issues issues',
    fst (identify_priority_issues
           (analyzed prefix_polarity [Some "bad: crash, then slow"%string]))
    = Returned (Some (PriorityList issues)) /\
    map issue issues = ["crash"%string; "slow"%string] /\
    map frequency issues = [1; 1] /\
    ~ ties_by_vocabulary issues /\
    fst (identify_priority_issues
           (analyzed prefix_polarity [Some "bad: slow, then crash"%string]))
    = Returned (Some (PriorityList issues')) /\
    map issue issues' = ["slow"%string; "crash"%string].
Proof.
  eexists. eexists. split; [vm_compute; reflexivity|].
  split; [reflexivity|]. split; [reflexivity|]. split.
  - intros H.
    specialize (H 0 1 _ _ (Nat.lt_0_1) eq_refl eq_refl eq_refl).
    vm_compute in H. lia.
  - split; [vm_compute; reflexivity | reflexivity].
Qed.

(** C4, amended: with at least one negative response, and for ASCII
    texts, [identify_priority_issues] returns at most 5 issues; each is a
    word of
    the problem vocabulary with, as frequency, its number of occurrences in
    the negative responses alone; the issues are in descending order of
    frequency, and of two issues with the same frequency the one mentioned
    first in the negative texts comes first; a problem word of the negative
    texts that is left out is no more frequent than any issue kept. *)
Theorem priority_issues_ranking :
  forall (self : FeedbackAnalyzer) (df : DataFrame) (sa : SentimentAnalysis)
         (sentiments : list Sentiment),
    sentiment_analysis (analysis_results self) = Some sa ->
    feedback_data self = Some df ->
    sentiment df = Some sentiments ->
    negative_rows (feedback df) sentiments <> [] ->
    ascii_corpus (feedback df) = true ->
    let words := negative_keywords_of (feedback df) sentiments in
    exists issues,
      fst (identify_priority_issues self) = Returned (Some (PriorityList issues)) /\
      length issues <= 5 /\
      (forall p, In p issues ->
         In (issue p) Vocab.problem_keywords /\
         frequency p = occurrences String.eqb (issue p) words /\
         0 < frequency p) /\
      (forall i j p q,
         i < j -> nth_error issues i = Some p -> nth_error issues j = Some q ->
         frequency q <= frequency p /\
         (frequency p = frequency q ->
          index_of String.eqb (issue p) words < index_of String.eqb (issue q) words)) /\
      (forall kw,
         In kw Vocab.problem_keywords -> In kw words ->
         (forall p, In p issues -> issue p <> kw) ->
         length issues = 5 /\
         (forall p, In p issues -> occurrences String.eqb kw words <= frequency p)).
Proof.
  intros self df sa sentiments Hsa Hdf Hs Hneg _ words.
  eexists. split; [exact (priority_list_returned self df sa sentiments Hsa Hdf Hs Hneg)|].
  fold words.
  set (top := most_common 5 _).
  set (mk := fun item : string * nat => _).
  assert (Hmk : forall p, In p (map mk top) -> In (issue p, frequency p) top).
  { intros p Hp. apply in_map_iff in Hp as ([k c] & <- & Hin). exact Hin. }
  assert (Hnth : forall i p, nth_error (map mk top) i = Some p ->
                             nth_error top i = Some (issue p, frequency p)).
  { intros i p Hp. rewrite nth_error_map in Hp.
    destruct (nth_error top i) as [[k c]|]; [|discriminate].
    inversion Hp. reflexivity. }
  split; [|split; [|split]].
  - rewrite length_map. unfold top, most_common. apply firstn_le_length.
  - intros p Hp. apply (most_common_content words 5), Hmk, Hp.
  - intros i j p q Hij Hi Hj.
    apply (most_common_order words 5 i j (issue p, frequency p) (issue q, frequency q) Hij);
      now apply Hnth.
  - intros kw Hkw Hw Hout.
    destruct (most_common_complete words 5 kw Hkw Hw) as [Hlen Hle].
    + intros [k c] Ha E. simpl in E. subst k.
      apply (Hout (mk (kw, c))); [now apply in_map | reflexivity].
    + split; [now rewrite length_map|].
      intros p Hp. apply (Hle (issue p, frequency p)), Hmk, Hp.
Qed.

Lemma priority_issues_ranking_witness :
  exists issues,
    fst (identify_priority_issues
           (analyzed prefix_polarity [Some "bad: crash, then slow"%string]))
    = Returned (Some (PriorityList issues)) /\
    length issues <= 5.
Proof.
  destruct (priority_issues_ranking
              (analyzed prefix_polarity [Some "bad: crash, then slow"%string])
              {| feedback := [Some "bad: crash, then slow"%string];
                 sentiment := Some [negative];
                 sentiment_score := Some [(- (1 # 2))%Q] |}
              {| distribution := [(negative, 1)];
                 percentages := [(negative, 100%Q)];
                 average_sentiment := (- (1 # 2))%Q |}
              [negative] eq_refl eq_refl eq_refl)
    as (issues & Hres & Hlen & _).
  - discriminate.
  - reflexivity.
  - exists issues. split; assumption.
Defined.

(** C5: the percentage of every retained issue is its frequency divided by
    the number of all loaded responses, times 100, rounded to one decimal:
    as binary floats round it at a tie, and to the exact nearest tenth
    where the quotient is clear of the ties. *)
Theorem priority_percentage_over_all_responses :
  forall (self : FeedbackAnalyzer) (df : DataFrame) (sa : SentimentAnalysis)
         (sentiments : list Sentiment),
    sentiment_analysis (analysis_results self) = Some sa ->
    feedback_data self = Some df ->
    sentiment df = Some sentiments ->
    negative_rows (feedback df) sentiments <> [] ->
    exists issues,
      fst (identify_priority_issues self) = Returned (Some (PriorityList issues)) /\
      (forall p, In p issues ->
         Num.rounds_to (percentage p)
                       (Num.percent (frequency p) (length (feedback df))) 1 /\
         (Num.clear_of_ties (Num.percent (frequency p) (length (feedback df))) 1 ->
          percentage p
          = Num.round (Num.percent (frequency p) (length (feedback df))) 1)).
Proof.
  intros self df sa sentiments Hsa Hdf Hs Hneg.
  eexists. split; [exact (priority_list_returned self df sa sentiments Hsa Hdf Hs Hneg)|].
  intros p Hp. apply in_map_iff in Hp as ([k c] & <- & _).
  cbn [percentage frequency fst snd]. split; [apply round_rounds_to | reflexivity].
Qed.

(** One "slow" among twenty responses, three of them negative: 5.0, where
    a third would be 33.3. *)
Lemma priority_percentage_over_all_responses_witness :
  length (negative_rows slow_corpus
            (map fst (map (classify prefix_polarity) slow_corpus))) = 3 /\
  fst (identify_priority_issues (analyzed prefix_polarity slow_corpus))
  = Returned (Some (PriorityList
      [{| issue := "slow"%string; frequency := 1; percentage := 5 |}])) /\
  Num.round (Num.percent 1 20) 1 = 5%Q /\
  Num.round (Num.percent 1 3) 1 = 33.3%Q.
Proof.
  split; [reflexivity|].
  destruct (priority_percentage_over_all_responses
              (analyzed prefix_polarity slow_corpus)
              {| feedback := slow_corpus;
                 sentiment := Some (map fst (map (classify prefix_polarity) slow_corpus));
                 sentiment_score :=
                   Some (map snd (map (classify prefix_polarity) slow_corpus)) |}
              {| distribution := [(positive, 10); (neutral, 7); (negative, 3)];
                 percentages := [(positive, 50%Q); (neutral, 35%Q); (negative, 15%Q)];
                 average_sentiment := (7 # 40)%Q |}
              (map fst (map (classify prefix_polarity) slow_corpus))
              eq_refl eq_refl eq_refl)
    as (issues & Hres & Hpct).
  - vm_compute. discriminate.
  - split; [|split; reflexivity].
    rewrite Hres. do 3 f_equal.
    assert (E : issues =
                [{| issue := "slow"%string; frequency := 1; percentage := 5 |}]).
    { vm_compute in Hres. inversion Hres. reflexivity. }
    exact E.
Defined.

End FeedbackFacts.

(** * Properties of the survey data processor *)

Module SurveyFacts.

Import Dict Survey DictFacts.

Lemma fill_returns {V} (entry : string -> outcome (string * V)) items acc :
  (forall item, In item items -> exists v, entry item = Returned (item, v)) ->
  exists d,
    fill entry items acc = Returned d /\
    (forall k v, In k items -> entry k = Returned (k, v) -> find String.eqb d k = Some v) /\
    (forall k, ~ In k items -> find String.eqb d k = find String.eqb acc k).
Proof.
  revert acc. induction items as [|item items IH]; intros acc Hok; simpl.
  - exists acc. repeat split; tauto.
  - destruct (Hok item (or_introl eq_refl)) as (v0 & E0). rewrite E0. simpl.
    destruct (IH (set String.eqb acc item v0)) as (d & Hd & Hin & Hout).
    { intros i Hi. apply Hok. now right. }
    exists d. split; [exact Hd|]. split.
    + intros k v Hk Ek.
      destruct (in_dec string_dec k items) as [Hki|Hki]; [now apply Hin|].
      destruct Hk as [<-|Hk]; [|contradiction].
      rewrite Hout by assumption.
      rewrite (find_set_same String.eqb String.eqb_eq). congruence.
    + intros k Hk. rewrite Hout by tauto.
      apply (find_set_other String.eqb String.eqb_eq). tauto.
Qed.

Lemma floats_length s vals : floats s = Returned vals -> length vals = length s.
Proof.
  revert vals. induction s as [|c s IH]; intros vals; simpl.
  - intros H. inversion H. reflexivity.
  - destruct c; try discriminate;
      (destruct (floats s) as [vs|e]; [|discriminate]);
      intros H; inversion H; simpl; f_equal; now apply IH.
Qed.

Lemma rating_columns_mem df col :
  In col (rating_columns df) -> mem String.eqb df col = true.
Proof.
  unfold rating_columns. rewrite filter_In. intros [H _].
  now apply (mem_keys String.eqb String.eqb_eq).
Qed.

(** C2, counterexample: the column holds 5 and one missing value; its
    maximum is 5, the only non-missing value is at least 4 (100%), and
    [satisfaction_rate] is 50.0. *)
Lemma satisfaction_rate_counts_missing_rows :
  exists metrics m,
    fst (calculate_satisfaction_metrics (cleaned gap_table)) = Returned (Some metrics) /\
    find String.eqb metrics "rating"%string = Some m /\
    max [Some 5%Q; None] = Some 5%Q /\
    m_satisfaction_rate m = Some 50%Q /\
    satisfaction_rate_of_present [Some 5%Q; None] = 100%Q.
Proof.
  eexists. eexists. split; [vm_compute; reflexivity|].
  split; [reflexivity|]. repeat split.
Qed.

(** C2, amended: for every rating column whose observed maximum is at most
    5, [satisfaction_rate] is the number of values that are at least 4 as a
    percentage of the number of all rows of the column, the missing ones
    included, rounded to one decimal: it rounds that percentage as binary
    floats do ([Num.rounds_to]), and where the percentage is clear of the
    rounding ties it is the decimal [Num.round] gives; there, where no
    value is missing, this is the percentage of the non-missing values;
    for a column whose maximum exceeds 5, and for one with no value at
    all, no [satisfaction_rate] is produced. *)
Theorem satisfaction_rate_over_all_rows :
  forall (self : SurveyDataProcessor) (df : DataFrame),
    processed_data self = Some df ->
    (forall col, In col (rating_columns df) ->
                 exists vals, floats (column df col) = Returned vals) ->
    exists metrics,
      fst (calculate_satisfaction_metrics self) = Returned (Some metrics) /\
      (forall col vals,
         In col (rating_columns df) ->
         floats (column df col) = Returned vals ->
         exists m,
           find String.eqb metrics col = Some m /\
           (forall mx, max vals = Some mx -> (mx <= 5)%Q ->
              exists rate,
                m_satisfaction_rate m = Some rate /\
                Num.rounds_to rate (Num.percent (count_ge vals 4) (length vals)) 1 /\
                (Num.clear_of_ties (Num.percent (count_ge vals 4) (length vals)) 1 ->
                 rate = Num.round (Num.percent (count_ge vals 4) (length vals)) 1 /\
                 (count vals = length vals -> rate = satisfaction_rate_of_present vals))) /\
           (forall mx, max vals = Some mx -> (5 < mx)%Q -> m_satisfaction_rate m = None) /\
           (max vals = None -> m_satisfaction_rate m = None)).
Proof.
  intros self df Hdf Hnum. unfold calculate_satisfaction_metrics. rewrite Hdf.
  destruct (fill_returns
              (fun col => match floats (column df col) with
                          | Returned vals => Returned (col, column_metrics vals)
                          | Raised e => Raised e
                          end)
              (rating_columns df) []) as (metrics & Hfill & Hin & _).
  { intros col Hcol. destruct (Hnum col Hcol) as (vals & E). rewrite E. eauto. }
  rewrite Hfill. exists metrics. split; [reflexivity|].
  intros col vals Hcol Hvals. exists (column_metrics vals). split.
  { apply Hin; [assumption|]. now rewrite Hvals. }
  cbn [m_satisfaction_rate column_metrics]. unfold max_le. split; [|split].
  - intros mx Hmx Hle. rewrite Hmx.
    assert (E : Qleb mx 5 = true).
    { unfold Qleb. apply negb_true_iff. unfold Qgtb.
      rewrite (Qle_alt mx 5) in Hle. destruct (mx ?= 5)%Q; congruence. }
    rewrite E. eexists. split; [reflexivity|].
    split; [apply FeedbackFacts.round_rounds_to|]. intros _. split; [reflexivity|].
    intros Hall. unfold satisfaction_rate_of_present. now rewrite Hall.
  - intros mx Hmx Hlt. rewrite Hmx.
    assert (E : Qleb mx 5 = false).
    { unfold Qleb. apply negb_false_iff. unfold Qgtb.
      rewrite (Qgt_alt mx 5) in Hlt. now rewrite Hlt. }
    now rewrite E.
  - intros Hmx. now rewrite Hmx.
Qed.

Lemma satisfaction_rate_over_all_rows_witness :
  exists metrics,
    fst (calculate_satisfaction_metrics (cleaned one_segment_table))
    = Returned (Some metrics) /\
    option_map m_satisfaction_rate (find String.eqb metrics "Overall_Rating"%string)
    = Some (Some 50%Q) /\
    option_map m_satisfaction_rate (find String.eqb metrics "nps_rating"%string)
    = Some None.
Proof.
  destruct (satisfaction_rate_over_all_rows (cleaned one_segment_table) one_segment_table
              eq_refl) as (metrics & Hres & Hcols).
  - intros col [<-|[<-|[]]]; eexists; reflexivity.
  - exists metrics. split; [exact Hres|]. split.
    + destruct (Hcols "Overall_Rating"%string [Some 5%Q; None; Some 3%Q; Some 4%Q])
        as (m & Hm & H5 & _); [simpl; tauto | reflexivity |].
      rewrite Hm. simpl. f_equal.
      destruct (H5 5%Q eq_refl) as (rate & E & _ & Hclear); [discriminate|].
      rewrite E. f_equal. apply Hclear. unfold Num.clear_of_ties. vm_compute. discriminate.
    + destruct (Hcols "nps_rating"%string [Some 7%Q; Some 6%Q; Some 3%Q; Some 2%Q])
        as (m & Hm & _ & H7 & _); [simpl; tauto | reflexivity |].
      rewrite Hm. simpl. f_equal. apply (H7 7%Q eq_refl). reflexivity.
Defined.

(** ** Segments *)

Lemma cell_eqb_same a b : cell_eqb a b = true -> same_cell a b = true.
Proof. destruct a, b; simpl; congruence. Qed.

Lemma unique_single v rest :
  (forall c, In c (v :: rest) -> cell_eqb c v = true) -> unique (v :: rest) = [v].
Proof.
  intros Hall. unfold unique. simpl.
  assert (H : forall l, (forall c, In c l -> cell_eqb c v = true) ->
                        fold_left
                          (fun seen c => if existsb (same_cell c) seen then seen else seen ++ [c])
                          l [v] = [v]).
  { induction l as [|c l IH]; intros Hl; simpl; [reflexivity|].
    rewrite (cell_eqb_same c v) by (apply Hl; now left). simpl.
    apply IH. intros c' Hc'. apply Hl. now right. }
  apply H. intros c Hc. apply Hall. now right.
Qed.

Lemma select_all {A} (mask : list bool) (values : list A) :
  (forall b, In b mask -> b = true) -> length mask = length values ->
  select mask values = values.
Proof.
  unfold select. revert values. induction mask as [|b mask IH]; intros [|x values] Hall Hlen;
    simpl in *; try discriminate; [reflexivity|].
  rewrite (Hall b) by now left. simpl. f_equal.
  apply IH; [intros b' Hb'; apply Hall; now right | congruence].
Qed.

Lemma column_In (df : DataFrame) col :
  mem String.eqb df col = true -> In (col, column df col) df.
Proof. apply (get_In String.eqb String.eqb_eq). Qed.

Lemma column_mem (df : DataFrame) col c s :
  column df col = c :: s -> mem String.eqb df col = true.
Proof.
  intros H. destruct (mem String.eqb df col) eqn:M; [reflexivity|].
  unfold column in H. rewrite (get_not_mem String.eqb) in H by assumption. discriminate.
Qed.

(** Where one value fills the segment column, the rows of that segment are
    the whole table. *)
Lemma segment_rows_whole (df : DataFrame) segment_column v rest :
  column df segment_column = v :: rest ->
  (forall c, In c (v :: rest) -> cell_eqb c v = true) ->
  (forall col s, In (col, s) df -> length s = length (v :: rest)) ->
  segment_rows df segment_column v = df.
Proof.
  intros Hcol Hall Hrect. unfold segment_rows. rewrite Hcol.
  rewrite <- (map_id df) at 2. apply map_ext_in. intros [col s] Hin. cbn [fst snd].
  apply (f_equal (pair col)). apply select_all.
  - intros b Hb. apply in_map_iff in Hb as (c & <- & Hc). now apply Hall.
  - rewrite length_map. symmetry. eapply Hrect, Hin.
Qed.

(** C8: where one segment value fills the segment column, the segment's
    entry for each rating column has the mean, the count and the
    satisfaction rate of the unsegmented metrics of that column; it has
    no median, standard deviation or NPS score. *)
Theorem single_segment_matches_unsegmented :
  forall (self : SurveyDataProcessor) (df : DataFrame) (segment_column : string)
         (v : cell) (rest : list cell),
    processed_data self = Some df ->
    column df segment_column = v :: rest ->
    (forall c, In c (v :: rest) -> cell_eqb c v = true) ->
    (forall col s, In (col, s) df -> length s = length (v :: rest)) ->
    (forall col, In col (rating_columns df) ->
                 exists vals, floats (column df col) = Returned vals) ->
    exists metrics segment_metrics,
      fst (calculate_satisfaction_metrics self) = Returned (Some metrics) /\
      fst (analyze_by_segments self segment_column)
      = Returned (Some [(v, segment_metrics)]) /\
      (forall col, In col (rating_columns df) ->
         exists m s,
           find String.eqb metrics col = Some m /\
           find String.eqb segment_metrics col = Some s /\
           s_mean s = m_mean m /\
           s_count s = m_count m /\
           s_satisfaction_rate s = m_satisfaction_rate m).
Proof.
  intros self df sc v rest Hdf Hcol Hall Hrect Hnum.
  unfold calculate_satisfaction_metrics, analyze_by_segments. rewrite Hdf.
  rewrite (column_mem df sc v rest Hcol). cbn [negb].
  rewrite Hcol, (unique_single v rest Hall). cbn [fill_segments].
  rewrite (segment_rows_whole df sc v rest Hcol Hall Hrect), Hcol.
  destruct (fill_returns
              (fun col => match floats (column df col) with
                          | Returned vals => Returned (col, column_metrics vals)
                          | Raised e => Raised e
                          end)
              (rating_columns df) []) as (metrics & Hfill & Hin & _).
  { intros col Hc. destruct (Hnum col Hc) as (vals & E). rewrite E. eauto. }
  destruct (fill_returns
              (fun col => match floats (column df col) with
                          | Returned vals =>
                              Returned (col, segment_column_metrics vals (length (v :: rest)))
                          | Raised e => Raised e
                          end)
              (rating_columns df) []) as (segment_metrics & Hfill' & Hin' & _).
  { intros col Hc. destruct (Hnum col Hc) as (vals & E). rewrite E. eauto. }
  rewrite Hfill, Hfill'. exists metrics, segment_metrics.
  split; [reflexivity|]. split; [reflexivity|].
  intros col Hc. destruct (Hnum col Hc) as (vals & E).
  exists (column_metrics vals), (segment_column_metrics vals (length (v :: rest))).
  split; [apply Hin; [assumption | now rewrite E]|].
  split; [apply Hin'; [assumption | now rewrite E]|].
  assert (Hlen : length (v :: rest) = length vals).
  { rewrite (floats_length _ _ E). symmetry.
    apply (Hrect col), column_In, rating_columns_mem, Hc. }
  rewrite Hlen. repeat split.
Qed.

Lemma single_segment_matches_unsegmented_witness :
  exists metrics segment_metrics,
    fst (calculate_satisfaction_metrics (cleaned one_segment_table))
    = Returned (Some metrics) /\
    fst (analyze_by_segments (cleaned one_segment_table) "user_type")
    = Returned (Some [(Str "premium", segment_metrics)]) /\
    (exists m s,
       find String.eqb metrics "Overall_Rating"%string = Some m /\
       find String.eqb segment_metrics "Overall_Rating"%string = Some s /\
       s_mean s = m_mean m /\ s_count s = m_count m /\
       s_satisfaction_rate s = m_satisfaction_rate m).
Proof.
  destruct (single_segment_matches_unsegmented
              (cleaned one_segment_table) one_segment_table "user_type"
              (Str "premium") [Str "premium"; Str "premium"; Str "premium"]
              eq_refl eq_refl)
    as (metrics & segment_metrics & Hm & Hs & Hcols).
  - intros c [<-|[<-|[<-|[<-|[]]]]]; reflexivity.
  - intros col s [H|[H|[H|[]]]]; inversion H; reflexivity.
  - intros col [<-|[<-|[]]]; eexists; reflexivity.
  - exists metrics, segment_metrics. split; [exact Hm|]. split; [exact Hs|].
    apply Hcols. simpl. tauto.
Defined.

End SurveyFacts.

(** * Further properties of the code *)

(** ** Rounding and percentages *)

Module NumFacts.

Lemma scale_pos ndigits : (0 < 10 ^ Z.of_nat ndigits)%Z.
Proof. apply Z.pow_pos_nonneg; lia. Qed.

(** Rounding keeps a value between two integers that enclose it. *)
Lemma round_between x ndigits (lo hi : Z) :
  (inject_Z lo <= x)%Q -> (x <= inject_Z hi)%Q ->
  (inject_Z lo <= Num.round x ndigits)%Q /\ (Num.round x ndigits <= inject_Z hi)%Q.
Proof.
  intros Hlo Hhi. unfold Num.round.
  pose proof (scale_pos ndigits) as Hs.
  set (s := (10 ^ Z.of_nat ndigits)%Z) in *.
  assert (HsQ : (0 < inject_Z s)%Q) by (change 0%Q with (inject_Z 0); now rewrite <- Zlt_Qlt).
  set (y := (x * inject_Z s)%Q).
  assert (Hylo : (inject_Z (lo * s) <= y)%Q).
  { rewrite inject_Z_mult. unfold y. apply Qmult_le_compat_r; [assumption | now apply Qlt_le_weak]. }
  assert (Hyhi : (y <= inject_Z (hi * s))%Q).
  { rewrite inject_Z_mult. unfold y. apply Qmult_le_compat_r; [assumption | now apply Qlt_le_weak]. }
  set (f := Qfloor y).
  assert (Hf1 : (inject_Z f <= y)%Q) by apply Qfloor_le.
  assert (Hf2 : (y < inject_Z f + 1)%Q).
  { pose proof (Qlt_floor y) as H. fold f in H. rewrite inject_Z_plus in H. exact H. }
  assert (Hflo : (lo * s <= f)%Z).
  { rewrite <- (Qfloor_Z (lo * s)). now apply Qfloor_resp_le. }
  assert (Hfhi : (f <= hi * s)%Z).
  { rewrite <- (Qfloor_Z (hi * s)). now apply Qfloor_resp_le. }
  set (t := (2 * (y - inject_Z f))%Q).
  assert (Ht : (0 <= t)%Q /\ (t < 2)%Q) by (unfold t; split; lra).
  set (e := Qfloor t).
  assert (He1 : (inject_Z e <= t)%Q) by apply Qfloor_le.
  assert (He2 : (t < inject_Z e + 1)%Q).
  { pose proof (Qlt_floor t) as H. fold e in H. rewrite inject_Z_plus in H. exact H. }
  assert (Hz : (0 <= e < 2)%Z).
  { split.
    - assert (H : (0 < e + 1)%Z); [|lia].
      rewrite Zlt_Qlt, inject_Z_plus.
      change (inject_Z 1) with 1%Q. change (inject_Z 0) with 0%Q. lra.
    - rewrite Zlt_Qlt. change (inject_Z 2) with 2%Q. lra. }
  assert (Htop : f = (hi * s)%Z -> Qeq_bool t 1 = false /\ e = 0%Z).
  { intros E. assert (Hy : (y == inject_Z f)%Q).
    { apply Qle_antisym; [|assumption]. now rewrite E. }
    assert (Ht0 : (t == 0)%Q) by (unfold t; rewrite Hy; ring).
    split.
    - destruct (Qeq_bool t 1) eqn:B; [|reflexivity].
      apply Qeq_bool_iff in B. rewrite Ht0 in B. discriminate.
    - unfold e. rewrite (Qfloor_comp _ _ Ht0). reflexivity. }
  assert (Hn : forall n : Z,
            (lo * s <= n <= hi * s)%Z ->
            (inject_Z lo <= Qred (inject_Z n / inject_Z s))%Q /\
            (Qred (inject_Z n / inject_Z s) <= inject_Z hi)%Q).
  { intros n [Hn1 Hn2]. rewrite Qred_correct. split.
    - apply Qle_shift_div_l; [assumption|]. rewrite <- inject_Z_mult. now rewrite <- Zle_Qle.
    - apply Qle_shift_div_r; [assumption|]. rewrite <- inject_Z_mult. now rewrite <- Zle_Qle. }
  apply Hn.
  destruct (Z.eq_dec f (hi * s)) as [E|NE].
  - destruct (Htop E) as [B E0]. fold t. rewrite B. fold e. lia.
  - fold t. destruct (Qeq_bool t 1); [destruct (Z.even f)|]; fold e; lia.
Qed.


Lemma percent_bounds c n :
  c <= n -> 0 < n ->
  (inject_Z 0 <= Num.percent c n)%Q /\ (Num.percent c n <= inject_Z 100)%Q.
Proof.
  intros Hc Hn. unfold Num.percent.
  assert (HN : (0 < inject_Z (Z.of_nat n))%Q).
  { change 0%Q with (inject_Z 0). rewrite <- Zlt_Qlt. lia. }
  assert (H0 : (0 <= inject_Z (Z.of_nat c))%Q).
  { change 0%Q with (inject_Z 0). rewrite <- Zle_Qle. lia. }
  assert (H1 : (inject_Z (Z.of_nat c) <= inject_Z (Z.of_nat n))%Q).
  { rewrite <- Zle_Qle. lia. }
  assert (Hd0 : (0 <= inject_Z (Z.of_nat c) / inject_Z (Z.of_nat n))%Q).
  { apply Qle_shift_div_l; [assumption|]. lra. }
  assert (Hd1 : (inject_Z (Z.of_nat c) / inject_Z (Z.of_nat n) <= 1)%Q).
  { apply Qle_shift_div_r; [assumption|]. lra. }
  change (inject_Z 0) with 0%Q. change (inject_Z 100) with 100%Q. split; lra.
Qed.

End NumFacts.

(** ** Tokens *)

Module TextFacts.

Import Text.

Lemma lower_char_idempotent c : lower_char (lower_char c) = lower_char c.
Proof. destruct c as [[] [] [] [] [] [] [] []]; reflexivity. Qed.

Lemma lower_idempotent s : lower (lower s) = lower s.
Proof.
  induction s as [|c s IH]; simpl; [reflexivity|].
  now rewrite lower_char_idempotent, IH.
Qed.

Lemma is_word_char_lower c : is_word_char (lower_char c) = is_word_char c.
Proof. destruct c as [[] [] [] [] [] [] [] []]; reflexivity. Qed.

Lemma all_chars_app p s c :
  all_chars p (s ++ String c EmptyString)%string = all_chars p s && p c.
Proof.
  induction s as [|d s IH]; simpl.
  - now rewrite andb_true_r.
  - rewrite IH. now rewrite andb_assoc.
Qed.

Lemma lower_app s c :
  lower (s ++ String c EmptyString)%string = (lower s ++ String (lower_char c) EmptyString)%string.
Proof. induction s as [|d s IH]; simpl; [reflexivity | now rewrite IH]. Qed.

Lemma app_not_empty s c : (s ++ String c EmptyString)%string <> EmptyString.
Proof. destruct s; discriminate. Qed.

Lemma In_flush word w : In w (flush word) -> w = word /\ word <> EmptyString.
Proof.
  destruct word; simpl; [tauto|]. intros [<-|[]]. split; [reflexivity | discriminate].
Qed.

(** Every word that [findall_from] yields is the run being read, once it
    is complete, or a run of the text. *)
Lemma findall_from_words (p : string -> Prop) text :
  forall word,
    (forall w, p w -> forall c, is_word_char c = true ->
               lower_char c = c -> p (w ++ String c EmptyString)%string) ->
    p EmptyString ->
    p word ->
    (forall c, In c (list_ascii_of_string text) -> lower_char c = c) ->
    forall w, In w (findall_from word text) -> p w /\ w <> EmptyString.
Proof.
  induction text as [|c text IH]; intros word Hstep Hnil Hword Hlow w Hin; simpl in Hin.
  - apply In_flush in Hin as [-> Hne]. auto.
  - destruct (is_word_char c) eqn:Ec.
    + apply (IH (word ++ String c EmptyString)%string); auto.
      * apply Hstep; auto. apply Hlow. now left.
      * intros d Hd. apply Hlow. now right.
    + apply in_app_iff in Hin as [Hin|Hin].
      * apply In_flush in Hin as [-> Hne]. auto.
      * apply (IH EmptyString); auto. intros d Hd. apply Hlow. now right.
Qed.

Lemma lower_chars s c : In c (list_ascii_of_string (lower s)) -> lower_char c = c.
Proof.
  induction s as [|d s IH]; simpl; [tauto|].
  intros [<-|H]; [apply lower_char_idempotent | auto].
Qed.

(** X1: every token of an ASCII text is a non-empty run of word
    characters in lower case, and the tokens do not depend on the case of
    the text. *)
Theorem tokens_are_lower_case_words :
  forall (feedback w : string),
    is_ascii feedback = true ->
    tokenize (lower feedback) = tokenize feedback /\
    (In w (tokenize feedback) ->
     w <> EmptyString /\ all_chars is_word_char w = true /\ lower w = w).
Proof.
  intros feedback w _. split.
  - unfold tokenize. now rewrite lower_idempotent.
  - intros Hin. unfold tokenize, findall_words in Hin.
    destruct (findall_from_words
                (fun w => all_chars is_word_char w = true /\ lower w = w)
                (lower feedback) EmptyString) with (w := w) as [[H1 H2] H3]; auto.
    + intros v [Hv1 Hv2] c Hc Hl. split.
      * now rewrite all_chars_app, Hv1, Hc.
      * now rewrite lower_app, Hv2, Hl.
    + intros c. apply lower_chars.
Qed.

Lemma tokens_are_lower_case_words_witness :
  tokenize (lower "Too SLOW, too slow") = tokenize "Too SLOW, too slow" /\
  tokenize "Too SLOW, too slow" = ["too"; "slow"; "too"; "slow"]%string /\
  lower "slow" = "slow"%string.
Proof.
  destruct (tokens_are_lower_case_words "Too SLOW, too slow" "slow" eq_refl) as [H1 H2].
  split; [exact H1|]. split; [reflexivity|].
  apply H2. simpl. tauto.
Defined.

Lemma findall_from_app a :
  forall word c b,
    is_word_char c = false ->
    findall_from word (a ++ String c b)%string
    = findall_from word a ++ findall_from EmptyString b.
Proof.
  induction a as [|d a IH]; intros word c b Hc; simpl.
  - now rewrite Hc.
  - destruct (is_word_char d).
    + now apply IH.
    + rewrite (IH EmptyString c b Hc). now rewrite app_assoc.
Qed.

Lemma lower_append a b : lower (a ++ b)%string = (lower a ++ lower b)%string.
Proof. induction a as [|c a IH]; simpl; [reflexivity | now rewrite IH]. Qed.

Lemma findall_from_run w :
  forall word,
    all_chars is_word_char w = true ->
    findall_from word w = flush (word ++ w)%string.
Proof.
  induction w as [|c w IH]; intros word Hw; simpl in *.
  - assert (E : (word ++ EmptyString)%string = word).
    { clear. induction word as [|d word IH]; simpl; [reflexivity | now rewrite IH]. }
    now rewrite E.
  - apply andb_true_iff in Hw as [Hc Hw]. rewrite Hc, (IH _ Hw).
    f_equal. clear. induction word as [|d word IH]; simpl; [reflexivity | now rewrite IH].
Qed.

Lemma all_chars_lower w :
  all_chars is_word_char (lower w) = all_chars is_word_char w.
Proof.
  induction w as [|c w IH]; simpl; [reflexivity|]. now rewrite is_word_char_lower, IH.
Qed.

Lemma tokenize_separator (a b : string) (c : ascii) :
  is_word_char c = false ->
  tokenize (a ++ String c b) = tokenize a ++ tokenize b.
Proof.
  intros Hc. unfold tokenize, findall_words.
  rewrite lower_append. simpl. apply findall_from_app.
  now rewrite is_word_char_lower.
Qed.

Lemma tokenize_word (w : string) :
  w <> EmptyString -> all_chars is_word_char w = true ->
  tokenize w = [lower w].
Proof.
  intros Hne Hw. unfold tokenize, findall_words.
  rewrite findall_from_run by now rewrite all_chars_lower.
  simpl. destruct w; [congruence | reflexivity].
Qed.

(** X2: the tokens of an ASCII text are the maximal runs of word
    characters. Words never
    join across a character that is not a word character: the tokens of a
    text cut at such a character are those of the part before it followed
    by those of the part after it; a text that is one run of word
    characters is one token, itself in lower case; so a run standing
    between two such characters is one token of the text, whole, and a
    keyword is matched by whole words only. *)
Theorem tokens_are_the_runs_of_word_characters :
  forall (a b w : string) (c d : ascii),
    is_ascii (a ++ String c (w ++ String d b)) = true ->
    is_word_char c = false ->
    is_word_char d = false ->
    w <> EmptyString ->
    all_chars is_word_char w = true ->
    tokenize (a ++ String c b) = tokenize a ++ tokenize b /\
    tokenize w = [lower w] /\
    tokenize (a ++ String c (w ++ String d b)) = tokenize a ++ lower w :: tokenize b.
Proof.
  intros a b w c d _ Hc Hd Hne Hw.
  split; [now apply tokenize_separator|]. split; [now apply tokenize_word|].
  rewrite (tokenize_separator a _ c Hc), (tokenize_separator w b d Hd).
  now rewrite (tokenize_word w Hne Hw).
Qed.

Lemma tokens_are_the_runs_of_word_characters_witness :
  tokenize "Too slow" = ["too"; "slow"]%string /\
  tokenize "slowly" = ["slowly"%string] /\
  tokenize "Too slowly,slow" = ["too"; "slowly"; "slow"]%string.
Proof.
  destruct (tokens_are_the_runs_of_word_characters
              "Too" "slow" "slowly" " " "," eq_refl eq_refl eq_refl) as (H1 & H2 & H3);
    [discriminate | reflexivity |].
  split; [exact H1|]. split; [exact H2 | exact H3].
Defined.

End TextFacts.

(** ** Sentiment analysis: labels, distribution and mean *)

Module SentimentFacts.

Import Dict Text Feedback DictFacts SortFacts FeedbackFacts NumFacts.

Lemma annotation_analyzed polarity self df i fb :
  feedback_data self = Some df ->
  nth_error (feedback df) i = Some fb ->
  annotation_at (snd (analyze_sentiment polarity self)) i = Some (classify polarity fb).
Proof.
  intros Hdf Hi. unfold annotation_at.
  rewrite (feedback_data_analyzed polarity self df Hdf). cbn [sentiment sentiment_score].
  rewrite !map_map.
  rewrite (map_nth_error (fun x => fst (classify polarity x)) i (feedback df) Hi).
  rewrite (map_nth_error (fun x => snd (classify polarity x)) i (feedback df) Hi).
  now destruct (classify polarity fb).
Qed.

(** X3: a response with a text gets the scorer's value as score, and is
    positive exactly when the value is above 0.1, negative exactly when it
    is below -0.1, neutral exactly when it is between the two, 0.1 and -0.1
    included. *)
Theorem sentiment_thresholds :
  forall (polarity : string -> Q) (self : FeedbackAnalyzer) (df : DataFrame)
         (i : nat) (text : string),
    feedback_data self = Some df ->
    nth_error (feedback df) i = Some (Some text) ->
    exists s,
      annotation_at (snd (analyze_sentiment polarity self)) i = Some (s, polarity text) /\
      (s = positive <-> (1 # 10 < polarity text)%Q) /\
      (s = negative <-> (polarity text < - (1 # 10))%Q) /\
      (s = neutral <-> (- (1 # 10) <= polarity text)%Q /\ (polarity text <= 1 # 10)%Q).
Proof.
  intros polarity self df i text Hdf Hi.
  rewrite (annotation_analyzed polarity self df i (Some text) Hdf Hi).
  unfold classify.
  destruct (Qgtb (polarity text) (1 # 10)) eqn:Hp;
    [|destruct (Qgtb (- (1 # 10)) (polarity text)) eqn:Hn].
  - apply Qgtb_lt in Hp. exists positive. split; [reflexivity|].
    repeat split; try discriminate; try tauto; intros; exfalso; lra.
  - apply Qgtb_le in Hp. apply Qgtb_lt in Hn. exists negative. split; [reflexivity|].
    repeat split; try discriminate; try tauto; intros; exfalso; lra.
  - apply Qgtb_le in Hp. apply Qgtb_le in Hn. exists neutral. split; [reflexivity|].
    repeat split; try discriminate; try tauto; intros; exfalso; lra.
Qed.

Lemma sentiment_thresholds_witness :
  exists s,
    annotation_at (analyzed (fun _ => (1 # 10)%Q) [Some "fine"%string]) 0
    = Some (s, (1 # 10)%Q) /\ s = neutral.
Proof.
  destruct (sentiment_thresholds
              (fun _ => (1 # 10)%Q) (snd (load_feedback init [Some "fine"%string]))
              {| feedback := [Some "fine"%string]; sentiment := None; sentiment_score := None |}
              0 "fine"%string eq_refl eq_refl) as (s & Hs & _ & _ & Hneutral).
  exists s. split; [exact Hs|]. apply Hneutral. split; discriminate.
Defined.

(** *** The distribution *)

Section Sums.
Context {K : Type} (eqb : K -> K -> bool).

Lemma sum_insert_desc (x : K * nat) l :
  list_sum (map snd (insert_desc x l)) = snd x + list_sum (map snd l).
Proof.
  induction l as [|y l IH]; simpl; [reflexivity|].
  destruct (snd y <? snd x); simpl; [reflexivity | rewrite IH; lia].
Qed.

Lemma sum_sorted_desc (d : dict K nat) :
  list_sum (map snd (sorted_desc d)) = list_sum (map snd d).
Proof.
  unfold sorted_desc.
  assert (H : forall acc : dict K nat,
            list_sum (map snd (fold_left (fun acc x => insert_desc x acc) d acc))
            = list_sum (map snd d) + list_sum (map snd acc)).
  { induction d as [|x d IH]; intros acc; simpl; [reflexivity|].
    rewrite IH, sum_insert_desc. lia. }
  rewrite H. simpl. lia.
Qed.

Lemma sum_set (d : dict K nat) x v :
  list_sum (map snd (set eqb d x v)) + get eqb d x 0 = list_sum (map snd d) + v.
Proof.
  induction d as [|[k n] d IH]; simpl; [lia|].
  destruct (eqb x k); simpl; lia.
Qed.

Lemma sum_Counter (l : list K) : list_sum (map snd (Counter eqb l)) = length l.
Proof.
  induction l as [|x l IH] using rev_ind; [reflexivity|].
  rewrite Counter_snoc, length_app. simpl.
  pose proof (sum_set (Counter eqb l) x (get eqb (Counter eqb l) x 0 + 1)). lia.
Qed.

End Sums.

Lemma occurrences_le_length {K} (eqb : K -> K -> bool) k l :
  occurrences eqb k l <= length l.
Proof. unfold occurrences. apply filter_length_le. Qed.

(** X4: in the result of [analyze_sentiment], the counts of the
    distribution add up to the number of responses; a category is listed
    exactly when some response has it, with the number of these responses,
    the larger counts first; and each percentage is between 0 and 100. *)
Theorem sentiment_distribution_partitions_responses :
  forall (polarity : string -> Q) (self : FeedbackAnalyzer) (df : DataFrame),
    feedback_data self = Some df ->
    feedback df <> [] ->
    let sentiments := map (fun fb => fst (classify polarity fb)) (feedback df) in
    exists result,
      fst (analyze_sentiment polarity self) = Returned (Some result) /\
      list_sum (map snd (distribution result)) = length (feedback df) /\
      (forall s c, In (s, c) (distribution result) <->
                   In s sentiments /\ c = occurrences Sentiment_eqb s sentiments) /\
      (forall i j a b, i < j ->
         nth_error (distribution result) i = Some a ->
         nth_error (distribution result) j = Some b -> snd b <= snd a) /\
      (forall s p, In (s, p) (percentages result) -> (0 <= p)%Q /\ (p <= 100)%Q).
Proof.
  intros polarity self df Hdf Hne sentiments.
  unfold analyze_sentiment. rewrite Hdf. rewrite !map_map. fold sentiments.
  rewrite (length_map (fun x => snd (classify polarity x))).
  assert (Hlen : length sentiments = length (feedback df)) by apply length_map.
  destruct (length (feedback df)) as [|n] eqn:En.
  { destruct (feedback df); [congruence | discriminate]. }
  eexists. split; [reflexivity|]. cbn [distribution percentages]. unfold value_counts.
  split; [|split; [|split]].
  - rewrite sum_sorted_desc, sum_Counter. exact Hlen.
  - intros s c. rewrite sorted_desc_In. apply (In_Counter Sentiment_eqb Sentiment_eqb_eq).
  - intros i j a b Hij Hi Hj.
    pose proof (sorted_desc_ranked
                  (fun s => index_of Sentiment_eqb s sentiments)
                  (Counter Sentiment_eqb sentiments)
                  (Counter_order Sentiment_eqb Sentiment_eqb_eq sentiments)) as Hs.
    pose proof (StronglySorted_nth_error _ _ i j a b Hs Hij Hi Hj) as Hab.
    unfold before in Hab. lia.
  - intros s p Hin. apply in_map_iff in Hin as ([s' c] & E & Hin). inversion E; subst.
    apply sorted_desc_In, (In_Counter Sentiment_eqb Sentiment_eqb_eq) in Hin as [_ ->].
    cbn [snd]. rewrite Hlen.
    apply (round_between _ 1 0 100); apply percent_bounds; try lia;
      rewrite <- Hlen; apply occurrences_le_length.
Qed.

Lemma sentiment_distribution_partitions_responses_witness :
  exists result,
    fst (analyze_sentiment prefix_polarity (snd (load_feedback init split_corpus)))
    = Returned (Some result) /\
    list_sum (map snd (distribution result)) = 20.
Proof.
  destruct (sentiment_distribution_partitions_responses
              prefix_polarity (snd (load_feedback init split_corpus))
              {| feedback := split_corpus; sentiment := None; sentiment_score := None |}
              eq_refl) as (result & Hres & Hsum & _).
  - discriminate.
  - exists result. split; [exact Hres | exact Hsum].
Defined.

(** *** The mean score *)

Lemma Qsum_bounds scores :
  (forall q, In q scores -> (-1 <= q)%Q /\ (q <= 1)%Q) ->
  (- inject_Z (Z.of_nat (length scores)) <= Qsum scores)%Q /\
  (Qsum scores <= inject_Z (Z.of_nat (length scores)))%Q.
Proof.
  induction scores as [|q scores IH]; intros Hall.
  - change (Qsum []) with 0%Q. simpl. split; discriminate.
  - destruct IH as [IH1 IH2]; [intros x Hx; apply Hall; now right|].
    destruct (Hall q (or_introl eq_refl)) as [H1 H2].
    rewrite Qsum_cons. cbn [length]. rewrite Nat2Z.inj_succ, <- Z.add_1_r, inject_Z_plus.
    change (inject_Z 1) with 1%Q. split; lra.
Qed.

(** X5: where the scorer stays between -1 and 1, so does the reported
    mean score. *)
Theorem average_sentiment_is_bounded :
  forall (polarity : string -> Q) (self : FeedbackAnalyzer) (df : DataFrame),
    (forall text, (-1 <= polarity text)%Q /\ (polarity text <= 1)%Q) ->
    feedback_data self = Some df ->
    feedback df <> [] ->
    exists result,
      fst (analyze_sentiment polarity self) = Returned (Some result) /\
      (-1 <= average_sentiment result)%Q /\ (average_sentiment result <= 1)%Q.
Proof.
  intros polarity self df Hpol Hdf Hne.
  unfold analyze_sentiment. rewrite Hdf. rewrite !map_map.
  set (scores := map (fun x => snd (classify polarity x)) (feedback df)).
  assert (Hscores : forall q, In q scores -> (-1 <= q)%Q /\ (q <= 1)%Q).
  { intros q Hq. apply in_map_iff in Hq as (fb & <- & _). destruct fb as [text|]; simpl.
    - destruct (Qgtb (polarity text) (1 # 10)); [|destruct (Qgtb _ (polarity text))];
        apply Hpol.
    - split; discriminate. }
  destruct (Qsum_bounds scores Hscores) as [Hlo Hhi].
  destruct (length scores) as [|n] eqn:En.
  { unfold scores in En. rewrite length_map in En.
    destruct (feedback df); [congruence | discriminate]. }
  eexists. split; [reflexivity|]. cbn [average_sentiment].
  set (N := inject_Z (Z.of_nat (S n))) in *.
  assert (HN : (0 < N)%Q).
  { unfold N. change 0%Q with (inject_Z 0). rewrite <- Zlt_Qlt. lia. }
  apply (round_between _ 3 (-1) 1).
  - change (inject_Z (-1)) with (-1)%Q. apply Qle_shift_div_l; [assumption|]. lra.
  - change (inject_Z 1) with 1%Q. apply Qle_shift_div_r; [assumption|]. lra.
Qed.

Lemma average_sentiment_is_bounded_witness :
  exists result,
    fst (analyze_sentiment prefix_polarity (snd (load_feedback init split_corpus)))
    = Returned (Some result) /\
    (-1 <= average_sentiment result)%Q /\ (average_sentiment result <= 1)%Q.
Proof.
  apply (average_sentiment_is_bounded
           prefix_polarity (snd (load_feedback init split_corpus))
           {| feedback := split_corpus; sentiment := None; sentiment_score := None |}).
  - intros text. unfold prefix_polarity.
    destruct (String.prefix "good" text); [|destruct (String.prefix "bad" text)];
      split; discriminate.
  - reflexivity.
  - discriminate.
Defined.

End SentimentFacts.

(** ** The sum of the category percentages *)

Module PercentageFacts.

Import Dict Feedback DictFacts SortFacts FeedbackFacts NumFacts SentimentFacts.

(** A share of at most 100 rounded to one decimal by binary floats: the
    tenths [t] behind it *)
Lemma rounded_share (r : Q) (c N : nat) :
  0 < N -> c <= N ->
  Num.rounds_to r (Num.percent c N) 1 ->
  exists t : Z,
    (- (101 # 1000000000) <= r - inject_Z t * (1 # 10))%Q /\
    (r - inject_Z t * (1 # 10) <= 101 # 1000000000)%Q /\
    (- (1 # 20) - (101 # 1000000000) <= inject_Z t * (1 # 10) - Num.percent c N)%Q /\
    (inject_Z t * (1 # 10) - Num.percent c N <= (1 # 20) + (101 # 1000000000))%Q.
Proof.
  intros HN Hc (t & H1 & H2). exists t.
  destruct (percent_bounds c N Hc HN) as [H0 H100].
  change (inject_Z 0) with 0%Q in H0. change (inject_Z 100) with 100%Q in H100.
  change (inject_Z (10 ^ Z.of_nat 1)) with 10%Q in H1, H2.
  change (1 / (2 * 10))%Q with (1 # 20)%Q in H2.
  rewrite (Qabs_pos _ H0) in H1, H2.
  unfold Qdiv in H1, H2. change (/ 10)%Q with (1 # 10)%Q in H1, H2.
  apply Qabs_Qle_condition in H1 as [H1a H1b].
  apply Qabs_Qle_condition in H2 as [H2a H2b].
  unfold Num.slack in *.
  repeat split; lra.
Qed.

(** Three values near tenths that lie within half a tenth of three shares
    of 100 *)
Lemma three_shares_near_100 (r1 r2 r3 x1 x2 x3 : Q) (t1 t2 t3 : Z) :
  (x1 + x2 + x3 == 100)%Q ->
  (- (101 # 1000000000) <= r1 - inject_Z t1 * (1 # 10))%Q ->
  (r1 - inject_Z t1 * (1 # 10) <= 101 # 1000000000)%Q ->
  (- (1 # 20) - (101 # 1000000000) <= inject_Z t1 * (1 # 10) - x1)%Q ->
  (inject_Z t1 * (1 # 10) - x1 <= (1 # 20) + (101 # 1000000000))%Q ->
  (- (101 # 1000000000) <= r2 - inject_Z t2 * (1 # 10))%Q ->
  (r2 - inject_Z t2 * (1 # 10) <= 101 # 1000000000)%Q ->
  (- (1 # 20) - (101 # 1000000000) <= inject_Z t2 * (1 # 10) - x2)%Q ->
  (inject_Z t2 * (1 # 10) - x2 <= (1 # 20) + (101 # 1000000000))%Q ->
  (- (101 # 1000000000) <= r3 - inject_Z t3 * (1 # 10))%Q ->
  (r3 - inject_Z t3 * (1 # 10) <= 101 # 1000000000)%Q ->
  (- (1 # 20) - (101 # 1000000000) <= inject_Z t3 * (1 # 10) - x3)%Q ->
  (inject_Z t3 * (1 # 10) - x3 <= (1 # 20) + (101 # 1000000000))%Q ->
  (Qabs (r1 + r2 + r3 - 100) <= (1 # 10) + (1 # 1000000))%Q.
Proof.
  intros Hsum A1 B1 C1 D1 A2 B2 C2 D2 A3 B3 C3 D3.
  assert (Hz : (999 <= t1 + t2 + t3 <= 1001)%Z).
  { assert (Hq : (inject_Z 998 < inject_Z (t1 + t2 + t3))%Q /\
                 (inject_Z (t1 + t2 + t3) < inject_Z 1002)%Q).
    { rewrite !inject_Z_plus. change (inject_Z 998) with 998%Q.
      change (inject_Z 1002) with 1002%Q. split; lra. }
    destruct Hq as [Hq1 Hq2]. rewrite <- Zlt_Qlt in Hq1, Hq2. lia. }
  destruct Hz as [Hz1 Hz2]. rewrite Zle_Qle in Hz1, Hz2.
  rewrite !inject_Z_plus in Hz1, Hz2.
  change (inject_Z 999) with 999%Q in Hz1. change (inject_Z 1001) with 1001%Q in Hz2.
  apply Qabs_Qle_condition. split; lra.
Qed.

Lemma percent_of_none (N : nat) : (Num.percent 0 N == 0)%Q.
Proof. unfold Num.percent. change (inject_Z (Z.of_nat 0)) with 0%Q. unfold Qdiv. ring. Qed.

(** At most three shares of [N] responses, each rounded to one decimal by
    binary floats, sum to 100 within a tenth and the error of the
    floats. *)
Lemma rounded_shares_near_100 (N : nat) (d : list (Sentiment * nat)) (reported : list Q) :
  0 < N -> length d <= 3 -> list_sum (map snd d) = N ->
  Forall2 (fun r kv => Num.rounds_to r (Num.percent (snd kv) N) 1) reported d ->
  (Qabs (Qsum reported - 100) <= (1 # 10) + (1 # 1000000))%Q.
Proof.
  intros HN Hlen Hsum Hall.
  destruct d as [|[s1 c1] [|[s2 c2] [|[s3 c3] [|kv d]]]]; simpl in Hlen, Hsum; try lia;
    revert Hsum.
  - inversion Hall as [|r1 ? l1 ? R1 Hall1]; subst. inversion Hall1; subst.
    intros Hsum. cbn [snd] in R1.
    destruct (rounded_share r1 c1 N HN ltac:(lia) R1) as (t1 & A1 & B1 & C1 & D1).
    pose proof (percent_total c1 0 0 N HN ltac:(lia)) as Hp.
    rewrite (percent_of_none N) in Hp.
    change (Qsum [r1]) with (0 + r1)%Q.
    assert (H : (Qabs (r1 + 0 + 0 - 100) <= (1 # 10) + (1 # 1000000))%Q).
    { apply (three_shares_near_100 r1 0 0 (Num.percent c1 N) 0 0 t1 0 0);
        try assumption; try (simpl; lra); try discriminate. }
    apply Qabs_Qle_condition in H. apply Qabs_Qle_condition. lra.
  - inversion Hall as [|r1 ? l1 ? R1 Hall1]; subst.
    inversion Hall1 as [|r2 ? l2 ? R2 Hall2]; subst. inversion Hall2; subst.
    intros Hsum. cbn [snd] in R1, R2.
    destruct (rounded_share r1 c1 N HN ltac:(lia) R1) as (t1 & A1 & B1 & C1 & D1).
    destruct (rounded_share r2 c2 N HN ltac:(lia) R2) as (t2 & A2 & B2 & C2 & D2).
    pose proof (percent_total c1 c2 0 N HN ltac:(lia)) as Hp.
    rewrite (percent_of_none N) in Hp.
    change (Qsum [r1; r2]) with (0 + r1 + r2)%Q.
    assert (H : (Qabs (r1 + r2 + 0 - 100) <= (1 # 10) + (1 # 1000000))%Q).
    { apply (three_shares_near_100 r1 r2 0 (Num.percent c1 N) (Num.percent c2 N) 0 t1 t2 0);
        try assumption; try (simpl; lra); try discriminate. }
    apply Qabs_Qle_condition in H. apply Qabs_Qle_condition. lra.
  - inversion Hall as [|r1 ? l1 ? R1 Hall1]; subst.
    inversion Hall1 as [|r2 ? l2 ? R2 Hall2]; subst.
    inversion Hall2 as [|r3 ? l3 ? R3 Hall3]; subst. inversion Hall3; subst.
    intros Hsum. cbn [snd] in R1, R2, R3.
    destruct (rounded_share r1 c1 N HN ltac:(lia) R1) as (t1 & A1 & B1 & C1 & D1).
    destruct (rounded_share r2 c2 N HN ltac:(lia) R2) as (t2 & A2 & B2 & C2 & D2).
    destruct (rounded_share r3 c3 N HN ltac:(lia) R3) as (t3 & A3 & B3 & C3 & D3).
    pose proof (percent_total c1 c2 c3 N HN ltac:(lia)) as Hp.
    change (Qsum [r1; r2; r3]) with (0 + r1 + r2 + r3)%Q.
    assert (H : (Qabs (r1 + r2 + r3 - 100) <= (1 # 10) + (1 # 1000000))%Q).
    { apply (three_shares_near_100 r1 r2 r3 (Num.percent c1 N) (Num.percent c2 N)
               (Num.percent c3 N) t1 t2 t3); assumption. }
    apply Qabs_Qle_condition in H. apply Qabs_Qle_condition. lra.
Qed.

Lemma at_most_three_sentiments (l : list Sentiment) : NoDup l -> length l <= 3.
Proof.
  intros Hnd.
  apply (NoDup_incl_length (l' := [positive; neutral; negative]) Hnd).
  intros s _. destruct s; simpl; tauto.
Qed.

(** C7, counterexample: one positive, one negative and one neutral
    response. Each percentage is the float nearest to 33.3, which is below
    33.3, and the three sum to less than 99.9: further than 0.1 from
    100. *)
Lemma three_rounded_thirds_miss_a_tenth :
  exists result,
    fst (analyze_sentiment prefix_polarity
           (snd (load_feedback init [Some "good"%string; Some "bad"%string; None])))
    = Returned (Some result) /\
    map snd (distribution result) = [1; 1; 1] /\
    binary64_percentage 1 3 = Binary64.div (Binary64.of_Z 333) (Binary64.of_Z 10) /\
    (Binary64.to_Q (binary64_percentage 1 3) < 333 # 10)%Q /\
    (1 # 10 < Qabs (binary64_percentage_total result 3 - 100))%Q.
Proof.
  eexists. split; [reflexivity|]. split; [reflexivity|].
  split; [vm_compute; reflexivity|]. split; vm_compute; reflexivity.
Qed.

(** C7, amended: for every non-empty response set, each reported
    percentage is the share of its category (count divided by the number
    of responses, times 100) rounded to one decimal, and whatever values
    round these shares to one decimal as binary floats do, at a tie either
    way and up to the error of their representation, sum to 100 within 0.1
    and that error; so do the reported percentages. The bound 0.1 itself
    is not kept by the floats. *)
Theorem sentiment_percentages_sum_near_100 :
  forall (polarity : string -> Q) (self : FeedbackAnalyzer) (df : DataFrame),
    feedback_data self = Some df ->
    feedback df <> [] ->
    exists result,
      fst (analyze_sentiment polarity self) = Returned (Some result) /\
      Forall2 (fun p kv =>
                 fst p = fst kv /\
                 Num.rounds_to (snd p) (Num.percent (snd kv) (length (feedback df))) 1)
              (percentages result) (distribution result) /\
      (forall reported : list Q,
         Forall2 (fun r kv =>
                    Num.rounds_to r (Num.percent (snd kv) (length (feedback df))) 1)
                 reported (distribution result) ->
         (Qabs (Qsum reported - 100) <= (1 # 10) + (1 # 1000000))%Q) /\
      (Qabs (percentage_total result - 100) <= (1 # 10) + (1 # 1000000))%Q.
Proof.
  intros polarity self df Hdf Hne. unfold analyze_sentiment. rewrite Hdf.
  set (sentiments := map fst (map (classify polarity) (feedback df))).
  assert (HN : length sentiments = length (feedback df))
    by (unfold sentiments; now rewrite !length_map).
  assert (Hlen : 0 < length (feedback df))
    by (destruct (feedback df); [congruence | simpl; lia]).
  rewrite (length_map snd), <- (length_map fst). fold sentiments.
  destruct (length sentiments) as [|n] eqn:En; [lia|].
  eexists. split; [reflexivity|]. cbn [percentages distribution].
  rewrite <- HN.
  set (d := value_counts sentiments).
  assert (Hown : Forall2 (fun p kv =>
                            fst p = fst kv /\
                            Num.rounds_to (snd p) (Num.percent (snd kv) (S n)) 1)
                         (map (fun kv => (fst kv, Num.round (Num.percent (snd kv) (S n)) 1)) d)
                         d).
  { induction d as [|kv d IH]; constructor; [|exact IH].
    split; [reflexivity | apply round_rounds_to]. }
  assert (Hany : forall reported : list Q,
            Forall2 (fun r kv => Num.rounds_to r (Num.percent (snd kv) (S n)) 1) reported d ->
            (Qabs (Qsum reported - 100) <= (1 # 10) + (1 # 1000000))%Q).
  { intros reported Hrep. apply (rounded_shares_near_100 (S n) d reported); [lia | | | exact Hrep].
    - unfold d, value_counts. rewrite sorted_desc_length.
      rewrite <- (length_map fst). apply at_most_three_sentiments.
      apply (NoDup_keys_Counter Sentiment_eqb Sentiment_eqb_eq).
    - unfold d, value_counts. rewrite sum_sorted_desc, sum_Counter. exact En. }
  split; [exact Hown|]. split; [exact Hany|].
  unfold percentage_total. cbn [percentages]. apply Hany.
  clear -Hown. induction Hown as [|p kv l d [_ H] Hrest IH]; constructor; assumption.
Qed.

Lemma sentiment_percentages_sum_near_100_witness :
  exists result,
    fst (analyze_sentiment prefix_polarity (snd (load_feedback init split_corpus)))
    = Returned (Some result) /\
    percentages result = [(positive, 65%Q); (negative, 35%Q)] /\
    (Qabs (percentage_total result - 100) <= (1 # 10) + (1 # 1000000))%Q.
Proof.
  destruct (sentiment_percentages_sum_near_100
              prefix_polarity (snd (load_feedback init split_corpus))
              {| feedback := split_corpus; sentiment := None; sentiment_score := None |}
              eq_refl) as (result & Hres & _ & _ & Hsum).
  - discriminate.
  - exists result. split; [exact Hres|]. split; [|exact Hsum].
    vm_compute in Hres. inversion Hres. reflexivity.
Defined.

End PercentageFacts.

(** ** The order of the calls on the feedback analyzer *)

Module PipelineFacts.

Import Dict Text Feedback DictFacts SortFacts FeedbackFacts NumFacts.

Lemma analyzed_data polarity l :
  feedback_data (analyzed polarity l) =
  Some {| feedback := l;
          sentiment := Some (map fst (map (classify polarity) l));
          sentiment_score := Some (map snd (map (classify polarity) l)) |}.
Proof.
  unfold analyzed.
  exact (feedback_data_analyzed polarity (snd (load_feedback init l))
           {| feedback := l; sentiment := None; sentiment_score := None |} eq_refl).
Qed.

Lemma analyzed_results polarity l :
  l <> [] ->
  exists sa,
    fst (analyze_sentiment polarity (snd (load_feedback init l))) = Returned (Some sa) /\
    analysis_results (analyzed polarity l) =
    {| sentiment_analysis := Some sa; theme_analysis := None; priority_issues := None |}.
Proof.
  intros Hne. unfold analyzed, analyze_sentiment. cbn [load_feedback snd feedback_data feedback].
  rewrite !length_map. destruct l as [|fb l]; [congruence|]. cbn [length].
  eexists. split; reflexivity.
Qed.

Lemma negative_rows_classified polarity l :
  negative_rows l (map fst (map (classify polarity) l))
  = filter (fun fb => Sentiment_eqb (fst (classify polarity fb)) negative) l.
Proof.
  unfold negative_rows. induction l as [|fb l IH]; simpl; [reflexivity|].
  destruct (Sentiment_eqb (fst (classify polarity fb)) negative); simpl; now rewrite IH.
Qed.

(** X6: once [analyze_sentiment] has returned its result,
    [identify_priority_issues] neither raises nor returns [None]: it returns
    the message dictionary when no response is negative, and a list when
    one is. *)
Theorem priority_issues_after_analysis :
  forall (polarity : string -> Q) (feedback_list : list (option string)),
    feedback_list <> [] ->
    (exists message,
       fst (identify_priority_issues (analyzed polarity feedback_list))
       = Returned (Some (NoNegativeFeedback message)) /\
       forall fb, In fb feedback_list -> fst (classify polarity fb) <> negative) \/
    (exists issues,
       fst (identify_priority_issues (analyzed polarity feedback_list))
       = Returned (Some (PriorityList issues)) /\
       exists fb, In fb feedback_list /\ fst (classify polarity fb) = negative).
Proof.
  intros polarity l Hne.
  destruct (analyzed_results polarity l Hne) as (sa & _ & Hres).
  pose proof (analyzed_data polarity l) as Hdata.
  destruct (filter (fun fb => Sentiment_eqb (fst (classify polarity fb)) negative) l)
    as [|fb0 rest] eqn:Hf.
  - left. eexists. split.
    + unfold identify_priority_issues. rewrite Hres, Hdata. cbn [sentiment_analysis sentiment feedback].
      rewrite negative_rows_classified, Hf. reflexivity.
    + intros fb Hin Hneg.
      assert (H : In fb (filter (fun fb => Sentiment_eqb (fst (classify polarity fb)) negative) l)).
      { apply filter_In. split; [assumption|]. now apply Sentiment_eqb_eq. }
      rewrite Hf in H. exact H.
  - right. eexists. split.
    + eapply (priority_list_returned _ _ sa (map fst (map (classify polarity) l))).
      * now rewrite Hres.
      * exact Hdata.
      * reflexivity.
      * cbn [feedback]. rewrite negative_rows_classified, Hf. discriminate.
    + exists fb0.
      assert (H : In fb0 (filter (fun fb => Sentiment_eqb (fst (classify polarity fb)) negative) l))
        by (rewrite Hf; now left).
      apply filter_In in H as [H1 H2]. split; [assumption | now apply Sentiment_eqb_eq].
Qed.

Lemma priority_issues_after_analysis_witness :
  exists issues,
    fst (identify_priority_issues (analyzed prefix_polarity slow_corpus))
    = Returned (Some (PriorityList issues)).
Proof.
  destruct (priority_issues_after_analysis prefix_polarity slow_corpus)
    as [(message & H & _)|(issues & H & _)].
  - discriminate.
  - exfalso. vm_compute in H. discriminate.
  - exists issues. exact H.
Defined.



(** X8: [load_feedback] replaces the table and keeps the analysis results.
    After an analysis, loading a list makes [identify_priority_issues]
    raise [KeyError] for the column ['sentiment'] and leave the analyzer as
    it is, while [generate_insights_report] still returns a report, with the
    length of the new list and the percentages of the old analysis; a new
    [analyze_sentiment] on a non-empty list makes
    [identify_priority_issues] return again. *)
Theorem reloading_leaves_stale_results :
  forall (polarity : string -> Q) (self : FeedbackAnalyzer) (sa : SentimentAnalysis)
         (feedback_list : list (option string)) (now : string),
    sentiment_analysis (analysis_results self) = Some sa ->
    let reloaded := snd (load_feedback self feedback_list) in
    identify_priority_issues reloaded = (Raised (KeyError "sentiment"), reloaded) /\
    (exists r,
       generate_insights_report now reloaded = Returned (Some r) /\
       total_feedback r = length feedback_list /\
       summary r = Some (percentages sa)) /\
    (feedback_list <> [] ->
     exists result,
       fst (identify_priority_issues (snd (analyze_sentiment polarity reloaded)))
       = Returned (Some result)).
Proof.
  intros polarity self sa l now Hsa reloaded. split; [|split].
  - unfold identify_priority_issues, reloaded. cbn [load_feedback snd analysis_results feedback_data sentiment].
    now rewrite Hsa.
  - unfold generate_insights_report, reloaded. cbn [load_feedback snd analysis_results feedback_data].
    rewrite is_empty_false by (left; congruence). rewrite Hsa.
    eexists. split; [reflexivity|]. split; reflexivity.
  - intros Hne.
    assert (Hdf : feedback_data reloaded
                  = Some {| feedback := l; sentiment := None; sentiment_score := None |})
      by reflexivity.
    pose proof (feedback_data_analyzed polarity reloaded _ Hdf) as Hdata.
    cbn [feedback] in Hdata.
    assert (Hres : exists sa', sentiment_analysis
                                 (analysis_results (snd (analyze_sentiment polarity reloaded)))
                               = Some sa').
    { unfold analyze_sentiment. rewrite Hdf. cbn [feedback]. rewrite !length_map.
      destruct l as [|fb l]; [congruence|]. cbn [length snd analysis_results sentiment_analysis].
      eauto. }
    destruct Hres as (sa' & Hsa').
    destruct (filter (fun fb => Sentiment_eqb (fst (classify polarity fb)) negative) l)
      as [|fb0 rest] eqn:Hf.
    + eexists. unfold identify_priority_issues. rewrite Hsa', Hdata. cbn [sentiment feedback].
      rewrite negative_rows_classified, Hf. reflexivity.
    + eexists.
      eapply (priority_list_returned _ _ sa' (map fst (map (classify polarity) l)));
        [exact Hsa' | exact Hdata | reflexivity |].
      cbn [feedback]. rewrite negative_rows_classified, Hf. discriminate.
Qed.

Lemma reloading_leaves_stale_results_witness :
  identify_priority_issues
    (snd (load_feedback (analyzed prefix_polarity split_corpus) [Some "bad"%string]))
  = (Raised (KeyError "sentiment"),
     snd (load_feedback (analyzed prefix_polarity split_corpus) [Some "bad"%string])).
Proof.
  exact (proj1 (reloading_leaves_stale_results
                  prefix_polarity (analyzed prefix_polarity split_corpus)
                  {| distribution := [(positive, 13); (negative, 7)];
                     percentages := [(positive, 65%Q); (negative, 35%Q)];
                     average_sentiment := (3 # 20)%Q |}
                  [Some "bad"%string] "2024-01-01 00:00:00" eq_refl)).
Defined.

End PipelineFacts.

(** ** The percentage of a priority issue *)

Module MentionFacts.

Import Dict Feedback FeedbackFacts NumFacts.

Lemma percent_at_least (c n : nat) :
  0 < n -> n <= c -> (inject_Z 100 <= Num.percent c n)%Q.
Proof.
  intros Hn Hc. unfold Num.percent.
  assert (HN : (0 < inject_Z (Z.of_nat n))%Q).
  { change 0%Q with (inject_Z 0). rewrite <- Zlt_Qlt. lia. }
  assert (H1 : (inject_Z (Z.of_nat n) <= inject_Z (Z.of_nat c))%Q).
  { rewrite <- Zle_Qle. lia. }
  assert (Hd : (1 <= inject_Z (Z.of_nat c) / inject_Z (Z.of_nat n))%Q).
  { apply Qle_shift_div_l; [assumption|]. lra. }
  change (inject_Z 100) with 100%Q. lra.
Qed.

Lemma percent_not_negative (c n : nat) : 0 < n -> (inject_Z 0 <= Num.percent c n)%Q.
Proof.
  intros Hn. unfold Num.percent.
  assert (HN : (0 < inject_Z (Z.of_nat n))%Q).
  { change 0%Q with (inject_Z 0). rewrite <- Zlt_Qlt. lia. }
  assert (H0 : (0 <= inject_Z (Z.of_nat c))%Q).
  { change 0%Q with (inject_Z 0). rewrite <- Zle_Qle. lia. }
  assert (Hd : (0 <= inject_Z (Z.of_nat c) / inject_Z (Z.of_nat n))%Q).
  { apply Qle_shift_div_l; [assumption|]. lra. }
  change (inject_Z 0) with 0%Q. lra.
Qed.

Lemma round_at_least (x : Q) (lo : Z) ndigits :
  (inject_Z lo <= x)%Q -> (inject_Z lo <= Num.round x ndigits)%Q.
Proof.
  intros H.
  destruct (round_between x ndigits lo (Qfloor x + 1)) as [Hlo _]; [exact H | | exact Hlo].
  apply Qlt_le_weak, Qlt_floor.
Qed.

Lemma negative_rows_of_nothing sentiments : negative_rows [] sentiments = [].
Proof. reflexivity. Qed.

(** X24: the percentage of a priority issue counts mentions, not
    responses. It is never negative; it is at most 100 for an issue
    mentioned no more often than there are responses, and at least 100 for
    an issue mentioned as often as there are responses or more often, as
    when one response repeats the word: nothing keeps it below 100. *)
Theorem priority_percentage_counts_mentions :
  forall (self : FeedbackAnalyzer) (df : DataFrame) (sa : SentimentAnalysis)
         (sentiments : list Sentiment),
    sentiment_analysis (analysis_results self) = Some sa ->
    feedback_data self = Some df ->
    sentiment df = Some sentiments ->
    negative_rows (feedback df) sentiments <> [] ->
    exists issues,
      fst (identify_priority_issues self) = Returned (Some (PriorityList issues)) /\
      (forall p, In p issues ->
         (0 <= percentage p)%Q /\
         (frequency p <= length (feedback df) -> (percentage p <= 100)%Q) /\
         (length (feedback df) <= frequency p -> (100 <= percentage p)%Q)).
Proof.
  intros self df sa sentiments Hsa Hdf Hs Hneg.
  eexists. split; [exact (priority_list_returned self df sa sentiments Hsa Hdf Hs Hneg)|].
  assert (Hn : 0 < length (feedback df)).
  { destruct (feedback df) as [|fb l]; [|simpl; lia].
    now rewrite negative_rows_of_nothing in Hneg. }
  intros p Hp. apply in_map_iff in Hp as ([k c] & <- & _).
  cbn [percentage frequency fst snd]. split; [|split].
  - apply (round_at_least _ 0 1), percent_not_negative, Hn.
  - intros Hc. destruct (percent_bounds c (length (feedback df)) Hc Hn) as [H0 H100].
    destruct (round_between (Num.percent c (length (feedback df))) 1 0 100 H0 H100)
      as [_ H]. exact H.
  - intros Hc. apply (round_at_least _ 100 1), percent_at_least; assumption.
Qed.

(** One response with three mentions of "slow": 300.0 *)
Lemma priority_percentage_counts_mentions_witness :
  fst (identify_priority_issues (analyzed prefix_polarity echo_corpus))
  = Returned (Some (PriorityList
      [{| issue := "slow"%string; frequency := 3; percentage := 300 |}])) /\
  (100 <= 300)%Q.
Proof.
  destruct (priority_percentage_counts_mentions
              (analyzed prefix_polarity echo_corpus)
              {| feedback := echo_corpus;
                 sentiment := Some (map fst (map (classify prefix_polarity) echo_corpus));
                 sentiment_score :=
                   Some (map snd (map (classify prefix_polarity) echo_corpus)) |}
              {| distribution := [(negative, 1)];
                 percentages := [(negative, 100%Q)];
                 average_sentiment := (- (1 # 2))%Q |}
              (map fst (map (classify prefix_polarity) echo_corpus))
              eq_refl eq_refl eq_refl)
    as (issues & Hres & Hpct).
  - vm_compute. discriminate.
  - assert (E : issues =
                [{| issue := "slow"%string; frequency := 3; percentage := 300 |}]).
    { vm_compute in Hres. inversion Hres. reflexivity. }
    split; [rewrite Hres; now rewrite E|].
    destruct (Hpct {| issue := "slow"%string; frequency := 3; percentage := 300 |})
      as (_ & _ & H); [rewrite E; now left|].
    apply H. simpl. lia.
Defined.

End MentionFacts.

(** ** Theme totals and the threshold *)

Module ThemeFacts.

Import Dict Text Feedback DictFacts SortFacts FeedbackFacts.

Lemma set_fresh (d : dict string nat) k v :
  mem String.eqb d k = false -> set String.eqb d k v = d ++ [(k, v)].
Proof.
  induction d as [|[k' v'] d IH]; simpl; [reflexivity|].
  intros H. apply orb_false_iff in H as [E H]. rewrite E. now rewrite IH.
Qed.


Lemma list_sum_snoc l v : list_sum (l ++ [v]) = list_sum l + v.
Proof. rewrite list_sum_app. simpl. lia. Qed.

Lemma fold_category_sum common items :
  forall acc,
    NoDup (map fst items) ->
    (forall k, In k (map fst items) -> mem String.eqb acc k = false) ->
    list_sum (map snd (fold_left (category_step common) items acc))
    = list_sum (map snd acc)
      + list_sum (map (fun kw => get String.eqb common kw 0) (concat (map snd items))).
Proof.
  induction items as [|[c kws] items IH]; intros acc Hnd Hfresh; simpl; [lia|].
  inversion Hnd as [|? ? Hnot Hnd']; subst.
  rewrite IH; [|assumption|].
  - rewrite map_app, list_sum_app. unfold category_step. cbn [fst snd].
    destruct (0 <? list_sum (map (fun keyword => get String.eqb common keyword 0) kws)) eqn:E.
    + rewrite set_fresh by (apply Hfresh; now left).
      rewrite map_app. cbn [map snd]. rewrite list_sum_snoc. lia.
    + apply Nat.ltb_ge in E. lia.
  - intros k Hk. unfold category_step. cbn [fst snd].
    destruct (0 <? _).
    + rewrite mem_set, (Hfresh k) by now right.
      cbn [orb]. apply (eqb_neq String.eqb String.eqb_eq). intros ->. contradiction.
    + apply Hfresh. now right.
Qed.

Lemma sum_indicator_absent (vocab : list string) k v :
  ~ In k vocab ->
  list_sum (map (fun kw => if String.eqb kw k then v else 0) vocab) = 0.
Proof.
  induction vocab as [|y vocab IH]; intros Hnot; [reflexivity|]. simpl.
  rewrite (eqb_neq String.eqb String.eqb_eq y k) by (intros ->; apply Hnot; now left).
  simpl. apply IH. intros H. apply Hnot. now right.
Qed.

Lemma sum_indicator (vocab : list string) k v :
  NoDup vocab -> In k vocab ->
  list_sum (map (fun kw => if String.eqb kw k then v else 0) vocab) = v.
Proof.
  induction vocab as [|x vocab IH]; intros Hnd Hin; [destruct Hin|].
  inversion Hnd as [|? ? Hnot Hnd']; subst. simpl.
  destruct (eqb_cases String.eqb String.eqb_eq x k) as [[-> E]|[Hx E]]; rewrite E.
  - rewrite sum_indicator_absent by assumption. lia.
  - simpl. apply IH; [assumption | destruct Hin; [congruence | assumption]].
Qed.

Lemma sum_get_cons (vocab : list string) k v (d : dict string nat) :
  ~ In k (keys d) ->
  list_sum (map (fun kw => get String.eqb ((k, v) :: d) kw 0) vocab)
  = list_sum (map (fun kw => if String.eqb kw k then v else 0) vocab)
    + list_sum (map (fun kw => get String.eqb d kw 0) vocab).
Proof.
  intros Hnot. induction vocab as [|x vocab IH]; [reflexivity|].
  simpl. simpl in IH. rewrite IH.
  destruct (eqb_cases String.eqb String.eqb_eq x k) as [[-> E]|[Hx E]]; rewrite E; [|lia].
  rewrite (get_not_mem String.eqb d k 0); [lia|].
  destruct (mem String.eqb d k) eqn:M; [|reflexivity].
  apply (mem_keys String.eqb String.eqb_eq) in M. contradiction.
Qed.

(** Summing the lookups over a vocabulary that holds every key once gives
    the sum of the values. *)
Lemma sum_get_vocab (vocab : list string) (d : dict string nat) :
  NoDup vocab -> NoDup (keys d) -> (forall k, In k (keys d) -> In k vocab) ->
  list_sum (map (fun kw => get String.eqb d kw 0) vocab) = list_sum (map snd d).
Proof.
  intros Hv. induction d as [|[k v] d IH]; intros Hnd Hsub.
  - cbn [get map list_sum]. clear. induction vocab; simpl; auto.
  - unfold keys in Hnd. cbn [map fst] in Hnd.
    inversion Hnd as [|? ? Hnot Hnd']; subst.
    rewrite sum_get_cons by exact Hnot.
    rewrite sum_indicator; [|assumption | apply Hsub; now left].
    rewrite IH; [reflexivity | exact Hnd' | intros x Hx; apply Hsub; now right].
Qed.

Lemma NoDup_ux_keywords : NoDup Vocab.ux_keywords.
Proof.
  assert (E : nodup string_dec Vocab.ux_keywords = Vocab.ux_keywords) by (vm_compute; reflexivity).
  rewrite <- E. apply NoDup_nodup.
Qed.

Lemma keys_filter_In {V} (f : string * V -> bool) (d : dict string V) k :
  In k (keys (filter f d)) -> In k (keys d).
Proof.
  unfold keys. intros H. apply in_map_iff in H as (x & <- & Hx).
  apply filter_In in Hx as [Hx _]. now apply in_map.
Qed.

Lemma NoDup_keys_filter {V} (f : string * V -> bool) (d : dict string V) :
  NoDup (keys d) -> NoDup (keys (filter f d)).
Proof.
  unfold keys. induction d as [|x d IH]; intros Hnd; simpl; [constructor|].
  inversion Hnd as [|? ? Hnot Hnd']; subst.
  destruct (f x); simpl; [|auto].
  constructor; [|auto]. intros H. apply Hnot. now apply (keys_filter_In f d).
Qed.

Lemma sum_filter_le (f : string * nat -> bool) (d : dict string nat) :
  list_sum (map snd (filter f d)) <= list_sum (map snd d).
Proof.
  induction d as [|x d IH]; simpl; [lia|]. destruct (f x); simpl; lia.
Qed.

Lemma all_keywords_in_vocabulary feedback kw :
  In kw (all_keywords feedback) -> In kw Vocab.ux_keywords.
Proof.
  unfold all_keywords. rewrite in_flat_map. intros (fb & _ & H).
  apply filter_In in H as [_ H]. now apply in_list_In.
Qed.

(** X9: for ASCII texts, the category totals add up to the sum of the
    counts in [common_keywords], which never exceeds [total_keywords_found]
    and equals it for a threshold of at most 1; every entry of
    [common_keywords] is a vocabulary word with its number of occurrences
    in the corpus, at least the threshold. *)
Theorem theme_totals_add_up :
  forall (self : FeedbackAnalyzer) (df : DataFrame) (min_frequency : Z),
    feedback_data self = Some df ->
    ascii_corpus (feedback df) = true ->
    exists result,
      fst (extract_themes self min_frequency) = Some result /\
      list_sum (map snd (theme_categories result))
      = list_sum (map snd (common_keywords result)) /\
      list_sum (map snd (common_keywords result)) <= total_keywords_found result /\
      ((min_frequency <= 1)%Z ->
       list_sum (map snd (theme_categories result)) = total_keywords_found result) /\
      (forall kw c, In (kw, c) (common_keywords result) ->
         In kw Vocab.ux_keywords /\
         (min_frequency <= Z.of_nat c)%Z /\
         c = occurrences String.eqb kw (corpus_words (feedback df))).
Proof.
  intros self df m Hdf _. unfold extract_themes. rewrite Hdf.
  eexists. split; [reflexivity|].
  cbn [common_keywords theme_categories total_keywords_found].
  set (counts := Counter String.eqb (all_keywords (feedback df))).
  assert (Hnd : NoDup (keys counts)) by apply (NoDup_keys_Counter String.eqb String.eqb_eq).
  assert (Hsub : forall k, In k (keys counts) -> In k Vocab.ux_keywords).
  { intros k Hk. unfold counts in Hk.
    rewrite (keys_Counter_In String.eqb String.eqb_eq) in Hk.
    eapply all_keywords_in_vocabulary, Hk. }
  assert (Hcat : list_sum (map snd (categorize (common_themes_of counts m)))
                 = list_sum (map snd (common_themes_of counts m))).
  { unfold categorize.
    rewrite fold_category_sum; [|apply NoDup_theme_categories | reflexivity].
    change (concat (map snd Vocab.theme_categories)) with Vocab.ux_keywords.
    cbn [map list_sum]. rewrite Nat.add_0_l.
    apply (sum_get_vocab Vocab.ux_keywords); [apply NoDup_ux_keywords | |].
    - now apply NoDup_keys_filter.
    - intros k Hk. apply Hsub. eapply keys_filter_In, Hk. }
  assert (Hle : list_sum (map snd (common_themes_of counts m))
                <= length (all_keywords (feedback df))).
  { rewrite <- (SentimentFacts.sum_Counter String.eqb). apply sum_filter_le. }
  split; [exact Hcat|]. split; [exact Hle|]. split.
  - intros Hm. rewrite Hcat. rewrite <- (SentimentFacts.sum_Counter String.eqb).
    fold counts. f_equal. f_equal. unfold common_themes_of.
    apply forallb_filter_id. apply forallb_forall. intros [k c] Hin. cbn [snd].
    apply (In_Counter String.eqb String.eqb_eq) in Hin as [Hin ->].
    apply (occurrences_pos String.eqb String.eqb_eq) in Hin. apply Z.leb_le. lia.
  - intros kw c Hin. unfold common_themes_of in Hin.
    apply filter_In in Hin as [Hin Hc]. cbn [snd] in Hc. apply Z.leb_le in Hc.
    apply (In_Counter String.eqb String.eqb_eq) in Hin as [Hin ->].
    assert (Hv : In kw Vocab.ux_keywords) by (eapply all_keywords_in_vocabulary, Hin).
    repeat split; [assumption | assumption |].
    apply occurrences_all_keywords. now apply in_list_In.
Qed.

Lemma theme_totals_add_up_witness :
  exists result,
    fst (extract_themes (snd (load_feedback init themes_corpus)) 2) = Some result /\
    list_sum (map snd (theme_categories result)) = list_sum (map snd (common_keywords result)).
Proof.
  destruct (theme_totals_add_up
              (snd (load_feedback init themes_corpus))
              {| feedback := themes_corpus; sentiment := None; sentiment_score := None |}
              2 eq_refl eq_refl) as (result & Hres & Hsum & _).
  exists result. split; assumption.
Defined.

Lemma categorize_get_le common common' cat :
  (forall kw, get String.eqb common' kw 0 <= get String.eqb common kw 0) ->
  get String.eqb (categorize common') cat 0 <= get String.eqb (categorize common) cat 0.
Proof.
  intros Hle. unfold categorize.
  destruct (fold_category_step common Vocab.theme_categories [] cat NoDup_theme_categories)
    as [Hg _].
  destruct (fold_category_step common' Vocab.theme_categories [] cat NoDup_theme_categories)
    as [Hg' _].
  rewrite Hg, Hg'. clear Hg Hg'.
  destruct (find String.eqb Vocab.theme_categories cat) as [kws|]; [|simpl; lia].
  assert (H : list_sum (map (fun keyword => get String.eqb common' keyword 0) kws)
              <= list_sum (map (fun keyword => get String.eqb common keyword 0) kws)).
  { induction kws as [|kw kws IH]; simpl; [lia|]. specialize (Hle kw). lia. }
  cbn [get].
  destruct (Nat.ltb_spec 0 (list_sum (map (fun keyword => get String.eqb common' keyword 0) kws)));
    destruct (Nat.ltb_spec 0 (list_sum (map (fun keyword => get String.eqb common keyword 0) kws)));
    lia.
Qed.

(** X10: raising the threshold only removes: every entry of
    [common_keywords] under the higher threshold is an entry under the lower
    one, no category total grows, and [total_keywords_found] stays. *)
Theorem raising_the_threshold_only_removes :
  forall (self : FeedbackAnalyzer) (df : DataFrame) (low high : Z),
    feedback_data self = Some df ->
    (low <= high)%Z ->
    exists r r',
      fst (extract_themes self low) = Some r /\
      fst (extract_themes self high) = Some r' /\
      (forall kw c, In (kw, c) (common_keywords r') -> In (kw, c) (common_keywords r)) /\
      (forall cat, get String.eqb (theme_categories r') cat 0
                   <= get String.eqb (theme_categories r) cat 0) /\
      total_keywords_found r' = total_keywords_found r.
Proof.
  intros self df low high Hdf Hle. unfold extract_themes. rewrite Hdf.
  eexists. eexists. split; [reflexivity|]. split; [reflexivity|].
  cbn [common_keywords theme_categories total_keywords_found].
  split; [|split; [|reflexivity]].
  - intros kw c Hin. unfold common_themes_of in *.
    apply filter_In in Hin as [Hin Hc]. apply filter_In. split; [assumption|].
    cbn [snd] in *. apply Z.leb_le in Hc. apply Z.leb_le. lia.
  - intros cat. apply categorize_get_le. intros kw.
    rewrite !get_common_themes by apply (NoDup_keys_Counter String.eqb String.eqb_eq).
    destruct (Z.leb_spec high (Z.of_nat (get String.eqb (Counter String.eqb (all_keywords (feedback df))) kw 0)));
      destruct (Z.leb_spec low (Z.of_nat (get String.eqb (Counter String.eqb (all_keywords (feedback df))) kw 0)));
      lia.
Qed.

Lemma raising_the_threshold_only_removes_witness :
  exists r r',
    fst (extract_themes (snd (load_feedback init themes_corpus)) 1) = Some r /\
    fst (extract_themes (snd (load_feedback init themes_corpus)) 2) = Some r' /\
    get String.eqb (theme_categories r') "performance"%string 0
    <= get String.eqb (theme_categories r) "performance"%string 0.
Proof.
  destruct (raising_the_threshold_only_removes
              (snd (load_feedback init themes_corpus))
              {| feedback := themes_corpus; sentiment := None; sentiment_score := None |}
              1 2 eq_refl) as (r & r' & Hr & Hr' & _ & Hcat & _).
  - discriminate.
  - exists r, r'. repeat split; [exact Hr | exact Hr' | apply Hcat].
Defined.

End ThemeFacts.

(** ** The insights report *)

Module ReportFacts.

Import Dict Text Feedback DictFacts SortFacts FeedbackFacts.

Lemma top_theme_from (themes : dict string nat) :
  forall b,
    exists r l1 l2,
      fold_left
        (fun best item =>
           match best with
           | None => Some item
           | Some b => if snd b <? snd item then Some item else Some b
           end)
        themes (Some b) = Some r /\
      b :: themes = l1 ++ r :: l2 /\
      (forall x, In x l1 -> snd x < snd r) /\
      (forall x, In x l2 -> snd x <= snd r).
Proof.
  induction themes as [|x themes IH]; intros b; simpl.
  - exists b, [], []. repeat split; simpl; tauto.
  - destruct (Nat.ltb_spec (snd b) (snd x)) as [Hlt|Hge].
    + destruct (IH x) as (r & l1 & l2 & Hr & Hsplit & H1 & H2).
      exists r, (b :: l1), l2. split; [exact Hr|]. split; [simpl; now rewrite Hsplit|].
      split; [|exact H2].
      assert (Hx : snd x <= snd r).
      { assert (Hin : In x (l1 ++ r :: l2)) by (rewrite <- Hsplit; now left).
        apply in_app_iff in Hin as [Hin|[<-|Hin]]; [apply Nat.lt_le_incl; auto | lia | auto]. }
      intros y [<-|Hy]; [lia | auto].
    + destruct (IH b) as (r & l1 & l2 & Hr & Hsplit & H1 & H2).
      destruct l1 as [|b' l1]; simpl in Hsplit; injection Hsplit as Hb Hrest.
      * subst r. subst l2. exists b, [], (x :: themes). repeat split; simpl; try tauto.
        intros y [<-|Hy]; [lia | auto].
      * subst b'. exists r, (b :: x :: l1), l2. split; [exact Hr|].
        split; [simpl; now rewrite Hrest|]. split; [|exact H2].
        intros y [<-|[<-|Hy]].
        -- apply H1. now left.
        -- assert (snd b < snd r) by (apply H1; now left). lia.
        -- apply H1. now right.
Qed.

(** The theme that [max] picks: the first entry of greatest count *)
Lemma top_theme_first_greatest (themes : dict string nat) :
  themes <> [] ->
  exists r l1 l2,
    top_theme_of themes = Some r /\
    themes = l1 ++ r :: l2 /\
    (forall x, In x l1 -> snd x < snd r) /\
    (forall x, In x l2 -> snd x <= snd r).
Proof.
  destruct themes as [|b themes]; [congruence|]. intros _.
  unfold top_theme_of. cbn [fold_left]. apply top_theme_from.
Qed.

(** X11: where a theme analysis with at least one category is stored, the
    report names one most discussed theme: the first category, in the order
    of [theme_categories], whose total is the greatest. Where the theme
    analysis has no category, the report names none. *)
Theorem most_discussed_theme_is_first_greatest :
  forall (now : string) (self : FeedbackAnalyzer) (df : DataFrame) (ta : ThemeAnalysis),
    feedback_data self = Some df ->
    theme_analysis (analysis_results self) = Some ta ->
    exists r,
      generate_insights_report now self = Returned (Some r) /\
      (theme_categories ta = [] ->
       forall t n, ~ In (MostDiscussedTheme t n) (key_insights r)) /\
      (theme_categories ta <> [] ->
       exists t n l1 l2,
         theme_categories ta = l1 ++ (t, n) :: l2 /\
         (forall x, In x l1 -> snd x < n) /\
         (forall x, In x l2 -> snd x <= n) /\
         (forall t' n', In (MostDiscussedTheme t' n') (key_insights r) <-> t' = t /\ n' = n)).
Proof.
  intros now self df ta Hdf Hta. unfold generate_insights_report.
  rewrite is_empty_false by (right; left; congruence). rewrite Hdf, Hta.
  eexists. split; [reflexivity|]. cbn [key_insights from_option].
  assert (Hother : forall t n,
            In (MostDiscussedTheme t n)
               (from_option sentiment_insights (sentiment_analysis (analysis_results self))
                ++ theme_insights ta
                ++ from_option
                     (fun top_issue =>
                        [TopUserComplaint (issue top_issue) (percentage top_issue)])
                     match priority_issues (analysis_results self) with
                     | Some issues => top_issue_of issues
                     | None => None
                     end)
            <-> In (MostDiscussedTheme t n) (theme_insights ta)).
  { intros t n. rewrite !in_app_iff. split; [|tauto].
    intros [H|[H|H]]; [exfalso | exact H | exfalso].
    - apply In_from_option in H as (sa & _ & H). unfold sentiment_insights in H.
      destruct (Qgtb _ 60); [|destruct (Qgtb _ 30)]; simpl in H; intuition discriminate.
    - apply In_from_option in H as (a & _ & [H|[]]). discriminate. }
  split.
  - intros Hnil t n Hin. apply Hother in Hin. unfold theme_insights in Hin.
    rewrite Hnil in Hin. exact Hin.
  - intros Hne.
    destruct (top_theme_first_greatest (theme_categories ta) Hne)
      as ([t n] & l1 & l2 & Htop & Hsplit & H1 & H2).
    exists t, n, l1, l2. split; [exact Hsplit|]. split; [exact H1|]. split; [exact H2|].
    intros t' n'. rewrite Hother. unfold theme_insights. rewrite Htop. simpl.
    split; [intros [H|[]]; inversion H; auto | intros [-> ->]; auto].
Qed.

Lemma most_discussed_theme_is_first_greatest_witness :
  exists r,
    generate_insights_report "2024-01-01 00:00:00"
      (snd (extract_themes (snd (load_feedback init themes_corpus)) 1))
    = Returned (Some r) /\
    In (MostDiscussedTheme "performance" 3) (key_insights r).
Proof.
  destruct (most_discussed_theme_is_first_greatest
              "2024-01-01 00:00:00"
              (snd (extract_themes (snd (load_feedback init themes_corpus)) 1))
              {| feedback := themes_corpus; sentiment := None; sentiment_score := None |}
              {| common_keywords := [("slow"%string, 2); ("fast"%string, 1)];
                 theme_categories := [("performance"%string, 3)];
                 total_keywords_found := 3 |}
              eq_refl eq_refl) as (r & Hr & _ & Hsome).
  exists r. split; [exact Hr|].
  destruct Hsome as (t & n & l1 & l2 & Hsplit & _ & _ & Hin); [discriminate|].
  apply Hin. cbn [theme_categories] in Hsplit.
  destruct l1 as [|x l1]; simpl in Hsplit; inversion Hsplit; subst; [auto|].
  destruct l1; discriminate.
Defined.

Lemma recommendation_for_cases issue_type rec :
  In rec (recommendation_for issue_type) ->
  recommendation_for issue_type = [rec] /\
  ((In issue_type ["slow"; "loading"; "laggy"]%string /\
    rec = "Investigate performance optimization opportunities"%string) \/
   (In issue_type ["confusing"; "difficult"; "complicated"]%string /\
    rec = "Consider UX/UI simplification and user testing"%string) \/
   (In issue_type ["broken"; "error"; "bug"; "crash"]%string /\
    rec = "Prioritize bug fixes and technical stability improvements"%string)).
Proof.
  unfold recommendation_for.
  destruct (in_list issue_type ["slow"; "loading"; "laggy"]%string) eqn:E1;
    [|destruct (in_list issue_type ["confusing"; "difficult"; "complicated"]%string) eqn:E2;
      [|destruct (in_list issue_type ["broken"; "error"; "bug"; "crash"]%string) eqn:E3]].
  - intros [<-|[]]. apply in_list_In in E1. auto.
  - intros [<-|[]]. apply in_list_In in E2. auto.
  - intros [<-|[]]. apply in_list_In in E3. auto 6.
  - intros [].
Qed.

(** X12: a report has the number of loaded responses as [total_feedback],
    at most three key insights and at most one recommendation; a top
    complaint is the first stored issue with its percentage; and a
    recommendation is given only together with a top complaint, about
    performance where the complaint is "slow", "loading" or "laggy", about
    simplification where it is "confusing", "difficult" or "complicated",
    about bug fixes where it is "broken", "error", "bug" or "crash". *)
Theorem insights_report_shape :
  forall (now : string) (self : FeedbackAnalyzer) (df : DataFrame),
    feedback_data self = Some df ->
    is_empty (analysis_results self) = false ->
    exists r,
      generate_insights_report now self = Returned (Some r) /\
      total_feedback r = length (feedback df) /\
      length (key_insights r) <= 3 /\
      length (recommendations r) <= 1 /\
      (forall i p, In (TopUserComplaint i p) (key_insights r) <->
         exists top rest,
           priority_issues (analysis_results self) = Some (PriorityList (top :: rest)) /\
           issue top = i /\ percentage top = p) /\
      (forall rec, In rec (recommendations r) ->
         exists i p,
           In (TopUserComplaint i p) (key_insights r) /\
           ((In i ["slow"; "loading"; "laggy"]%string /\
             rec = "Investigate performance optimization opportunities"%string) \/
            (In i ["confusing"; "difficult"; "complicated"]%string /\
             rec = "Consider UX/UI simplification and user testing"%string) \/
            (In i ["broken"; "error"; "bug"; "crash"]%string /\
             rec = "Prioritize bug fixes and technical stability improvements"%string))).
Proof.
  intros now self df Hdf Hne. unfold generate_insights_report. rewrite Hne, Hdf.
  eexists. split; [reflexivity|].
  cbn [total_feedback key_insights recommendations].
  set (top_issue := match priority_issues (analysis_results self) with
                    | Some issues => top_issue_of issues
                    | None => None
                    end).
  assert (Htop : forall top, top_issue = Some top <->
            exists rest, priority_issues (analysis_results self)
                         = Some (PriorityList (top :: rest))).
  { intros top. unfold top_issue.
    destruct (priority_issues (analysis_results self)) as [[message|[|t rest]]|]; simpl;
      split; try discriminate; try (intros (rest' & H); discriminate).
    - intros H. inversion H. eauto.
    - intros (rest' & H). inversion H. reflexivity. }
  assert (Hcomplaint : forall i p,
            In (TopUserComplaint i p)
               (from_option sentiment_insights (sentiment_analysis (analysis_results self))
                ++ from_option theme_insights (theme_analysis (analysis_results self))
                ++ from_option
                     (fun top_issue =>
                        [TopUserComplaint (issue top_issue) (percentage top_issue)])
                     top_issue)
            <-> exists top, top_issue = Some top /\ issue top = i /\ percentage top = p).
  { intros i p. rewrite !in_app_iff. split.
    - intros [H|[H|H]].
      + exfalso. apply In_from_option in H as (sa & _ & H). unfold sentiment_insights in H.
        destruct (Qgtb _ 60); [|destruct (Qgtb _ 30)]; simpl in H; intuition discriminate.
      + exfalso. apply In_from_option in H as (ta & _ & H).
        apply theme_insights_shape in H as (t & n & E). discriminate.
      + apply In_from_option in H as (top & E & [H|[]]). inversion H. eauto.
    - intros (top & E & <- & <-). right. right. rewrite E. simpl. auto. }
  split; [reflexivity|]. split; [|split; [|split]].
  - rewrite !length_app.
    assert (H1 : length (from_option sentiment_insights
                           (sentiment_analysis (analysis_results self))) <= 1).
    { destruct (sentiment_analysis (analysis_results self)) as [sa|]; simpl; [|lia].
      unfold sentiment_insights.
      destruct (Qgtb _ 60); [|destruct (Qgtb _ 30)]; simpl; lia. }
    assert (H2 : length (from_option theme_insights
                           (theme_analysis (analysis_results self))) <= 1).
    { destruct (theme_analysis (analysis_results self)) as [ta|]; simpl; [|lia].
      unfold theme_insights. destruct (top_theme_of _); simpl; lia. }
    assert (H3 : length (from_option
                           (fun top_issue =>
                              [TopUserComplaint (issue top_issue) (percentage top_issue)])
                           top_issue) <= 1)
      by (destruct top_issue; simpl; lia).
    lia.
  - destruct top_issue as [top|]; simpl; [|lia].
    unfold recommendation_for.
    destruct (in_list _ _); [|destruct (in_list _ _); [|destruct (in_list _ _)]]; simpl; lia.
  - intros i p. rewrite Hcomplaint. split.
    + intros (top & E & Hi & Hp). apply Htop in E as (rest & E). eauto.
    + intros (top & rest & E & Hi & Hp). exists top. split; [|auto].
      apply Htop. eauto.
  - intros rec Hrec. apply In_from_option in Hrec as (top & E & Hrec).
    apply recommendation_for_cases in Hrec as [_ Hcases].
    exists (issue top), (percentage top). split; [|exact Hcases].
    apply Hcomplaint. eauto.
Qed.

Lemma insights_report_shape_witness :
  exists r,
    generate_insights_report "2024-01-01 00:00:00" (analyzed prefix_polarity split_corpus)
    = Returned (Some r) /\
    total_feedback r = 20 /\ length (key_insights r) <= 3.
Proof.
  destruct (insights_report_shape
              "2024-01-01 00:00:00" (analyzed prefix_polarity split_corpus)
              {| feedback := split_corpus;
                 sentiment := Some (map fst (map (classify prefix_polarity) split_corpus));
                 sentiment_score :=
                   Some (map snd (map (classify prefix_polarity) split_corpus)) |}
              eq_refl eq_refl) as (r & Hr & Htotal & Hlen & _).
  exists r. repeat split; assumption.
Defined.

End ReportFacts.

(** ** Satisfaction metrics *)

Module MetricsFacts.

Import Dict Survey DictFacts SurveyFacts FeedbackFacts NumFacts.

Lemma In_set {V} (d : dict string V) k0 v0 k v :
  In (k, v) (set String.eqb d k0 v0) -> (k, v) = (k0, v0) \/ In (k, v) d.
Proof.
  induction d as [|[k' v'] d IH]; simpl.
  - intros [H|[]]. auto.
  - destruct (eqb_cases String.eqb String.eqb_eq k0 k') as [[<- E]|[Hk E]]; rewrite E; simpl.
    + intros [H|H]; auto.
    + intros [H|H]; [auto|]. destruct (IH H); auto.
Qed.

Lemma fill_entries {V} (entry : string -> outcome (string * V)) items :
  forall acc d,
    fill entry items acc = Returned d ->
    forall k v, In (k, v) d ->
      In (k, v) acc \/ exists item, In item items /\ entry item = Returned (k, v).
Proof.
  induction items as [|item items IH]; intros acc d Hfill k v Hin; simpl in Hfill.
  - inversion Hfill; subst. now left.
  - destruct (entry item) as [[k0 v0]|e] eqn:E; [|discriminate].
    destruct (IH _ _ Hfill k v Hin) as [H|(it & Hit & Eit)].
    + cbn [fst snd] in H. apply In_set in H as [H|H]; [|now left].
      inversion H; subst. right. exists item. split; [now left | exact E].
    + right. exists it. split; [now right | exact Eit].
Qed.

(** What [calculate_satisfaction_metrics] returns and stores for a table
    whose rating columns are numeric. *)
Lemma metrics_of_table (self : SurveyDataProcessor) (df : DataFrame) :
  processed_data self = Some df ->
  (forall col, In col (rating_columns df) ->
               exists vals, floats (column df col) = Returned vals) ->
  exists metrics,
    calculate_satisfaction_metrics self
    = (Returned (Some metrics),
       set_insights self
         {| satisfaction_metrics := Some metrics;
            segment_analysis := segment_analysis (insights self) |}) /\
    (forall col vals,
       In col (rating_columns df) -> floats (column df col) = Returned vals ->
       find String.eqb metrics col = Some (column_metrics vals)) /\
    (forall col, ~ In col (rating_columns df) -> find String.eqb metrics col = None) /\
    (forall col m, In (col, m) metrics ->
       In col (rating_columns df) /\
       exists vals, floats (column df col) = Returned vals /\ m = column_metrics vals).
Proof.
  intros Hdf Hnum. unfold calculate_satisfaction_metrics. rewrite Hdf.
  destruct (fill_returns
              (fun col => match floats (column df col) with
                          | Returned vals => Returned (col, column_metrics vals)
                          | Raised e => Raised e
                          end)
              (rating_columns df) []) as (metrics & Hfill & Hin & Hout).
  { intros col Hcol. destruct (Hnum col Hcol) as (vals & E). rewrite E. eauto. }
  rewrite Hfill. exists metrics. split; [reflexivity|]. split; [|split].
  - intros col vals Hcol Hvals. apply Hin; [assumption|]. now rewrite Hvals.
  - intros col Hcol. now rewrite Hout.
  - intros col m Hm.
    destruct (fill_entries _ _ _ _ Hfill col m Hm) as [[]|(item & Hitem & E)].
    destruct (floats (column df item)) as [vals|e] eqn:Ef; [|discriminate].
    inversion E; subst. split; [assumption|]. eauto.
Qed.

Lemma count_ge_le_length vals bound : count_ge vals bound <= length vals.
Proof. unfold count_ge. apply filter_length_le. Qed.

Lemma count_le_le_length vals bound : count_le vals bound <= length vals.
Proof. unfold count_le. apply filter_length_le. Qed.

Lemma count_le_length vals : count vals <= length vals.
Proof.
  unfold count, present. induction vals as [|[x|] vals IH]; simpl; lia.
Qed.

Lemma max_le_nonempty vals bound : max_le vals bound = true -> 0 < length vals.
Proof.
  unfold max_le, max, present. destruct vals as [|v vals]; simpl; [discriminate | lia].
Qed.

Lemma nps_bounds a b n :
  a <= n -> b <= n -> 0 < n ->
  (inject_Z (-100)
   <= (inject_Z (Z.of_nat a) - inject_Z (Z.of_nat b)) / inject_Z (Z.of_nat n) * 100)%Q /\
  ((inject_Z (Z.of_nat a) - inject_Z (Z.of_nat b)) / inject_Z (Z.of_nat n) * 100
   <= inject_Z 100)%Q.
Proof.
  intros Ha Hb Hn.
  assert (HN : (0 < inject_Z (Z.of_nat n))%Q).
  { change 0%Q with (inject_Z 0). rewrite <- Zlt_Qlt. lia. }
  assert (Ha0 : (0 <= inject_Z (Z.of_nat a))%Q).
  { change 0%Q with (inject_Z 0). rewrite <- Zle_Qle. lia. }
  assert (Hb0 : (0 <= inject_Z (Z.of_nat b))%Q).
  { change 0%Q with (inject_Z 0). rewrite <- Zle_Qle. lia. }
  assert (Ha1 : (inject_Z (Z.of_nat a) <= inject_Z (Z.of_nat n))%Q)
    by (rewrite <- Zle_Qle; lia).
  assert (Hb1 : (inject_Z (Z.of_nat b) <= inject_Z (Z.of_nat n))%Q)
    by (rewrite <- Zle_Qle; lia).
  assert (Hd0 : (-1 <= (inject_Z (Z.of_nat a) - inject_Z (Z.of_nat b))
                       / inject_Z (Z.of_nat n))%Q).
  { apply Qle_shift_div_l; [assumption|]. lra. }
  assert (Hd1 : ((inject_Z (Z.of_nat a) - inject_Z (Z.of_nat b))
                 / inject_Z (Z.of_nat n) <= 1)%Q).
  { apply Qle_shift_div_r; [assumption|]. lra. }
  change (inject_Z (-100)) with (-100)%Q. change (inject_Z 100) with 100%Q. split; lra.
Qed.

(** X13: for a table whose rating columns are numeric,
    [calculate_satisfaction_metrics] returns, and stores in the insights,
    one entry for each column whose lower-cased name contains "rating" and
    none for any other column; in each entry the count is at most the number
    of rows, a satisfaction rate is between 0 and 100 and an NPS score
    between -100 and 100. *)
Theorem satisfaction_metrics_are_bounded :
  forall (self : SurveyDataProcessor) (df : DataFrame),
    processed_data self = Some df ->
    (forall col, In col (rating_columns df) ->
                 exists vals, floats (column df col) = Returned vals) ->
    exists metrics,
      fst (calculate_satisfaction_metrics self) = Returned (Some metrics) /\
      satisfaction_metrics (insights (snd (calculate_satisfaction_metrics self)))
      = Some metrics /\
      (forall col, find String.eqb metrics col <> None <-> In col (rating_columns df)) /\
      (forall col m, In (col, m) metrics ->
         m_count m <= length (column df col) /\
         (forall r, m_satisfaction_rate m = Some r -> (0 <= r)%Q /\ (r <= 100)%Q) /\
         (forall r, m_nps_score m = Some r -> (-100 <= r)%Q /\ (r <= 100)%Q)).
Proof.
  intros self df Hdf Hnum.
  destruct (metrics_of_table self df Hdf Hnum) as (metrics & Hret & Hin & Hout & Hentries).
  exists metrics. rewrite Hret. split; [reflexivity|]. split; [reflexivity|]. split.
  - intros col. split.
    + intros Hfind. destruct (in_dec string_dec col (rating_columns df)) as [H|H]; [exact H|].
      now rewrite Hout in Hfind.
    + intros Hcol. destruct (Hnum col Hcol) as (vals & E).
      rewrite (Hin col vals Hcol E). discriminate.
  - intros col m Hm. destruct (Hentries col m Hm) as (Hcol & vals & E & ->).
    rewrite <- (floats_length _ _ E). cbn [m_count m_satisfaction_rate m_nps_score column_metrics].
    split; [apply count_le_length|]. split.
    + intros r. destruct (max_le vals 5) eqn:M; [|discriminate].
      intros H. inversion H; subst.
      apply (round_between _ 1 0 100); apply percent_bounds;
        try apply count_ge_le_length; eapply max_le_nonempty, M.
    + intros r. destruct (max_le vals 10) eqn:M; [|discriminate].
      intros H. inversion H; subst.
      apply (round_between _ 1 (-100) 100); apply nps_bounds;
        try apply count_ge_le_length; try apply count_le_le_length;
        eapply max_le_nonempty, M.
Qed.

Lemma satisfaction_metrics_are_bounded_witness :
  exists metrics,
    fst (calculate_satisfaction_metrics (cleaned one_segment_table)) = Returned (Some metrics) /\
    (find String.eqb metrics "user_type"%string <> None <->
     In "user_type"%string (rating_columns one_segment_table)).
Proof.
  destruct (satisfaction_metrics_are_bounded (cleaned one_segment_table) one_segment_table
              eq_refl) as (metrics & Hres & _ & Hkeys & _).
  - intros col [<-|[<-|[]]]; eexists; reflexivity.
  - exists metrics. split; [exact Hres | apply Hkeys].
Defined.

(** *** Columns on a 5-point scale *)

Lemma fold_max_upper xs :
  forall m0,
    (m0 <= fold_left (fun m y => if Qgtb y m then y else m) xs m0)%Q /\
    (forall y, In y xs -> (y <= fold_left (fun m y => if Qgtb y m then y else m) xs m0)%Q).
Proof.
  induction xs as [|x xs IH]; intros m0; simpl.
  - split; [apply Qle_refl | tauto].
  - destruct (IH (if Qgtb x m0 then x else m0)) as [H1 H2].
    assert (Hm : (m0 <= (if Qgtb x m0 then x else m0))%Q /\
                 (x <= (if Qgtb x m0 then x else m0))%Q).
    { destruct (Qgtb x m0) eqn:E.
      - apply Qgtb_lt in E. split; [now apply Qlt_le_weak | apply Qle_refl].
      - apply Qgtb_le in E. split; [apply Qle_refl | exact E]. }
    destruct Hm as [Hm0 Hmx]. split.
    + eapply Qle_trans; eassumption.
    + intros y [<-|Hy]; [eapply Qle_trans; eassumption | now apply H2].
Qed.

Lemma In_present vals x : In (Some x) vals <-> In x (present vals).
Proof.
  unfold present. rewrite in_flat_map. split.
  - intros H. exists (Some x). split; [assumption | now left].
  - intros ([y|] & Hy & Hin); simpl in Hin; [|tauto].
    destruct Hin as [<-|[]]. exact Hy.
Qed.

Lemma max_upper vals mx x : max vals = Some mx -> In (Some x) vals -> (x <= mx)%Q.
Proof.
  unfold max. intros Hmax Hin. apply In_present in Hin.
  destruct (present vals) as [|x0 xs]; [discriminate|]. inversion Hmax; subst.
  destruct (fold_max_upper xs x0) as [H1 H2].
  destruct Hin as [<-|Hin]; [exact H1 | now apply H2].
Qed.

Lemma Qleb_le x y : Qleb x y = true <-> (x <= y)%Q.
Proof. unfold Qleb. rewrite negb_true_iff. apply Qgtb_le. Qed.

Lemma count_ge_none vals bound :
  (forall x, In (Some x) vals -> (x < bound)%Q) -> count_ge vals bound = 0.
Proof.
  unfold count_ge. induction vals as [|[x|] vals IH]; intros Hall; simpl; [reflexivity| |].
  - destruct (Qleb bound x) eqn:E.
    + apply Qleb_le in E. exfalso. apply (Qlt_not_le x bound); [apply Hall; now left | exact E].
    + apply IH. intros y Hy. apply Hall. now right.
  - apply IH. intros y Hy. apply Hall. now right.
Qed.

Lemma count_le_all vals bound :
  (forall x, In (Some x) vals -> (x <= bound)%Q) -> count_le vals bound = count vals.
Proof.
  unfold count_le, count, present.
  induction vals as [|[x|] vals IH]; intros Hall; simpl; [reflexivity| |].
  - assert (E : Qleb x bound = true) by (apply Qleb_le, Hall; now left).
    rewrite E. simpl. f_equal. apply IH. intros y Hy. apply Hall. now right.
  - apply IH. intros y Hy. apply Hall. now right.
Qed.

(** X14: a rating column whose maximum is at most 5 gets a satisfaction
    rate and an NPS score at once, and as no value reaches 9 while every
    value is at most 6, the NPS score is minus the percentage of rows that
    hold a value: it is between -100 and 0, never positive, -100 where no
    value is missing, and the exact rounding of that percentage to one
    decimal where the percentage is clear of the ties. *)
Theorem five_point_column_has_negative_nps :
  forall (self : SurveyDataProcessor) (df : DataFrame) (col : string)
         (vals : list (option Q)) (mx : Q),
    processed_data self = Some df ->
    (forall c, In c (rating_columns df) ->
               exists vs, floats (column df c) = Returned vs) ->
    In col (rating_columns df) ->
    floats (column df col) = Returned vals ->
    max vals = Some mx ->
    (mx <= 5)%Q ->
    exists metrics m rate nps,
      fst (calculate_satisfaction_metrics self) = Returned (Some metrics) /\
      find String.eqb metrics col = Some m /\
      m_satisfaction_rate m = Some rate /\
      m_nps_score m = Some nps /\
      (-100 <= nps)%Q /\
      (nps <= 0)%Q /\
      (Num.clear_of_ties (- Num.percent (count vals) (length vals)) 1 ->
       nps = Num.round (- Num.percent (count vals) (length vals)) 1) /\
      (count vals = length vals -> nps = (-100)%Q).
Proof.
  intros self df col vals mx Hdf Hnum Hcol Hvals Hmax Hmx.
  destruct (metrics_of_table self df Hdf Hnum) as (metrics & Hret & Hin & _).
  assert (H5 : max_le vals 5 = true) by (unfold max_le; rewrite Hmax; now apply Qleb_le).
  assert (H10 : max_le vals 10 = true).
  { unfold max_le. rewrite Hmax. apply Qleb_le. lra. }
  assert (Hlen : 0 < length vals) by (eapply max_le_nonempty, H5).
  assert (Hnps : m_nps_score (column_metrics vals)
                 = Some (Num.round (- Num.percent (count vals) (length vals)) 1)).
  { cbn [m_nps_score column_metrics]. rewrite H10. f_equal.
    rewrite count_ge_none, count_le_all.
    - apply round_comp. unfold Num.percent. change (inject_Z (Z.of_nat 0)) with 0%Q.
      assert (HN : ~ (inject_Z (Z.of_nat (length vals)) == 0)%Q).
      { change 0%Q with (inject_Z 0). rewrite inject_Z_injective. lia. }
      field. exact HN.
    - intros x Hx. pose proof (max_upper vals mx x Hmax Hx). lra.
    - intros x Hx. pose proof (max_upper vals mx x Hmax Hx). lra. }
  exists metrics, (column_metrics vals),
         (Num.round (Num.percent (count_ge vals 4) (length vals)) 1),
         (Num.round (- Num.percent (count vals) (length vals)) 1).
  rewrite Hret. split; [reflexivity|]. split; [now apply Hin|]. split.
  { cbn [m_satisfaction_rate column_metrics]. now rewrite H5. }
  split; [exact Hnps|].
  destruct (percent_bounds (count vals) (length vals) (count_le_length vals) Hlen)
    as [Hp0 Hp1].
  destruct (round_between (- Num.percent (count vals) (length vals)) 1 (-100) 0)
    as [Hlo Hhi].
  { change (inject_Z (-100)) with (-100)%Q. change (inject_Z 100) with 100%Q in Hp1. lra. }
  { change (inject_Z 0) with 0%Q in *. lra. }
  split; [exact Hlo|]. split; [exact Hhi|]. split; [reflexivity|].
  - intros Hall. rewrite Hall.
    rewrite (round_comp (- Num.percent (length vals) (length vals)) (-100)%Q 1); [reflexivity|].
    unfold Num.percent.
    assert (HN : ~ (inject_Z (Z.of_nat (length vals)) == 0)%Q).
    { change 0%Q with (inject_Z 0). rewrite inject_Z_injective. lia. }
    field. exact HN.
Qed.

Lemma five_point_column_has_negative_nps_witness :
  exists metrics m,
    fst (calculate_satisfaction_metrics (cleaned one_segment_table)) = Returned (Some metrics) /\
    find String.eqb metrics "Overall_Rating"%string = Some m /\
    m_nps_score m = Some (-75)%Q.
Proof.
  destruct (five_point_column_has_negative_nps
              (cleaned one_segment_table) one_segment_table "Overall_Rating"
              [Some 5%Q; None; Some 3%Q; Some 4%Q] 5%Q eq_refl)
    as (metrics & m & rate & nps & Hres & Hm & _ & Hnps & _ & _ & Hclear & _).
  - intros c [<-|[<-|[]]]; eexists; reflexivity.
  - simpl. tauto.
  - reflexivity.
  - reflexivity.
  - discriminate.
  - exists metrics, m. split; [exact Hres|]. split; [exact Hm|].
    rewrite Hnps. f_equal. rewrite Hclear; [reflexivity|].
    unfold Num.clear_of_ties. vm_compute. discriminate.
Defined.

(** X15: before [clean_data] has stored a table,
    [calculate_satisfaction_metrics] returns [None] while
    [analyze_by_segments] raises [AttributeError]; with a table and a
    segment column that the table lacks, [analyze_by_segments] returns
    [None]; none of the three changes the processor. *)
Theorem survey_methods_without_their_input :
  forall (self : SurveyDataProcessor) (segment_column : string),
    (processed_data self = None ->
     calculate_satisfaction_metrics self = (Returned None, self) /\
     analyze_by_segments self segment_column = (Raised AttributeError, self)) /\
    (forall df, processed_data self = Some df ->
                ~ In segment_column (keys df) ->
                analyze_by_segments self segment_column = (Returned None, self)).
Proof.
  intros self sc. split.
  - intros H. unfold calculate_satisfaction_metrics, analyze_by_segments. now rewrite H.
  - intros df H Hnot. unfold analyze_by_segments. rewrite H.
    destruct (mem String.eqb df sc) eqn:M; [|reflexivity].
    apply (mem_keys String.eqb String.eqb_eq) in M. contradiction.
Qed.

Lemma survey_methods_without_their_input_witness :
  analyze_by_segments (cleaned one_segment_table) "country"
  = (Returned None, cleaned one_segment_table).
Proof.
  apply (proj2 (survey_methods_without_their_input (cleaned one_segment_table) "country")
           one_segment_table eq_refl).
  simpl. intuition discriminate.
Defined.

End MetricsFacts.

(** ** The executive summary *)

Module SummaryFacts.

Import Dict Survey DictFacts SurveyFacts FeedbackFacts NumFacts MetricsFacts.

Lemma In_low_satisfaction (metrics : dict string Metrics) feature :
  In feature (low_satisfaction_features metrics) <->
  exists data rate,
    In (feature, data) metrics /\ m_satisfaction_rate data = Some rate /\ (rate < 70)%Q.
Proof.
  unfold low_satisfaction_features. rewrite in_flat_map. split.
  - intros ([f data] & Hin & H). cbn [fst snd] in H.
    destruct (m_satisfaction_rate data) as [rate|] eqn:E; [|destruct H].
    destruct (Qgtb 70 rate) eqn:G; [|destruct H].
    destruct H as [<-|[]]. apply Qgtb_lt in G. eauto.
  - intros (data & rate & Hin & E & Hlt). exists (feature, data). split; [assumption|].
    cbn [fst snd]. rewrite E. apply Qgtb_lt in Hlt. rewrite Hlt. now left.
Qed.

Lemma In_findings (metrics : dict string Metrics) f :
  In f (flat_map (fun item => finding_of (fst item) (snd item)) metrics) <->
  exists data,
    In (finding_feature f, data) metrics /\
    m_satisfaction_rate data = Some (finding_rate f) /\
    finding_grade f = grade_of (finding_rate f).
Proof.
  rewrite in_flat_map. unfold finding_of. split.
  - intros ([feature data] & Hin & H). cbn [fst snd] in H.
    destruct (m_satisfaction_rate data) as [rate|] eqn:E; [|destruct H].
    destruct H as [<-|[]]. cbn [finding_feature finding_rate finding_grade]. eauto.
  - intros (data & Hin & E & G). exists (finding_feature f, data). split; [assumption|].
    cbn [fst snd]. rewrite E. left. destruct f. cbn in *. now rewrite G.
Qed.

Lemma grade_of_thresholds rate :
  (grade_of rate = Excellent <-> (80 <= rate)%Q) /\
  (grade_of rate = Good <-> (60 <= rate)%Q /\ (rate < 80)%Q) /\
  (grade_of rate = NeedsImprovement <-> (rate < 60)%Q).
Proof.
  unfold grade_of, Qleb.
  destruct (Qgtb 80 rate) eqn:E80; [|apply Qgtb_le in E80];
    [apply Qgtb_lt in E80; destruct (Qgtb 60 rate) eqn:E60;
     [apply Qgtb_lt in E60 | apply Qgtb_le in E60]|];
    simpl; repeat split; try discriminate; try tauto; intros;
    try (exfalso; lra); try lra.
Qed.

(** X16: with satisfaction metrics stored, [generate_executive_summary]
    returns a summary with the number of rows and one finding for each
    stored feature that has a satisfaction rate, graded Excellent from 80,
    Good from 60 and below 80, Needs Improvement below 60. It gives at most
    one recommendation, which names the features with a rate below 70 and
    is absent when there is none: every feature found to need improvement
    is named, and so is a feature found Good with a rate below 70. *)
Theorem executive_summary_grades :
  forall (now : string) (self : SurveyDataProcessor) (df : DataFrame)
         (metrics : dict string Metrics),
    processed_data self = Some df ->
    satisfaction_metrics (insights self) = Some metrics ->
    exists summary low,
      generate_executive_summary now self = Returned (Some summary) /\
      total_responses summary = rows df /\
      (forall f, In f (key_findings summary) <->
         exists data,
           In (finding_feature f, data) metrics /\
           m_satisfaction_rate data = Some (finding_rate f) /\
           finding_grade f = grade_of (finding_rate f)) /\
      (forall rate,
         (grade_of rate = Excellent <-> (80 <= rate)%Q) /\
         (grade_of rate = Good <-> (60 <= rate)%Q /\ (rate < 80)%Q) /\
         (grade_of rate = NeedsImprovement <-> (rate < 60)%Q)) /\
      (forall feature, In feature low <->
         exists data rate,
           In (feature, data) metrics /\
           m_satisfaction_rate data = Some rate /\ (rate < 70)%Q) /\
      recommendations summary
      = match low with
        | [] => []
        | _ => [("Priority improvement needed for: " ++ Text.join ", " low)%string]
        end /\
      (forall f, In f (key_findings summary) ->
         (finding_rate f < 70)%Q -> In (finding_feature f) low).
Proof.
  intros now self df metrics Hdf Hm. unfold generate_executive_summary.
  rewrite Hm, Hdf. eexists. exists (low_satisfaction_features metrics).
  split; [reflexivity|].
  cbn [total_responses key_findings recommendations].
  split; [reflexivity|]. split; [apply In_findings|].
  split; [apply grade_of_thresholds|]. split; [apply In_low_satisfaction|].
  split; [reflexivity|].
  intros f Hf Hlt. apply In_findings in Hf as (data & Hin & E & _).
  apply In_low_satisfaction. eauto.
Qed.

Lemma executive_summary_grades_witness :
  exists summary,
    generate_executive_summary "2024-01-01 00:00:00"
      (snd (calculate_satisfaction_metrics (cleaned one_segment_table)))
    = Returned (Some summary) /\
    total_responses summary = 4 /\
    recommendations summary = ["Priority improvement needed for: Overall_Rating"%string].
Proof.
  destruct (executive_summary_grades
              "2024-01-01 00:00:00"
              (snd (calculate_satisfaction_metrics (cleaned one_segment_table)))
              one_segment_table
              [("Overall_Rating"%string, column_metrics [Some 5%Q; None; Some 3%Q; Some 4%Q]);
               ("nps_rating"%string, column_metrics [Some 7%Q; Some 6%Q; Some 3%Q; Some 2%Q])]
              eq_refl eq_refl) as (summary & low & Hres & Htotal & _).
  exists summary. split; [exact Hres|]. split; [exact Htotal|].
  vm_compute in Hres. inversion Hres. reflexivity.
Defined.

(** X17: [generate_executive_summary] returns [None] while no insight is
    stored. After [analyze_by_segments] alone it returns a summary without
    findings or recommendations; after [calculate_satisfaction_metrics] on a
    table with numeric rating columns it has a finding exactly for the
    rating columns whose maximum is at most 5. *)
Theorem executive_summary_follows_the_analyses :
  forall (now : string) (self : SurveyDataProcessor) (df : DataFrame),
    processed_data self = Some df ->
    (forall col, In col (rating_columns df) ->
                 exists vals, floats (column df col) = Returned vals) ->
    insights self = {| satisfaction_metrics := None; segment_analysis := None |} ->
    generate_executive_summary now self = Returned None /\
    (forall segment_column analysis,
       fst (analyze_by_segments self segment_column) = Returned (Some analysis) ->
       exists summary,
         generate_executive_summary now (snd (analyze_by_segments self segment_column))
         = Returned (Some summary) /\
         key_findings summary = [] /\ recommendations summary = []) /\
    (exists summary,
       generate_executive_summary now (snd (calculate_satisfaction_metrics self))
       = Returned (Some summary) /\
       forall feature,
         (exists f, In f (key_findings summary) /\ finding_feature f = feature) <->
         In feature (rating_columns df) /\
         exists vals mx,
           floats (column df feature) = Returned vals /\
           max vals = Some mx /\ (mx <= 5)%Q).
Proof.
  intros now self df Hdf Hnum Hins. split; [|split].
  - unfold generate_executive_summary. now rewrite Hins.
  - intros sc analysis Hret. unfold analyze_by_segments in *. rewrite Hdf in *.
    destruct (negb (mem String.eqb df sc)); [discriminate|].
    destruct (fill_segments df sc (unique (column df sc)) []) as [a|e]; [|discriminate].
    cbn [snd]. unfold generate_executive_summary.
    cbn [set_insights insights satisfaction_metrics segment_analysis processed_data].
    rewrite Hins, Hdf. cbn [satisfaction_metrics].
    eexists. split; [reflexivity|]. split; reflexivity.
  - destruct (metrics_of_table self df Hdf Hnum) as (metrics & Hret & Hin & Hout & Hentries).
    rewrite Hret. cbn [snd]. unfold generate_executive_summary.
    cbn [set_insights insights satisfaction_metrics segment_analysis processed_data].
    rewrite Hdf. eexists. split; [reflexivity|]. cbn [key_findings].
    intros feature. split.
    + intros (f & Hf & <-). apply In_findings in Hf as (data & Hdata & E & _).
      destruct (Hentries _ _ Hdata) as (Hcol & vals & Hvals & ->).
      split; [assumption|]. exists vals.
      cbn [m_satisfaction_rate column_metrics] in E. unfold max_le in E.
      destruct (max vals) as [mx|]; [|discriminate].
      destruct (Qleb mx 5) eqn:L; [|discriminate]. apply Qleb_le in L. eauto.
    + intros (Hcol & vals & mx & Hvals & Hmax & Hle).
      assert (Hfind : find String.eqb metrics feature = Some (column_metrics vals))
        by now apply Hin.
      assert (Hdata : In (feature, column_metrics vals) metrics).
      { clear -Hfind. induction metrics as [|[k v] metrics IH]; [discriminate|].
        simpl in Hfind.
        destruct (eqb_cases String.eqb String.eqb_eq feature k) as [[-> E]|[Hk E]];
          rewrite E in Hfind.
        - inversion Hfind. now left.
        - right. now apply IH. }
      exists {| finding_feature := feature;
                finding_rate := Num.round (Num.percent (count_ge vals 4) (length vals)) 1;
                finding_grade :=
                  grade_of (Num.round (Num.percent (count_ge vals 4) (length vals)) 1) |}.
      split; [|reflexivity]. apply In_findings. exists (column_metrics vals).
      cbn [finding_feature finding_rate finding_grade].
      split; [assumption|]. split; [|reflexivity].
      cbn [m_satisfaction_rate column_metrics]. unfold max_le. rewrite Hmax.
      apply Qleb_le in Hle. now rewrite Hle.
Qed.

Lemma executive_summary_follows_the_analyses_witness :
  generate_executive_summary "2024-01-01 00:00:00" (cleaned one_segment_table)
  = Returned None.
Proof.
  refine (proj1 (executive_summary_follows_the_analyses
                   "2024-01-01 00:00:00" (cleaned one_segment_table) one_segment_table
                   eq_refl _ eq_refl)).
  intros col [<-|[<-|[]]]; eexists; reflexivity.
Defined.

End SummaryFacts.

(** ** Segments *)

Module SegmentFacts.

Import Dict Survey DictFacts SurveyFacts FeedbackFacts NumFacts MetricsFacts.

Lemma select_nil {A} (mask : list bool) : select mask (@nil A) = [].
Proof. unfold select. now destruct mask. Qed.

Lemma select_cons {A} b (mask : list bool) (x : A) values :
  select (b :: mask) (x :: values)
  = if b then x :: select mask values else select mask values.
Proof. unfold select. simpl. now destruct b. Qed.

Lemma column_segment_rows (df : DataFrame) sc seg col :
  column (segment_rows df sc seg) col
  = select (map (fun c => cell_eqb c seg) (column df sc)) (column df col).
Proof.
  unfold segment_rows.
  generalize (map (fun c => cell_eqb c seg) (column df sc)). intros mask.
  unfold column. induction df as [|[k s] df IH]; simpl.
  - now rewrite select_nil.
  - destruct (String.eqb col k); [reflexivity | exact IH].
Qed.

Lemma floats_select s :
  forall mask vals,
    floats s = Returned vals -> floats (select mask s) = Returned (select mask vals).
Proof.
  induction s as [|c s IH]; intros mask vals H.
  - simpl in H. inversion H. now rewrite !select_nil.
  - destruct mask as [|b mask]; [reflexivity|].
    simpl in H. destruct c as [x|t|]; try discriminate;
      (destruct (floats s) as [vs|e] eqn:E; [|discriminate]);
      inversion H; subst; rewrite !select_cons; destruct b; simpl;
      rewrite (IH mask vs eq_refl); reflexivity.
Qed.

Lemma segment_metrics_returned (df : DataFrame) sc seg :
  (forall col, In col (rating_columns df) ->
               exists vals, floats (column df col) = Returned vals) ->
  exists d,
    segment_metrics_for df sc seg = Returned d /\
    forall col vals,
      In col (rating_columns df) -> floats (column df col) = Returned vals ->
      find String.eqb d col
      = Some (segment_column_metrics
                (select (map (fun c => cell_eqb c seg) (column df sc)) vals)
                (length (column (segment_rows df sc seg) sc))).
Proof.
  intros Hnum. unfold segment_metrics_for.
  destruct (fill_returns
              (fun rating_col =>
                 match floats (column (segment_rows df sc seg) rating_col) with
                 | Returned vals =>
                     Returned (rating_col,
                               segment_column_metrics vals
                                 (length (column (segment_rows df sc seg) sc)))
                 | Raised e => Raised e
                 end)
              (rating_columns df) []) as (d & Hfill & Hin & _).
  { intros col Hcol. destruct (Hnum col Hcol) as (vals & E).
    rewrite column_segment_rows, (floats_select _ _ _ E). eauto. }
  exists d. split; [exact Hfill|].
  intros col vals Hcol E. apply Hin; [assumption|].
  now rewrite column_segment_rows, (floats_select _ _ _ E).
Qed.

Lemma set_fresh_cell {V} (d : dict cell V) seg v :
  (forall k, In k (keys d) -> same_cell seg k = false) ->
  set same_cell d seg v = d ++ [(seg, v)].
Proof.
  unfold keys. induction d as [|[k v'] d IH]; intros Hfresh; simpl; [reflexivity|].
  rewrite (Hfresh k) by now left. f_equal. apply IH. intros k' Hk'. apply Hfresh. now right.
Qed.

(** The segments in the order of a list of pairwise different values *)
Lemma fill_segments_entries (df : DataFrame) sc segments :
  (forall col, In col (rating_columns df) ->
               exists vals, floats (column df col) = Returned vals) ->
  StronglySorted (fun a b => same_cell b a = false) segments ->
  forall acc,
    (forall k seg, In k (keys acc) -> In seg segments -> same_cell seg k = false) ->
    exists entries,
      fill_segments df sc segments acc = Returned (acc ++ entries) /\
      map fst entries = segments /\
      (forall seg d, In (seg, d) entries -> segment_metrics_for df sc seg = Returned d).
Proof.
  intros Hnum Hs. induction Hs as [|seg segments Hs IH Hall]; intros acc Hfresh.
  - exists []. simpl. rewrite app_nil_r. repeat split. intros seg d [].
  - destruct (segment_metrics_returned df sc seg Hnum) as (d & Hd & _).
    cbn [fill_segments]. change (fill _ (rating_columns df) [])
      with (segment_metrics_for df sc seg). rewrite Hd.
    rewrite set_fresh_cell by (intros k Hk; apply Hfresh; [assumption | now left]).
    destruct (IH (acc ++ [(seg, d)])) as (entries & Hfill & Hkeys & Hentries).
    { intros k s Hk Hin. unfold keys in Hk. rewrite map_app, in_app_iff in Hk.
      destruct Hk as [Hk|[<-|[]]].
      - apply Hfresh; [assumption | now right].
      - rewrite Forall_forall in Hall. now apply Hall. }
    exists ((seg, d) :: entries). rewrite Hfill, <- app_assoc. split; [reflexivity|].
    split; [simpl; now rewrite Hkeys|].
    intros s d' [H|H]; [inversion H; subst; exact Hd | now apply Hentries].
Qed.

Lemma same_cell_refl c : same_cell c c = true.
Proof.
  destruct c as [x|s|]; simpl; [|apply String.eqb_refl | reflexivity].
  apply Qeq_bool_iff. reflexivity.
Qed.

Lemma unique_from (l : list cell) :
  forall seen,
    StronglySorted (fun a b => same_cell b a = false) seen ->
    let u := fold_left (fun seen c => if existsb (same_cell c) seen then seen else seen ++ [c])
                       l seen in
    StronglySorted (fun a b => same_cell b a = false) u /\
    (forall c, In c seen -> In c u) /\
    (forall c, In c l -> existsb (same_cell c) u = true).
Proof.
  induction l as [|x l IH]; intros seen Hs; simpl.
  - repeat split; [assumption | tauto | tauto].
  - assert (Hs' : StronglySorted (fun a b => same_cell b a = false)
                    (if existsb (same_cell x) seen then seen else seen ++ [x])).
    { destruct (existsb (same_cell x) seen) eqn:E; [assumption|].
      clear -Hs E. induction Hs as [|a seen Hs IH Hall]; simpl.
      - repeat constructor.
      - simpl in E. apply orb_false_iff in E as [E1 E2]. constructor; [now apply IH|].
        apply Forall_app. split; [assumption|]. repeat constructor. exact E1. }
    destruct (IH _ Hs') as (H1 & H2 & H3). split; [exact H1|]. split.
    + intros c Hc. apply H2. destruct (existsb (same_cell x) seen); [assumption|].
      apply in_or_app. now left.
    + intros c [<-|Hc]; [|now apply H3].
      apply existsb_exists.
      destruct (existsb (same_cell x) seen) eqn:E.
      * apply existsb_exists in E as (r & Hr & Er). exists r. split; [now apply H2 | exact Er].
      * exists x. split; [|apply same_cell_refl]. apply H2, in_or_app. right. now left.
Qed.

Lemma unique_distinct l : StronglySorted (fun a b => same_cell b a = false) (unique l).
Proof. apply (unique_from l []). constructor. Qed.

Lemma unique_covers l c : In c l -> existsb (same_cell c) (unique l) = true.
Proof. apply (unique_from l []). constructor. Qed.

Lemma cell_eqb_trans_sym s a b :
  cell_eqb s a = true -> cell_eqb s b = true -> same_cell b a = true.
Proof.
  destruct s as [x|t|], a as [y|u|], b as [z|w|]; simpl; try discriminate.
  - intros H1 H2. apply Qeq_bool_iff in H1. apply Qeq_bool_iff in H2.
    apply Qeq_bool_iff. now rewrite <- H1, <- H2.
  - intros H1 H2. apply String.eqb_eq in H1. apply String.eqb_eq in H2. subst.
    apply String.eqb_refl.
Qed.

(** Among pairwise different values at most one equals a given cell. *)
Lemma sum_over_matching (segments : list cell) s k :
  StronglySorted (fun a b => same_cell b a = false) segments ->
  list_sum (map (fun u => if cell_eqb s u then k else 0) segments)
  = if existsb (cell_eqb s) segments then k else 0.
Proof.
  intros Hs. induction Hs as [|u segments Hs IH Hall]; [reflexivity|].
  simpl. rewrite IH. destruct (cell_eqb s u) eqn:E; simpl; [|reflexivity].
  destruct (existsb (cell_eqb s) segments) eqn:X; [|lia].
  exfalso. apply existsb_exists in X as (u' & Hu' & E').
  rewrite Forall_forall in Hall. specialize (Hall u' Hu').
  rewrite (cell_eqb_trans_sym s u u' E E') in Hall. discriminate.
Qed.

Lemma count_cons v vals :
  count (v :: vals) = (match v with Some _ => 1 | None => 0 end) + count vals.
Proof. unfold count, present. destruct v; reflexivity. Qed.

Lemma list_sum_map_add {A} (f g : A -> nat) l :
  list_sum (map (fun x => f x + g x) l) = list_sum (map f l) + list_sum (map g l).
Proof. induction l as [|x l IH]; simpl; [reflexivity | rewrite IH; lia]. Qed.

Lemma sum_zero {A} (l : list A) : list_sum (map (fun _ => 0) l) = 0.
Proof. induction l; simpl; auto. Qed.

(** The rows of the segments of a list of pairwise different values are
    the rows whose cell equals one of the values. *)
Lemma segment_counts_add_up (segments : list cell) (cells : list cell) :
  StronglySorted (fun a b => same_cell b a = false) segments ->
  forall vals,
    list_sum (map (fun u => count (select (map (fun c => cell_eqb c u) cells) vals)) segments)
    = count (select (map (fun c => existsb (cell_eqb c) segments) cells) vals).
Proof.
  intros Hs. induction cells as [|s cells IH]; intros vals.
  - cbn [map]. change (select [] vals) with (@nil (option Q)).
    rewrite (map_ext _ (fun _ => 0)) by reflexivity. apply sum_zero.
  - destruct vals as [|v vals].
    + rewrite select_nil.
      rewrite (map_ext _ (fun _ => 0)) by (intros u; now rewrite select_nil).
      apply sum_zero.
    + cbn [map]. rewrite select_cons.
      transitivity
        (list_sum (map (fun u => (if cell_eqb s u
                                  then match v with Some _ => 1 | None => 0 end else 0)
                                 + count (select (map (fun c => cell_eqb c u) cells) vals))
                       segments)).
      { f_equal. apply map_ext. intros u. rewrite select_cons.
        destruct (cell_eqb s u); [apply count_cons | reflexivity]. }
      rewrite list_sum_map_add, (sum_over_matching segments s _ Hs), IH.
      destruct (existsb (cell_eqb s) segments); [now rewrite count_cons | reflexivity].
Qed.

Lemma matches_unique cells c :
  In c cells -> existsb (cell_eqb c) (unique cells) = negb (is_missing c).
Proof.
  intros Hin. destruct c as [x|t|].
  - pose proof (unique_covers cells (Num x) Hin) as H. exact H.
  - pose proof (unique_covers cells (Str t) Hin) as H. exact H.
  - simpl. clear. induction (unique cells); simpl; auto.
Qed.

Lemma find_total (entries : dict cell (dict string SegmentMetrics)) col
      (f : cell -> nat) :
  (forall seg d, In (seg, d) entries ->
     exists s, find String.eqb d col = Some s /\ s_count s = f seg) ->
  segment_count_total entries col = list_sum (map f (map fst entries)).
Proof.
  unfold segment_count_total. induction entries as [|[seg d] entries IH]; intros H;
    [reflexivity|].
  simpl. destruct (H seg d (or_introl eq_refl)) as (s & E & Hs). rewrite E, Hs.
  f_equal. apply IH. intros seg' d' Hin. apply H. now right.
Qed.

(** X18: for a table whose rating columns are numeric, [analyze_by_segments]
    returns one entry for each distinct value of the segment column, in the
    order of first appearance; for each rating column the counts of the
    segments add up to the number of values in the rows whose segment is
    not missing, so to the count of the whole column where no segment is
    missing: every such row is counted in one segment only, and a row
    without a segment in none. *)
Theorem segment_counts_partition_the_rows :
  forall (self : SurveyDataProcessor) (df : DataFrame) (segment_column : string),
    processed_data self = Some df ->
    In segment_column (keys df) ->
    (forall col, In col (rating_columns df) ->
                 exists vals, floats (column df col) = Returned vals) ->
    exists analysis,
      fst (analyze_by_segments self segment_column) = Returned (Some analysis) /\
      map fst analysis = unique (column df segment_column) /\
      (forall col vals,
         In col (rating_columns df) ->
         floats (column df col) = Returned vals ->
         segment_count_total analysis col
         = count (select (map (fun c => negb (is_missing c)) (column df segment_column))
                         vals) /\
         ((forall c, In c (column df segment_column) -> is_missing c = false) ->
          length vals = length (column df segment_column) ->
          segment_count_total analysis col = count vals)).
Proof.
  intros self df sc Hdf Hsc Hnum. unfold analyze_by_segments. rewrite Hdf.
  apply (mem_keys String.eqb String.eqb_eq) in Hsc. rewrite Hsc. cbn [negb].
  destruct (fill_segments_entries df sc (unique (column df sc)) Hnum
              (unique_distinct (column df sc)) [])
    as (entries & Hfill & Hkeys & Hentries); [intros k seg []|].
  rewrite Hfill. cbn [app fst]. exists entries. split; [reflexivity|].
  split; [exact Hkeys|].
  intros col vals Hcol Hvals.
  assert (Htotal : segment_count_total entries col
                   = count (select (map (fun c => negb (is_missing c)) (column df sc)) vals)).
  { rewrite (find_total entries col
               (fun u => count (select (map (fun c => cell_eqb c u) (column df sc)) vals))).
    - rewrite Hkeys, (segment_counts_add_up _ _ (unique_distinct (column df sc))).
      f_equal. f_equal. apply map_ext_in. intros c Hc. now apply matches_unique.
    - intros seg d Hin.
      destruct (segment_metrics_returned df sc seg Hnum) as (d' & Hd' & Hfind).
      rewrite (Hentries seg d Hin) in Hd'. inversion Hd'; subst d'.
      eexists. split; [apply (Hfind col vals Hcol Hvals) | reflexivity]. }
  split; [exact Htotal|].
  intros Hall Hlen. rewrite Htotal. f_equal. apply select_all.
  - intros b Hb. apply in_map_iff in Hb as (c & <- & Hc). now rewrite (Hall c Hc).
  - now rewrite length_map.
Qed.

Lemma segment_counts_partition_the_rows_witness :
  exists analysis,
    fst (analyze_by_segments (cleaned mixed_segment_table) "user_type")
    = Returned (Some analysis) /\
    map fst analysis = [Str "a"; Str "b"; NaN] /\
    segment_count_total analysis "Overall_Rating" = 2.
Proof.
  destruct (segment_counts_partition_the_rows
              (cleaned mixed_segment_table) mixed_segment_table "user_type" eq_refl)
    as (analysis & Hres & Hsegments & Hcounts).
  - simpl. tauto.
  - intros col [<-|[]]; eexists; reflexivity.
  - exists analysis. split; [exact Hres|]. split; [exact Hsegments|].
    destruct (Hcounts "Overall_Rating"%string [Some 5%Q; None; Some 3%Q; Some 4%Q])
      as [Htotal _]; [simpl; tauto | reflexivity |].
    rewrite Htotal. reflexivity.
Defined.

End SegmentFacts.

(** ** Loading and cleaning *)

Module CleaningFacts.

Import Dict Survey DictFacts SurveyFacts MetricsFacts SegmentFacts.

Section Cleaning.

Variable read_csv : string -> option DataFrame.
Variable DateError : Type.
Variable to_datetime : Series -> DateError + Series.
Variable to_number : string -> option Q.

Lemma coerce_idempotent c : coerce to_number (coerce to_number c) = coerce to_number c.
Proof. destruct c as [x|s|]; simpl; try reflexivity. now destruct (to_number s). Qed.

Lemma floats_coerced s : exists vals, floats (map (coerce to_number) s) = Returned vals.
Proof.
  induction s as [|c s (vals & IH)]; simpl; [eauto|].
  destruct c as [x|t|]; simpl; [| destruct (to_number t) |]; rewrite IH; eauto.
Qed.

Lemma column_map (f : Series -> Series) (df : DataFrame) col :
  f [] = [] ->
  column (map (fun c => (fst c, f (snd c))) df) col = f (column df col).
Proof.
  intros Hf. unfold column. induction df as [|[k s] df IH]; simpl; [now rewrite Hf|].
  destruct (String.eqb col k); [reflexivity | exact IH].
Qed.

Lemma keys_map (f : Series -> Series) (df : DataFrame) :
  keys (map (fun c => (fst c, f (snd c))) df) = keys df.
Proof. unfold keys. rewrite map_map. reflexivity. Qed.

Lemma column_set (df : DataFrame) k values col :
  column (set String.eqb df k values) col
  = if String.eqb k col then values else column df col.
Proof.
  unfold column. destruct (eqb_cases String.eqb String.eqb_eq k col) as [[-> E]|[N E]];
    rewrite E.
  - apply (get_set_same String.eqb String.eqb_eq).
  - now apply (get_set_other String.eqb String.eqb_eq).
Qed.

Lemma coerce_step_keys (columns : list string) :
  forall df : DataFrame,
    (forall col, In col columns -> In col (keys df)) ->
    keys (fold_left (fun d col => set String.eqb d col (map (coerce to_number) (column d col)))
                    columns df)
    = keys df.
Proof.
  induction columns as [|c columns IH]; intros df Hin; [reflexivity|].
  assert (E : mem String.eqb df c = true)
    by (apply (mem_keys String.eqb String.eqb_eq), Hin; now left).
  assert (K : keys (set String.eqb df c (map (coerce to_number) (column df c))) = keys df)
    by (rewrite (keys_set String.eqb String.eqb_eq); now rewrite E).
  simpl. rewrite IH; [exact K|].
  intros col Hcol. rewrite K. apply Hin. now right.
Qed.

Lemma coerce_step_column (columns : list string) col :
  forall df : DataFrame,
    column (fold_left (fun d c => set String.eqb d c (map (coerce to_number) (column d c)))
                      columns df) col
    = if existsb (String.eqb col) columns
      then map (coerce to_number) (column df col)
      else column df col.
Proof.
  induction columns as [|c columns IH]; intros df; [reflexivity|].
  cbn [fold_left existsb]. rewrite IH, column_set, (String.eqb_sym col c).
  destruct (String.eqb c col) eqn:E.
  - apply String.eqb_eq in E. subst c. cbn [orb].
    destruct (existsb (String.eqb col) columns); [|reflexivity].
    rewrite map_map. apply map_ext. intros x. apply coerce_idempotent.
  - reflexivity.
Qed.

Lemma keys_coerce_ratings (df : DataFrame) :
  keys (coerce_ratings to_number df) = keys df.
Proof.
  unfold coerce_ratings. apply coerce_step_keys.
  intros col H. unfold rating_columns in H. now apply filter_In in H.
Qed.

Lemma rating_columns_keys (df df' : DataFrame) :
  keys df' = keys df -> rating_columns df' = rating_columns df.
Proof. unfold rating_columns. now intros ->. Qed.

Lemma existsb_eqb_In col columns :
  In col columns -> existsb (String.eqb col) columns = true.
Proof.
  intros H. apply existsb_exists. exists col. split; [assumption | apply String.eqb_refl].
Qed.

Lemma numeric_after_coerce (df : DataFrame) col :
  In col (rating_columns df) ->
  exists vals, floats (column (coerce_ratings to_number df) col) = Returned vals.
Proof.
  intros H. unfold coerce_ratings. rewrite coerce_step_column, (existsb_eqb_In _ _ H).
  apply floats_coerced.
Qed.

Lemma select_nil_values (mask : list bool) : select mask (@nil cell) = [].
Proof. unfold select. now destruct mask. Qed.

Lemma keys_convert_dates (df dated : DataFrame) :
  convert_dates to_datetime df = inr dated -> keys dated = keys df.
Proof.
  unfold convert_dates. destruct (mem String.eqb df "survey_date"%string) eqn:E.
  - destruct (to_datetime (column df "survey_date"%string)) as [e|dates]; [discriminate|].
    intros H. inversion H. rewrite (keys_set String.eqb String.eqb_eq). now rewrite E.
  - intros H. now inversion H.
Qed.

Lemma column_convert_dates (df dated : DataFrame) col :
  convert_dates to_datetime df = inr dated ->
  col <> "survey_date"%string -> column dated col = column df col.
Proof.
  unfold convert_dates. destruct (mem String.eqb df "survey_date"%string).
  - destruct (to_datetime (column df "survey_date"%string)) as [e|dates]; [discriminate|].
    intros H N. inversion H. rewrite column_set.
    destruct (eqb_cases String.eqb String.eqb_eq "survey_date"%string col) as [[E _]|[_ E]];
      [congruence | now rewrite E].
  - intros H _. now inversion H.
Qed.

Lemma existsb_rating_columns (df : DataFrame) col :
  existsb (String.eqb col) (rating_columns df)
  = contains (Text.lower col) "rating"%string && mem String.eqb df col.
Proof.
  destruct (existsb (String.eqb col) (rating_columns df)) eqn:E.
  - apply existsb_exists in E as (c & Hc & Ec). apply String.eqb_eq in Ec. subst c.
    unfold rating_columns in Hc. apply filter_In in Hc as [Hk Hr].
    apply (mem_keys String.eqb String.eqb_eq) in Hk. now rewrite Hk, Hr.
  - destruct (contains (Text.lower col) "rating"%string) eqn:Hr; [|reflexivity].
    destruct (mem String.eqb df col) eqn:Hm; [|reflexivity].
    apply (mem_keys String.eqb String.eqb_eq) in Hm.
    rewrite existsb_eqb_In in E; [discriminate|].
    unfold rating_columns. apply filter_In. now split.
Qed.

Lemma column_coerce_ratings (df : DataFrame) col :
  column (coerce_ratings to_number df) col
  = if contains (Text.lower col) "rating"%string
    then map (coerce to_number) (column df col)
    else column df col.
Proof.
  unfold coerce_ratings. rewrite coerce_step_column, existsb_rating_columns.
  destruct (contains (Text.lower col) "rating"%string); [|reflexivity].
  destruct (mem String.eqb df col) eqn:E; [reflexivity|].
  unfold column. now rewrite (get_not_mem String.eqb _ _ _ E).
Qed.

Lemma column_dropna_all (df : DataFrame) col :
  column (dropna_all df) col
  = select (row_mask (map snd df) (rows df)) (column df col).
Proof.
  unfold dropna_all.
  apply (column_map (select (row_mask (map snd df) (rows df)))), select_nil_values.
Qed.

Lemma keys_dropna_all (df : DataFrame) : keys (dropna_all df) = keys df.
Proof.
  unfold dropna_all. apply (keys_map (select (row_mask (map snd df) (rows df)))).
Qed.

Lemma segments_returned (self : SurveyDataProcessor) (df : DataFrame) segment_column :
  processed_data self = Some df ->
  In segment_column (keys df) ->
  (forall col, In col (rating_columns df) ->
               exists vals, floats (column df col) = Returned vals) ->
  exists analysis,
    fst (analyze_by_segments self segment_column) = Returned (Some analysis).
Proof.
  intros Hdf Hsc Hnum. unfold analyze_by_segments. rewrite Hdf.
  apply (mem_keys String.eqb String.eqb_eq) in Hsc. rewrite Hsc. cbn [negb].
  destruct (fill_segments_entries df segment_column (unique (column df segment_column)) Hnum
              (unique_distinct (column df segment_column)) [])
    as (entries & Hfill & _); [intros k seg []|].
  rewrite Hfill. cbn [app fst]. exists entries. reflexivity.
Qed.

Lemma find_keys {V} (d : dict string V) k v : find String.eqb d k = Some v -> In k (keys d).
Proof.
  unfold keys. induction d as [|[k' v'] d IH]; simpl; [discriminate|].
  destruct (String.eqb k k') eqn:E; [|auto].
  apply String.eqb_eq in E. auto.
Qed.

(** What [clean_data] stores when the date conversion does not raise *)
Lemma clean_data_returned (self : SurveyDataProcessor) (df dated : DataFrame) :
  data self = Some df ->
  convert_dates to_datetime (dropna_all df) = inr dated ->
  clean_data to_datetime to_number self
  = (inr true,
     {| file_path := file_path self;
        data := Some (coerce_ratings to_number dated);
        processed_data := Some (coerce_ratings to_number dated);
        insights := insights self |}).
Proof. intros Hdf Hd. unfold clean_data. now rewrite Hdf, Hd. Qed.

(** X19: the pipeline of the module. Where the file is read and the date
    conversion does not raise, [load_data] and [clean_data] return [True];
    the cleaned table has the columns of the file, and its rating columns
    hold no text, so [calculate_satisfaction_metrics] returns an entry for
    each rating column and for no other, [analyze_by_segments] returns for
    every column of the table, and [generate_executive_summary] returns a
    summary whose [total_responses] is the number of rows left: none of
    them raises. *)
Theorem analyses_after_cleaning_do_not_raise :
  forall (self : SurveyDataProcessor) (df dated : DataFrame) (now : string),
    read_csv (file_path self) = Some df ->
    convert_dates to_datetime (dropna_all df) = inr dated ->
    let loaded := snd (load_data read_csv self) in
    let prepared := snd (clean_data to_datetime to_number loaded) in
    fst (load_data read_csv self) = true /\
    fst (clean_data to_datetime to_number loaded) = inr true /\
    exists table metrics,
      data prepared = Some table /\
      processed_data prepared = Some table /\
      keys table = keys df /\
      (forall col, In col (rating_columns table) ->
                   exists vals, floats (column table col) = Returned vals) /\
      fst (calculate_satisfaction_metrics prepared) = Returned (Some metrics) /\
      (forall col, In col (keys metrics) <-> In col (rating_columns df)) /\
      (forall segment_column,
         In segment_column (keys df) ->
         exists analysis,
           fst (analyze_by_segments prepared segment_column) = Returned (Some analysis)) /\
      exists summary,
        generate_executive_summary now (snd (calculate_satisfaction_metrics prepared))
        = Returned (Some summary) /\
        total_responses summary = rows table.
Proof.
  intros self df dated now Hread Hdated loaded prepared.
  assert (Hloaded : load_data read_csv self
                    = (true, {| file_path := file_path self;
                                data := Some df;
                                processed_data := processed_data self;
                                insights := insights self |}))
    by (unfold load_data; now rewrite Hread).
  subst prepared loaded. rewrite Hloaded. cbn [fst snd].
  rewrite (clean_data_returned
             {| file_path := file_path self; data := Some df;
                processed_data := processed_data self; insights := insights self |}
             df dated eq_refl Hdated).
  cbn [fst snd file_path insights].
  split; [reflexivity|]. split; [reflexivity|].
  set (table := coerce_ratings to_number dated).
  set (prepared := {| file_path := file_path self; data := Some table;
                      processed_data := Some table; insights := insights self |}).
  assert (Hkeys : keys table = keys df).
  { unfold table. now rewrite keys_coerce_ratings, (keys_convert_dates _ _ Hdated),
      keys_dropna_all. }
  assert (Hnum : forall col, In col (rating_columns table) ->
                             exists vals, floats (column table col) = Returned vals).
  { intros col Hcol. unfold table in *.
    rewrite (rating_columns_keys dated _ (keys_coerce_ratings dated)) in Hcol.
    now apply numeric_after_coerce. }
  destruct (metrics_of_table prepared table eq_refl Hnum)
    as (metrics & Hcalc & Hfind & _ & Hentries).
  exists table, metrics. rewrite Hcalc. cbn [fst snd].
  repeat (split; [reflexivity || assumption|]).
  split; [|split].
  - intros col. rewrite <- (rating_columns_keys df table Hkeys). split.
    + unfold keys. rewrite in_map_iff. intros ([k m] & <- & Hin).
      now apply (Hentries k m).
    + intros Hcol. destruct (Hnum col Hcol) as (vals & Hvals).
      apply (find_keys metrics col _ (Hfind col vals Hcol Hvals)).
  - intros sc Hsc. apply (segments_returned prepared table sc eq_refl); [|exact Hnum].
    now rewrite Hkeys.
  - unfold generate_executive_summary. cbn. eauto.
Qed.

(** X20: what [clean_data] does to the cells. It keeps the rows in which
    some column has a value, in their order. In a column whose lower-cased
    name contains "rating" a number and a missing value stay as they are
    and a text becomes the number read in it, or a missing value; every
    other column but the date keeps its cells. So a table without an empty row
    and without text in its rating columns is left as it was. *)
Theorem cleaning_changes_only_rating_text :
  forall (self : SurveyDataProcessor) (df dated : DataFrame),
    data self = Some df ->
    convert_dates to_datetime (dropna_all df) = inr dated ->
    exists table,
      processed_data (snd (clean_data to_datetime to_number self)) = Some table /\
      (forall col,
         col <> "survey_date"%string ->
         let kept := select (row_mask (map snd df) (rows df)) (column df col) in
         (contains (Text.lower col) "rating"%string = true ->
          column table col = map (coerce to_number) kept) /\
         (contains (Text.lower col) "rating"%string = false -> column table col = kept) /\
         ((forall b, In b (row_mask (map snd df) (rows df)) -> b = true) ->
          length (row_mask (map snd df) (rows df)) = length (column df col) ->
          (forall t, ~ In (Str t) (column df col)) ->
          column table col = column df col)) /\
      (forall x, coerce to_number (Num x) = Num x) /\
      coerce to_number NaN = NaN /\
      (forall t, coerce to_number (Str t)
                 = match to_number t with Some x => Num x | None => NaN end).
Proof.
  intros self df dated Hdf Hdated.
  rewrite (clean_data_returned self df dated Hdf Hdated). cbn [snd processed_data].
  eexists. split; [reflexivity|]. split; [|repeat split].
  intros col Hcol.
  set (kept := select (row_mask (map snd df) (rows df)) (column df col)).
  assert (E : column (coerce_ratings to_number dated) col
              = if contains (Text.lower col) "rating"%string
                then map (coerce to_number) kept else kept).
  { rewrite column_coerce_ratings, (column_convert_dates _ _ col Hdated Hcol),
      column_dropna_all. reflexivity. }
  rewrite E. split; [now intros ->|]. split; [now intros ->|].
  intros Hall Hlen Htext.
  assert (K : kept = column df col) by (now apply select_all).
  rewrite K. destruct (contains (Text.lower col) "rating"%string); [|reflexivity].
  rewrite <- (map_id (column df col)) at 2. apply map_ext_in.
  intros [x|t|] Hin; [reflexivity | now destruct (Htext t) | reflexivity].
Qed.

End Cleaning.

Lemma analyses_after_cleaning_do_not_raise_witness :
  let self := Survey.init "survey.csv"%string in
  let loaded := snd (load_data (fun _ => Some raw_table) self) in
  let prepared := snd (clean_data (fun s => @inr unit Series s) rating_of_text loaded) in
  exists table metrics,
    processed_data prepared = Some table /\
    fst (calculate_satisfaction_metrics prepared) = Returned (Some metrics) /\
    (forall col, In col (keys metrics) <-> In col (rating_columns raw_table)).
Proof.
  destruct (analyses_after_cleaning_do_not_raise
              (fun _ => Some raw_table) unit (fun s => inr s) rating_of_text
              (Survey.init "survey.csv"%string) raw_table (dropna_all raw_table) "now"%string
              eq_refl eq_refl)
    as (_ & _ & table & metrics & _ & H1 & _ & _ & H2 & H3 & _).
  exists table, metrics. repeat split; try assumption; apply H3.
Defined.

Lemma cleaning_changes_only_rating_text_witness :
  exists table,
    processed_data (snd (clean_data (fun s => @inr unit Series s) rating_of_text
                                    (cleaned raw_table))) = Some table /\
    column table "Overall_Rating"%string = [Num 5; NaN] /\
    column table "user_type"%string = [Str "new"%string; Str "new"%string].
Proof.
  destruct (cleaning_changes_only_rating_text
              unit (fun s => inr s) rating_of_text
              (cleaned raw_table) raw_table (dropna_all raw_table) eq_refl eq_refl)
    as (table & Hc & Hcols & _).
  exists table. split; [exact Hc|]. split.
  - destruct (Hcols "Overall_Rating"%string) as (H & _); [discriminate|].
    now rewrite H.
  - destruct (Hcols "user_type"%string) as (_ & H & _); [discriminate|].
    now rewrite H.
Defined.

End CleaningFacts.

(** ** The HTML report *)

Module ReportGeneratorFacts.

Import Dict ReportGenerator.

Lemma append_empty (s : string) : (s ++ EmptyString)%string = s.
Proof. induction s as [|c s IH]; simpl; [reflexivity | now rewrite IH]. Qed.

Lemma append_snoc (s t : string) (c : ascii) :
  ((s ++ String c EmptyString) ++ t)%string = (s ++ String c t)%string.
Proof. induction s as [|d s IH]; simpl; [reflexivity | now rewrite IH]. Qed.

(** Literal text is copied: a template without a brace is returned as it
    is. *)
Lemma run_literal (V E : Type)
      (render : dict string V -> V -> string -> option ascii -> string -> bool
                -> Format.error E + string)
      (kwargs : dict string V) (template : string) :
  (forall c, In c (list_ascii_of_string template) ->
             Ascii.eqb c "{" = false /\ Ascii.eqb c "}" = false) ->
  forall out,
    Format.run render kwargs Format.Literal out template
    = inr (out ++ template)%string.
Proof.
  induction template as [|c template IH]; intros Hplain out; simpl.
  - now rewrite append_empty.
  - destruct (Hplain c (or_introl eq_refl)) as [H1 H2]. rewrite H1, H2.
    rewrite IH by (intros d Hd; apply Hplain; now right).
    now rewrite append_snoc.
Qed.

(** X21: [create_html_report] never writes a report. The template holds
    the braces of its style rules as they are, so [str.format] reads
    [ font-family] as the name of its first replacement field and raises
    [KeyError] for it, whatever analysis results were loaded and whatever
    the path; no file is created or changed. *)
Theorem html_report_is_never_written :
  forall (str : Q -> string) (title : string -> string) (E : Type)
         (render : dict string value -> value -> string -> option ascii -> string -> bool
                   -> Format.error E + string)
         (now : string) (self : ResearchReportGenerator) (analysis_results : ReportData)
         (output_path : string) (files : dict string string),
    create_html_report str title render now self output_path files
    = (inl (Format.KeyError " font-family"), files) /\
    create_html_report str title render now
      (snd (load_analysis_results self analysis_results)) output_path files
    = (inl (Format.KeyError " font-family"), files).
Proof.
  intros str title E render now self analysis_results output_path files.
  unfold create_html_report.
  assert (H : forall kwargs : ReportData,
            Format.format render html_template (template_arguments str title now kwargs)
            = inl (Format.KeyError " font-family")).
  { intros kwargs. unfold template_arguments. vm_compute. reflexivity. }
  now rewrite !H.
Qed.

End ReportGeneratorFacts.

(** ** Standardized ratings *)

Module DataCleaningFacts.

Import Dict DataCleaning DictFacts FeedbackFacts NumFacts.

Lemma max_from (vals : list number) :
  finite vals ->
  forall acc,
    (acc = Missing \/ exists a, acc = Finite a) ->
    let r := fold_left
               (fun m v =>
                  match v, m with
                  | Missing, _ => m
                  | _, Missing => v
                  | _, _ => if gt v m then v else m
                  end)
               vals acc in
    (r = Missing /\ acc = Missing /\ forall x, ~ In (Finite x) vals) \/
    exists m,
      r = Finite m /\
      (In (Finite m) vals \/ acc = Finite m) /\
      (forall a, acc = Finite a -> (a <= m)%Q) /\
      (forall x, In (Finite x) vals -> (x <= m)%Q).
Proof.
  induction vals as [|v vals IH]; intros Hfin acc Hacc; simpl.
  - destruct Hacc as [->|(a & ->)].
    + left. repeat split. intros x [].
    + right. exists a. repeat split; auto.
      * intros b H. inversion H. apply Qle_refl.
      * intros x [].
  - assert (Hfin' : finite vals) by (intros w Hw; apply Hfin; now right).
    destruct (Hfin v (or_introl eq_refl)) as [->|(x & ->)].
    + destruct (IH Hfin' acc Hacc) as [(Hr & Ha & Hnone)|(m & Hr & Hin & Hle & Hall)].
      * left. split; [exact Hr|]. split; [exact Ha|].
        intros x [H|H]; [discriminate | now apply (Hnone x)].
      * right. exists m. split; [exact Hr|]. split; [tauto|]. split; [exact Hle|].
        intros x [H|H]; [discriminate | now apply Hall].
    + destruct Hacc as [->|(a & ->)].
      * destruct (IH Hfin' (Finite x) (or_intror (ex_intro _ x eq_refl)))
          as [(_ & Ha & _)|(m & Hr & Hin & Hle & Hall)]; [discriminate|].
        right. exists m. split; [exact Hr|]. split.
        { left. destruct Hin as [Hin|Hin]; [now right | left; now symmetry]. }
        split; [discriminate|].
        intros y [H|H]; [inversion H; subst; now apply Hle | now apply Hall].
      * cbn [gt]. destruct (Qgtb x a) eqn:G.
        -- apply Qgtb_lt in G.
           destruct (IH Hfin' (Finite x) (or_intror (ex_intro _ x eq_refl)))
             as [(_ & Ha & _)|(m & Hr & Hin & Hle & Hall)]; [discriminate|].
           right. exists m. split; [exact Hr|]. split.
           { left. destruct Hin as [Hin|Hin]; [now right | left; now symmetry]. }
           split.
           { intros b H. inversion H; subst. apply Qle_trans with x; [now apply Qlt_le_weak|].
             now apply Hle. }
           intros y [H|H]; [inversion H; subst; now apply Hle | now apply Hall].
        -- apply Qgtb_le in G.
           destruct (IH Hfin' (Finite a) (or_intror (ex_intro _ a eq_refl)))
             as [(_ & Ha & _)|(m & Hr & Hin & Hle & Hall)]; [discriminate|].
           right. exists m. split; [exact Hr|]. split.
           { destruct Hin as [Hin|Hin]; [left; now right | now right]. }
           split; [exact Hle|].
           intros y [H|H]; [|now apply Hall].
           inversion H; subst. apply Qle_trans with a; [exact G | now apply Hle].
Qed.

(** The maximum of a column without infinities is one of its values and
    bounds the others. *)
Lemma max_finite (vals : list number) m :
  finite vals -> max vals = Finite m ->
  In (Finite m) vals /\ forall x, In (Finite x) vals -> (x <= m)%Q.
Proof.
  intros Hfin Hmax.
  destruct (max_from vals Hfin Missing (or_introl eq_refl))
    as [(Hr & _)|(m' & Hr & Hin & _ & Hall)];
    unfold max in Hmax; rewrite Hmax in Hr; [discriminate|].
  inversion Hr; subst m'. split; [|exact Hall].
  destruct Hin as [Hin|Hin]; [exact Hin | discriminate].
Qed.

Lemma max_missing (vals : list number) :
  finite vals -> max vals = Missing -> forall v, In v vals -> v = Missing.
Proof.
  intros Hfin Hmax v Hv.
  destruct (max_from vals Hfin Missing (or_introl eq_refl))
    as [(_ & _ & Hnone)|(m' & Hr & _)].
  - destruct (Hfin v Hv) as [->|(x & ->)]; [reflexivity | now destruct (Hnone x)].
  - unfold max in Hmax. rewrite Hmax in Hr. discriminate.
Qed.

Lemma column_set_table (df : DataFrame) k values col :
  column (set String.eqb df k values) col
  = if String.eqb k col then values else column df col.
Proof.
  unfold column. destruct (eqb_cases String.eqb String.eqb_eq k col) as [[-> E]|[N E]];
    rewrite E.
  - apply (get_set_same String.eqb String.eqb_eq).
  - now apply (get_set_other String.eqb String.eqb_eq).
Qed.





(** X23: where the highest rating is the target already, or the column is
    not in the table, [standardize_ratings] returns the table as it is; a
    column that holds a text makes it raise [TypeError]; and a column with
    rows and without infinities whose highest rating is 0, or which holds
    no rating at all, is standardized for a target other than 0 to a column
    without any finite number: 0 becomes NaN and a negative rating an
    infinity. *)
Theorem standardize_ratings_edge_cases :
  forall (df : DataFrame) (rating_col : string) (target_scale : Q),
    (~ In rating_col (keys df) ->
     standardize_ratings df rating_col target_scale = Returned df) /\
    (forall vals m,
       In rating_col (keys df) ->
       numbers (column df rating_col) = Returned vals ->
       max vals = Finite m -> (m == target_scale)%Q ->
       standardize_ratings df rating_col target_scale = Returned df) /\
    (forall t,
       In (Str t) (column df rating_col) ->
       standardize_ratings df rating_col target_scale = Raised TypeError) /\
    (forall vals,
       In rating_col (keys df) ->
       numbers (column df rating_col) = Returned vals ->
       vals <> [] ->
       finite vals ->
       (max vals = Missing \/ exists m, max vals = Finite m /\ (m == 0)%Q) ->
       ~ (target_scale == 0)%Q ->
       exists table,
         standardize_ratings df rating_col target_scale = Returned table /\
         forall x, ~ In (Float (Finite x)) (column table (rating_col ++ "_standardized"))).
Proof.
  intros df rating_col target_scale. unfold standardize_ratings.
  split; [|split; [|split]].
  - intros Hnot. destruct (mem String.eqb df rating_col) eqn:M; [|reflexivity].
    apply (mem_keys String.eqb String.eqb_eq) in M. contradiction.
  - intros vals m Hin Hvals Hmax Heq.
    apply (mem_keys String.eqb String.eqb_eq) in Hin. rewrite Hin, Hvals, Hmax.
    cbn [negb differs]. apply Qeq_bool_iff in Heq. now rewrite Heq.
  - intros t Ht.
    assert (M : mem String.eqb df rating_col = true).
    { destruct (mem String.eqb df rating_col) eqn:M; [reflexivity|].
      unfold column in Ht. rewrite (get_not_mem String.eqb _ _ _ M) in Ht. destruct Ht. }
    rewrite M. cbn [negb].
    assert (E : numbers (column df rating_col) = Raised TypeError).
    { induction (column df rating_col) as [|c s IH]; [destruct Ht|].
      destruct Ht as [->|Ht]; [reflexivity|].
      simpl. destruct c as [n|u]; [|reflexivity]. now rewrite (IH Ht). }
    now rewrite E.
  - intros vals Hin Hvals _ Hfin Hmax Ht.
    apply (mem_keys String.eqb String.eqb_eq) in Hin. rewrite Hin, Hvals. cbn [negb].
    assert (Et : Qeq_bool target_scale 0 = false).
    { destruct (Qeq_bool target_scale 0) eqn:B; [|reflexivity].
      apply Qeq_bool_iff in B. contradiction. }
    assert (D : differs (max vals) target_scale = true).
    { destruct Hmax as [->|(m & -> & Hm)]; [reflexivity|].
      cbn [differs]. destruct (Qeq_bool m target_scale) eqn:B; [|reflexivity].
      apply Qeq_bool_iff in B. rewrite Hm in B. symmetry in B. contradiction. }
    rewrite D. eexists. split; [reflexivity|].
    rewrite column_set_table, String.eqb_refl. intros x Hx.
    apply in_map_iff in Hx as (v & Hv & Hin').
    destruct Hmax as [Hmax|(m & Hmax & Hm)].
    + rewrite (max_missing vals Hfin Hmax v Hin') in Hv. discriminate.
    + rewrite Hmax in Hv. destruct (max_finite vals m Hfin Hmax) as [_ Hle].
      destruct (Hfin v Hin') as [->|(y & ->)]; [discriminate|].
      assert (Hy : (y <= 0)%Q) by (rewrite <- Hm; now apply Hle).
      cbn [div] in Hv. apply Qeq_bool_iff in Hm. rewrite Hm in Hv.
      assert (G : Qgtb y 0 = false) by now apply Qgtb_le.
      rewrite G in Hv. destruct (Qgtb 0 y); cbn [mul round] in Hv;
        [rewrite Et in Hv|]; discriminate.
Qed.

Lemma standardize_ratings_edge_cases_witness :
  standardize_ratings ten_point_table "user" 5 = Raised TypeError /\
  standardize_ratings ten_point_table "rating" 8 = Returned ten_point_table /\
  exists table,
    standardize_ratings zero_table "rating" 5 = Returned table /\
    column table "rating_standardized"
    = [Float Missing; Float (Infinite false); Float Missing].
Proof.
  destruct (standardize_ratings_edge_cases ten_point_table "user" 5) as (_ & _ & H3 & _).
  destruct (standardize_ratings_edge_cases ten_point_table "rating" 8) as (_ & H2 & _).
  destruct (standardize_ratings_edge_cases zero_table "rating" 5) as (_ & _ & _ & H4).
  split; [apply (H3 "a"%string); simpl; tauto|].
  split.
  - apply (H2 [Finite 1; Finite 8; Missing; Finite 4] 8%Q);
      [simpl; tauto | reflexivity | reflexivity | reflexivity].
  - destruct (H4 [Finite 0; Finite (-1); Missing]) as (table & Hres & _).
    + simpl. tauto.
    + reflexivity.
    + discriminate.
    + intros v [<-|[<-|[<-|[]]]]; eauto.
    + right. exists 0%Q. split; reflexivity.
    + discriminate.
    + exists table. split; [exact Hres|].
      vm_compute in Hres. inversion Hres. reflexivity.
Defined.

End DataCleaningFacts.
